(** * AuraPurchasesManagement: purchase pipeline, shallow embedding

    The repository moves a purchase from a web front end
    (CustomerFacingService) over a Kafka topic to a second service
    (CustomerManagementAPI) that stores it in MongoDB and serves the
    purchase history back.  This development embeds the Python code of
    both services and states the properties of the design document
    against it.

    Conventions of the embedding:
    - a Python [str] is a list of Unicode code points ([N]);
    - a Python [int] is a [Z]; a finite Python [float] is the exact
      rational value [Q] of a binary64 number, a literal standing for
      the float nearest to it, and arithmetic on floats rounds to the
      nearest float ([inf] and [nan] are not modelled);
    - an object with attributes is a record and a method takes the
      object and returns the updated object (explicit state passing);
    - a call that may raise returns a [result];
    - whatever an external collaborator (broker, MongoDB, the upstream
      HTTP service, the clock) answers is an explicit argument. *)

From Stdlib Require Import List Bool ZArith NArith QArith Qround Qabs Lia.
From Stdlib Require Import String Ascii.
From Stdlib Require Import Sorted Permutation.
Import ListNotations.

Set Implicit Arguments.

(** ** Python strings *)

Module Py.

Definition str := list N.
Definition bytes := list N.

(** A literal of the source, written as a Rocq string. *)
Definition lit (s : string) : str :=
  map N_of_ascii (list_ascii_of_string s).

Fixpoint str_eqb (a b : str) : bool :=
  match a, b with
  | [], [] => true
  | x :: a', y :: b' => N.eqb x y && str_eqb a' b'
  | _, _ => false
  end.

Definition len (s : str) : Z := Z.of_nat (List.length s).

(** [len] of a list. *)
Definition len_list {A} (l : list A) : Z := Z.of_nat (List.length l).

(** [str.isspace] on one code point: the characters [str.strip()]
    removes. *)
Definition isspace (c : N) : bool :=
  ((9 <=? c) && (c <=? 13)
   || (28 <=? c) && (c <=? 32)
   || (c =? 133) || (c =? 160) || (c =? 5760)
   || (8192 <=? c) && (c <=? 8202)
   || (c =? 8232) || (c =? 8233) || (c =? 8239)
   || (c =? 8287) || (c =? 12288))%N.

Fixpoint lstrip (s : str) : str :=
  match s with
  | [] => []
  | c :: s' => if isspace c then lstrip s' else s
  end.

Definition rstrip (s : str) : str := rev (lstrip (rev s)).

Definition strip (s : str) : str := rstrip (lstrip s).

(** Truth value of a string: [if s] holds for a non-empty one. *)
Definition truthy (s : str) : bool :=
  match s with [] => false | _ :: _ => true end.

(** [s.replace(old, new)] for a one-character [old]. *)
Definition replace_char (old : N) (new : str) (s : str) : str :=
  flat_map (fun c => if N.eqb c old then new else [c]) s.

(** [c.encode('utf-8')] for one code point; [None] is
    [UnicodeEncodeError] (a lone surrogate). *)
Definition utf8_char (c : N) : option bytes :=
  (if c <? 128 then Some [c]
   else if c <? 2048 then
     Some [N.lor 192 (N.shiftr c 6); N.lor 128 (N.land c 63)]
   else if c <? 65536 then
     if (55296 <=? c) && (c <=? 57343) then None
     else Some [N.lor 224 (N.shiftr c 12);
                N.lor 128 (N.land (N.shiftr c 6) 63);
                N.lor 128 (N.land c 63)]
   else if c <? 1114112 then
     Some [N.lor 240 (N.shiftr c 18);
           N.lor 128 (N.land (N.shiftr c 12) 63);
           N.lor 128 (N.land (N.shiftr c 6) 63);
           N.lor 128 (N.land c 63)]
   else None)%N.

Fixpoint encode_utf8 (s : str) : option bytes :=
  match s with
  | [] => Some []
  | c :: s' =>
      match utf8_char c, encode_utf8 s' with
      | Some b, Some bs => Some (b ++ bs)
      | _, _ => None
      end
  end.

Definition is_ascii (s : str) : bool := forallb (fun c => (c <? 128)%N) s.

End Py.

Import Py.

(** ** Exceptions and results *)

(** The exception classes the code raises or catches.  Each carries the
    text [str(e)] yields.  [ValidationError] (pydantic) and
    [UnicodeEncodeError] are subclasses of [ValueError];
    [KafkaTimeoutError] is a subclass of [KafkaError]; the two httpx
    classes are unrelated to each other; all of them derive from
    [Exception]. *)
Inductive exn : Type :=
| ValueError (msg : str)
| ValidationError (msg : str)
| UnicodeEncodeError (msg : str)
| TypeError (msg : str)
| KeyError (msg : str)
| KafkaError (msg : str)
| KafkaTimeoutError (msg : str)
| HTTPException (status_code : Z) (detail : str)
| TimeoutException (msg : str)
| ConnectError (msg : str)
| OtherException (msg : str).

Definition exn_str (e : exn) : str :=
  match e with
  | ValueError m | ValidationError m | UnicodeEncodeError m | TypeError m
  | KeyError m | KafkaError m | KafkaTimeoutError m | TimeoutException m
  | ConnectError m | OtherException m => m
  | HTTPException _ d => d
  end.

(** [isinstance(e, ValueError)] *)
Definition is_ValueError (e : exn) : bool :=
  match e with
  | ValueError _ | ValidationError _ | UnicodeEncodeError _ => true
  | _ => false
  end.

(** [isinstance(e, KafkaError)] *)
Definition is_KafkaError (e : exn) : bool :=
  match e with
  | KafkaError _ | KafkaTimeoutError _ => true
  | _ => false
  end.

Definition is_KafkaTimeoutError (e : exn) : bool :=
  match e with KafkaTimeoutError _ => true | _ => false end.

Definition is_HTTPException (e : exn) : bool :=
  match e with HTTPException _ _ => true | _ => false end.

Inductive result (A : Type) : Type :=
| Return (a : A)
| Raise (e : exn).
Arguments Return {A} a.
Arguments Raise {A} e.

Definition bind {A B} (r : result A) (k : A -> result B) : result B :=
  match r with
  | Return a => k a
  | Raise e => Raise e
  end.

Notation "x <- c ;; k" := (bind c (fun x => k))
  (at level 61, c at next level, right associativity).

Definition raised {A} (r : result A) : bool :=
  match r with Return _ => false | Raise _ => true end.

(** ** Python values *)

(** The values a decoded JSON payload or a MongoDB document holds. *)
#[local] Set Warnings "-register-all".
Inductive value : Type :=
| VNone
| VBool (b : bool)
| VInt (z : Z)
| VFloat (q : Q)
| VStr (s : str)
| VList (l : list value)
| VDict (d : list (str * value))
| VDatetime (t : Z)
| VObjectId (oid : str).

(** A [dict] with string keys, in insertion order; a key occurs once. *)
Definition dict := list (str * value).

Fixpoint dict_get (k : str) (d : dict) : option value :=
  match d with
  | [] => None
  | (k', v) :: d' => if str_eqb k k' then Some v else dict_get k d'
  end.

(** [d[k] = v]: replaces the binding in place or appends a new one. *)
Fixpoint dict_set (k : str) (v : value) (d : dict) : dict :=
  match d with
  | [] => [(k, v)]
  | (k', v') :: d' =>
      if str_eqb k k' then (k, v) :: d' else (k', v') :: dict_set k v d'
  end.
#[local] Set Warnings "register-all".

(** [json.dumps] raises [TypeError] on a value that has no JSON form. *)
Fixpoint json_serializable (v : value) : bool :=
  match v with
  | VList l => forallb json_serializable l
  | VDict d => forallb (fun kv => json_serializable (snd kv)) d
  | VDatetime _ | VObjectId _ => false
  | _ => true
  end.

(** An instant, as the clock or a parsed timestamp gives it. *)
Definition datetime := Z.
Bind Scope Z_scope with datetime.

(** ** Python floats

    A finite [float] is an IEEE binary64 number and is given by its
    exact value.  [double q] is the binary64 number nearest to [q],
    ties to the even significand, with gradual underflow: what reading
    a literal, converting an [int] and every arithmetic operation
    round to.  Results beyond the largest finite number, where Python
    has [inf], are not modelled. *)

(** [round(x)] to the nearest integer, ties to the even one. *)
Definition round_half_even (q : Q) : Z :=
  let f := Qfloor q in
  match Qcompare (q - inject_Z f) (1 # 2) with
  | Lt => f
  | Gt => (f + 1)%Z
  | Eq => if Z.even f then f else (f + 1)%Z
  end.

Definition pow2 (e : Z) : Q :=
  if (0 <=? e)%Z then inject_Z (2 ^ e) else 1 # Z.to_pos (2 ^ (- e)).

(** The exponent of the leading bit of a number above zero. *)
Definition ilog2 (q : Q) : Z :=
  let e := (Z.log2 (Qnum q) - Z.log2 (Zpos (Qden q)))%Z in
  if Qle_bool (pow2 e) q then e else (e - 1)%Z.

(** 53 significant bits, the last one worth at least [2^-1074]. *)
Definition double_pos (q : Q) : Q :=
  let ulp := pow2 (Z.max (ilog2 q - 52) (-1074)) in
  Qred (inject_Z (round_half_even (q / ulp)) * ulp).

Definition double (q : Q) : Q :=
  match Qcompare q 0 with
  | Eq => 0
  | Gt => double_pos q
  | Lt => - double_pos (- q)
  end.

(** ** Library behaviour the repository relies on

    What pydantic coerces in lax mode beyond the exact types, what
    [datetime.fromisoformat] accepts and how the interpreter's [sum]
    adds floats is decided outside the repository; the embedding is
    parametric in them. *)
Class PyLib : Type := {
  (** lax coercion of a value that is neither [int] nor [float] to
      [float] ([None]: not coercible) *)
  lax_float : value -> option Q;
  (** lax coercion of a value that is not an [int] to [int] *)
  lax_int : value -> option Z;
  (** [datetime.fromisoformat]; [None] is [ValueError] *)
  fromisoformat : str -> option datetime;
  (** [str(v)] of a value that is neither a [str] nor an [ObjectId] *)
  str_other : value -> str;
  (** whether [sum] adds floats with Neumaier's compensation (CPython
      3.12 and later) or one after the other *)
  sum_compensated : bool
}.

(** The decimal number the digits of a string spell, other characters
    skipped. *)
Definition digits_value (s : str) : Z :=
  fold_left
    (fun acc c =>
       if ((48 <=? c) && (c <=? 57))%N then (acc * 10 + Z.of_N (c - 48))%Z else acc)
    s 0%Z.

(** A library that coerces nothing and reads a timestamp as the number
    its digits spell; used to run the model on concrete inputs. *)
Definition strict_lib : PyLib :=
  {| lax_float := fun _ => None;
     lax_int := fun _ => None;
     fromisoformat := fun s => Some (digits_value s);
     str_other := fun _ => lit "?";
     sum_compensated := false |}.

(** The same library with the compensated [sum]. *)
Definition compensating_lib : PyLib :=
  {| lax_float := fun _ => None;
     lax_int := fun _ => None;
     fromisoformat := fun s => Some (digits_value s);
     str_other := fun _ => lit "?";
     sum_compensated := true |}.

Section Fields.
Context {lib : PyLib}.

Definition as_float (v : value) : option Q :=
  match v with
  | VFloat q => Some q
  | VInt z => Some (inject_Z z)
  | _ => lax_float v
  end.

Definition as_int (v : value) : option Z :=
  match v with
  | VInt z => Some z
  | _ => lax_int v
  end.

(** A required [str] field. *)
Definition str_field (name : string) (data : dict) : result str :=
  match dict_get (lit name) data with
  | None => Raise (ValidationError (lit "Field required"))
  | Some (VStr s) => Return s
  | Some _ => Raise (ValidationError (lit "Input should be a valid string"))
  end.

(** A required [float] field with [gt=0]. *)
Definition positive_float_field (name : string) (data : dict) : result Q :=
  match dict_get (lit name) data with
  | None => Raise (ValidationError (lit "Field required"))
  | Some v =>
      match as_float v with
      | None => Raise (ValidationError (lit "Input should be a valid number"))
      | Some q =>
          if Qle_bool q 0
          then Raise (ValidationError (lit "Input should be greater than 0"))
          else Return q
      end
  end.

(** A required [float] field. *)
Definition float_field (name : string) (data : dict) : result Q :=
  match dict_get (lit name) data with
  | None => Raise (ValidationError (lit "Field required"))
  | Some v =>
      match as_float v with
      | None => Raise (ValidationError (lit "Input should be a valid number"))
      | Some q => Return q
      end
  end.

(** A required [int] field. *)
Definition int_field (name : string) (data : dict) : result Z :=
  match dict_get (lit name) data with
  | None => Raise (ValidationError (lit "Field required"))
  | Some v =>
      match as_int v with
      | None => Raise (ValidationError (lit "Input should be a valid integer"))
      | Some z => Return z
      end
  end.

(** A required [str] field with [min_length=1, max_length=100]. *)
Definition bounded_str_field (name : string) (data : dict) : result str :=
  s <- str_field name data ;;
  if (len s <? 1)%Z
  then Raise (ValidationError (lit "String should have at least 1 character"))
  else if (100 <? len s)%Z
  then Raise (ValidationError (lit "String should have at most 100 characters"))
  else Return s.

End Fields.

(** Unpacking [**data] into a model constructor: [data] has to be a
    mapping. *)
Definition as_mapping (v : value) : result dict :=
  match v with
  | VDict d => Return d
  | _ => Raise (TypeError (lit "argument after ** must be a mapping"))
  end.

(** ** Broker client (aiokafka), as the producer configures it *)

Module RecordMetadata.
Record t := mk { topic : str; partition : Z; offset : Z }.
End RecordMetadata.

Module AIOKafkaProducer.

(** What reaches the broker for one record.  The value is the payload
    [json.dumps] encodes; the JSON text itself is not modelled. *)
Record wire_record := mk_wire {
  wire_topic : str;
  wire_key : option bytes;
  wire_value : dict;
  wire_partition : option Z
}.

(** The client object: its identity and the records it has accepted. *)
Record t := mk { client_id : nat; accepted : list wire_record }.

(** What the broker does with one [send]: refuse the record before it
    is queued, fail the delivery, or acknowledge it. *)
Inductive reply : Type :=
| EnqueueRaises (e : exn)
| DeliveryRaises (e : exn)
| Delivered (md : RecordMetadata.t).

(** The awaitable [send] hands back: awaiting it yields the metadata
    or raises. *)
Definition future := result RecordMetadata.t.

(** [key_serializer=lambda k: k.encode('utf-8') if k else None] *)
Definition key_serializer (k : str) : result (option bytes) :=
  if truthy k then
    match encode_utf8 k with
    | Some b => Return (Some b)
    | None => Raise (UnicodeEncodeError (lit "surrogates not allowed"))
    end
  else Return None.

(** [value_serializer=lambda v: json.dumps(v).encode('utf-8')] *)
Definition value_serializer (v : dict) : result dict :=
  if json_serializable (VDict v) then Return v
  else Raise (TypeError (lit "Object is not JSON serializable")).

(** The future a queued record gets. *)
Definition future_of (r : reply) : future :=
  match r with
  | Delivered md => Return md
  | DeliveryRaises e => Raise e
  | EnqueueRaises e => Raise e
  end.

(** [await client.send(topic, key=, value=, partition=)]: unless the
    client refuses the record, it serializes key and value, queues the
    record and hands back its future. *)
Definition send (self : t) (topic key : str) (value : dict)
    (partition : option Z) (r : reply) : result future * t :=
  match r with
  | EnqueueRaises e => (Raise e, self)
  | _ =>
      match key_serializer key, value_serializer value with
      | Return kb, Return vb =>
          let w := mk_wire topic kb vb partition in
          (Return (future_of r), mk (client_id self) (accepted self ++ [w]))
      | Raise e, _ => (Raise e, self)
      | _, Raise e => (Raise e, self)
      end
  end.

End AIOKafkaProducer.

(** ** CustomerFacingService/kafka/kafak_producer.py *)

Module KafkaProducer.

Record t := mk {
  bootstrap_servers : str;
  topic : str;
  producer : option AIOKafkaProducer.t;
  connected : bool;
  messages_sent : Z;
  messages_failed : Z;
  last_message_time : option datetime
}.

Definition __init__ (bootstrap_servers topic : str) : t :=
  mk bootstrap_servers topic None false 0 0 None.

Definition set_producer (p : option AIOKafkaProducer.t) (self : t) : t :=
  mk (bootstrap_servers self) (topic self) p (connected self)
     (messages_sent self) (messages_failed self) (last_message_time self).

Definition set_connected (b : bool) (self : t) : t :=
  mk (bootstrap_servers self) (topic self) (producer self) b
     (messages_sent self) (messages_failed self) (last_message_time self).

Definition set_messages_sent (n : Z) (self : t) : t :=
  mk (bootstrap_servers self) (topic self) (producer self) (connected self)
     n (messages_failed self) (last_message_time self).

Definition set_messages_failed (n : Z) (self : t) : t :=
  mk (bootstrap_servers self) (topic self) (producer self) (connected self)
     (messages_sent self) n (last_message_time self).

Definition set_last_message_time (d : option datetime) (self : t) : t :=
  mk (bootstrap_servers self) (topic self) (producer self) (connected self)
     (messages_sent self) (messages_failed self) d.

(** What happens when [start] builds and starts the client: the
    constructor raises, the client's [start()] raises, or the client
    is up. *)
Inductive start_env : Type :=
| ConstructorRaises (e : exn)
| ClientStartRaises (c : AIOKafkaProducer.t) (e : exn)
| ClientStarted (c : AIOKafkaProducer.t).

(** [async def start(self)].  Both [except] clauses reset [connected]
    and re-raise. *)
Definition start (self : t) (env : start_env) : result unit * t :=
  match env with
  | ConstructorRaises e => (Raise e, set_connected false self)
  | ClientStartRaises c e =>
      (Raise e, set_connected false (set_producer (Some c) self))
  | ClientStarted c =>
      (Return tt, set_connected true (set_producer (Some c) self))
  end.

(** [async def stop(self)].  [flush_r] and [stop_r] are what the
    client's [flush()] and [stop()] do; an exception of either is
    logged and dropped. *)
Definition stop (self : t) (flush_r stop_r : result unit) : result unit * t :=
  let attempt : result unit :=
    match producer self with
    | Some _ => _ <- flush_r ;; stop_r
    | None => Return tt
    end in
  let handled : result unit :=
    match attempt with
    | Return _ => Return tt
    | Raise _ => Return tt
    end in
  (handled, set_connected false self).

(** [def is_connected(self)] *)
Definition is_connected (self : t) : bool :=
  connected self && match producer self with Some _ => true | None => false end.

(** [async def send_message(self, key, value, partition=None)] *)
Definition send_message (self : t) (key : str) (value : dict)
    (partition : option Z) (r : AIOKafkaProducer.reply) (now : datetime)
  : result RecordMetadata.t * t :=
  if negb (is_connected self) then
    (Raise (ValueError (lit "Kafka producer is not connected")), self)
  else
    match producer self with
    | None => (Raise (ValueError (lit "Kafka producer is not connected")), self)
    | Some c =>
        let (sent, c') := AIOKafkaProducer.send c (topic self) key value partition r in
        let self1 := set_producer (Some c') self in
        match (future <- sent ;; future) with
        | Return record_metadata =>
            let self2 := set_messages_sent (messages_sent self1 + 1) self1 in
            let self3 := set_last_message_time (Some now) self2 in
            (Return record_metadata, self3)
        | Raise e =>
            let self2 := set_messages_failed (messages_failed self1 + 1) self1 in
            if is_KafkaTimeoutError e then
              (Raise (KafkaError (lit "Timeout sending message: " ++ exn_str e)), self2)
            else if is_KafkaError e then
              (Raise e, self2)
            else
              (Raise (KafkaError (lit "Failed to send message: " ++ exn_str e)), self2)
        end
    end.

(** The first loop of [send_batch]: one [send] per message, no
    [try] around it.  [broker i] is the broker's reply to the [i]-th
    send. *)
Fixpoint enqueue (c : AIOKafkaProducer.t) (topic : str)
    (messages : list (str * dict)) (broker : nat -> AIOKafkaProducer.reply)
    (i : nat) : result (list AIOKafkaProducer.future) * AIOKafkaProducer.t :=
  match messages with
  | [] => (Return [], c)
  | (key, value) :: rest =>
      match AIOKafkaProducer.send c topic key value None (broker i) with
      | (Raise e, c') => (Raise e, c')
      | (Return future, c') =>
          let (r, c'') := enqueue c' topic rest broker (S i) in
          (futures <- r ;; Return (future :: futures), c'')
      end
  end.

(** The second loop of [send_batch]: await each future inside
    [try]/[except Exception]. *)
Fixpoint collect (self : t) (futures : list AIOKafkaProducer.future)
  : list (option RecordMetadata.t) * t :=
  match futures with
  | [] => ([], self)
  | future :: rest =>
      match future with
      | Return record_metadata =>
          let self' := set_messages_sent (messages_sent self + 1) self in
          let (results, self'') := collect self' rest in
          (Some record_metadata :: results, self'')
      | Raise _ =>
          let self' := set_messages_failed (messages_failed self + 1) self in
          let (results, self'') := collect self' rest in
          (None :: results, self'')
      end
  end.

(** [async def send_batch(self, messages)] *)
Definition send_batch (self : t) (messages : list (str * dict))
    (broker : nat -> AIOKafkaProducer.reply) (now : datetime)
  : result (list (option RecordMetadata.t)) * t :=
  if negb (is_connected self) then
    (Raise (ValueError (lit "Kafka producer is not connected")), self)
  else
    match producer self with
    | None => (Raise (ValueError (lit "Kafka producer is not connected")), self)
    | Some c =>
        let (queued, c') := enqueue c (topic self) messages broker 0 in
        let self1 := set_producer (Some c') self in
        match queued with
        | Raise e => (Raise e, self1)
        | Return futures =>
            let (results, self2) := collect self1 futures in
            (Return results, set_last_message_time (Some now) self2)
        end
    end.

(** [async def flush(self)]: [flush_r] is what the client's [flush()]
    does; nothing guards it. *)
Definition flush (self : t) (flush_r : result unit) : result unit * t :=
  match producer self with
  | Some _ => (flush_r, self)
  | None => (Return tt, self)
  end.

(** [def get_stats(self)], the counters of it. *)
Definition get_stats (self : t) : bool * Z * Z * option datetime :=
  (connected self, messages_sent self, messages_failed self,
   last_message_time self).

End KafkaProducer.

(** ** CustomerFacingService/data_model *)

Module BuyRequest.

Record t := mk { username : str; user_id : str }.

(** [@field_validator('username')] *)
Definition validate_username (v : str) : result str :=
  if negb (truthy (strip v))
  then Raise (ValueError (lit "Username cannot be empty or whitespace"))
  else Return (strip v).

(** [@field_validator('user_id')] *)
Definition validate_user_id (v : str) : result str :=
  if negb (truthy (strip v))
  then Raise (ValueError (lit "User ID cannot be empty or whitespace"))
  else Return (strip v).

(** [BuyRequest] built from a payload.  The length bounds of [Field]
    are checked on the value as given, the validator runs after them;
    any failure surfaces as pydantic's [ValidationError]. *)
Definition validate (data : dict) : result t :=
  match (v <- bounded_str_field "username" data ;; validate_username v),
        (v <- bounded_str_field "user_id" data ;; validate_user_id v) with
  | Return u, Return i => Return (mk u i)
  | _, _ => Raise (ValidationError (lit "validation error for BuyRequest"))
  end.

End BuyRequest.

Module PurchaseEvent.

Record t := mk {
  username : str;
  user_id : str;
  item_name : str;
  price : Q;
  timestamp : str
}.

Section Validate.
Context {lib : PyLib}.

Definition validate (data : dict) : result t :=
  match str_field "username" data, str_field "user_id" data,
        str_field "item_name" data, positive_float_field "price" data,
        str_field "timestamp" data with
  | Return u, Return i, Return n, Return p, Return ts =>
      Return (mk u i n p ts)
  | _, _, _, _, _ =>
      Raise (ValidationError (lit "validation error for PurchaseEvent"))
  end.
End Validate.

Definition model_dump (e : t) : dict :=
  [ (lit "username", VStr (username e));
    (lit "user_id", VStr (user_id e));
    (lit "item_name", VStr (item_name e));
    (lit "price", VFloat (price e));
    (lit "timestamp", VStr (timestamp e)) ].

End PurchaseEvent.

(** ** CustomerFacingService/main.py: the purchase endpoint *)

Module FacingMain.

Definition RANDOM_ITEMS : list (string * Q) :=
  [ ("Laptop", 99999 # 100); ("Smartphone", 69999 # 100);
    ("Headphones", 19999 # 100); ("Keyboard", 8999 # 100);
    ("Mouse", 4999 # 100); ("Monitor", 34999 # 100);
    ("Tablet", 49999 # 100); ("Smartwatch", 29999 # 100);
    ("Camera", 79999 # 100); ("Speaker", 14999 # 100);
    ("USB Cable", 1999 # 100); ("External SSD", 12999 # 100);
    ("Webcam", 7999 # 100); ("Gaming Console", 49999 # 100);
    ("Router", 15999 # 100) ]%string.

(** [random.choice(RANDOM_ITEMS)]; [rnd] is the draw. *)
Definition select_random_item (rnd : nat) : string * Q :=
  nth (rnd mod List.length RANDOM_ITEMS) RANDOM_ITEMS ("Laptop"%string, 99999 # 100).

Section Endpoints.
Context {lib : PyLib}.

(** [generate_purchase_event]; [utcnow_iso] is
    [datetime.utcnow().isoformat()]. *)
Definition generate_purchase_event (buy_request : BuyRequest.t)
    (rnd : nat) (utcnow_iso : str) : result PurchaseEvent.t :=
  let item := select_random_item rnd in
  PurchaseEvent.validate
    [ (lit "username", VStr (BuyRequest.username buy_request));
      (lit "user_id", VStr (BuyRequest.user_id buy_request));
      (lit "item_name", VStr (lit (fst item)));
      (lit "price", VFloat (snd item));
      (lit "timestamp", VStr (utcnow_iso ++ lit "Z")) ].

Record BuyResponse := mk_buy_response {
  success : bool;
  purchase : PurchaseEvent.t;
  kafka_partition : option Z;
  kafka_offset : option Z
}.

(** [async def buy(buy_request)] with the global [kafka_producer].
    An [HTTPException] raised inside passes through; any other
    exception becomes a 500. *)
Definition buy (kafka_producer : option KafkaProducer.t)
    (buy_request : BuyRequest.t) (rnd : nat) (utcnow_iso : str)
    (r : AIOKafkaProducer.reply) (now : datetime)
  : result BuyResponse * option KafkaProducer.t :=
  let body : result BuyResponse * option KafkaProducer.t :=
    match kafka_producer with
    | None =>
        (Raise (HTTPException 503
           (lit "Purchase service temporarily unavailable (Kafka connection issue)")),
         kafka_producer)
    | Some kp =>
        if negb (KafkaProducer.is_connected kp) then
          (Raise (HTTPException 503
             (lit "Purchase service temporarily unavailable (Kafka connection issue)")),
           kafka_producer)
        else
          match generate_purchase_event buy_request rnd utcnow_iso with
          | Raise e => (Raise e, kafka_producer)
          | Return purchase_event =>
              let (sent, kp') :=
                KafkaProducer.send_message kp
                  (PurchaseEvent.user_id purchase_event)
                  (PurchaseEvent.model_dump purchase_event) None r now in
              match sent with
              | Raise e => (Raise e, Some kp')
              | Return record_metadata =>
                  (Return (mk_buy_response true purchase_event
                             (Some (RecordMetadata.partition record_metadata))
                             (Some (RecordMetadata.offset record_metadata))),
                   Some kp')
              end
          end
    end in
  match body with
  | (Raise e, kp) =>
      if is_HTTPException e then (Raise e, kp)
      else (Raise (HTTPException 500 (lit "Failed to process purchase request")), kp)
  | ok => ok
  end.

End Endpoints.

(** [data_model/health.py] *)
Record HealthResponse := mk_health {
  status : str;
  service : str;
  kafka_connected : bool;
  customer_management_api_reachable : bool;
  timestamp : str
}.

(** [async def health_check()]: [probe] is what
    [http_client.get("/health")] does, the status code of the answer or
    an exception; the result is the status code and the body. *)
Definition health_check (kafka_producer : option KafkaProducer.t)
    (probe : result Z) (utcnow_iso : str) : Z * HealthResponse :=
  let kafka_connected :=
    match kafka_producer with
    | Some kp => KafkaProducer.is_connected kp
    | None => false
    end in
  let cm_api_reachable :=
    match probe with
    | Return status_code => (status_code =? 200)%Z
    | Raise _ => false
    end in
  let is_healthy := kafka_connected && cm_api_reachable in
  ((if is_healthy then 200 else 503)%Z,
   mk_health (if is_healthy then lit "healthy" else lit "unhealthy")
     (lit "customer-facing-web-server") kafka_connected cm_api_reachable
     (utcnow_iso ++ lit "Z")).

(** [async def metrics()]: sent, failed, connected and the time of the
    last send. *)
Definition metrics (kafka_producer : option KafkaProducer.t)
  : Z * Z * bool * option datetime :=
  match kafka_producer with
  | Some kp =>
      (KafkaProducer.messages_sent kp, KafkaProducer.messages_failed kp,
       KafkaProducer.is_connected kp, KafkaProducer.last_message_time kp)
  | None => (0%Z, 0%Z, false, None)
  end.

End FacingMain.

(** ** CustomerFacingService: the purchase-history gateway *)

Module Gateway.

(** [data_model/purchase.py]: [Purchase], with [id] under the alias
    [_id] and [populate_by_name]. *)
Module Purchase.
Record t := mk {
  id : str;
  username : str;
  user_id : str;
  item_name : str;
  price : Q;
  timestamp : str
}.

Section Validate.
Context {lib : PyLib}.

Definition id_field (data : dict) : result str :=
  match dict_get (lit "_id") data with
  | Some _ => str_field "_id" data
  | None => str_field "id" data
  end.

Definition validate (v : value) : result t :=
  match v with
  | VDict data =>
      match id_field data, str_field "username" data,
            str_field "user_id" data, str_field "item_name" data,
            float_field "price" data, str_field "timestamp" data with
      | Return i, Return u, Return uid, Return n, Return p, Return ts =>
          Return (mk i u uid n p ts)
      | _, _, _, _, _, _ =>
          Raise (ValidationError (lit "validation error for Purchase"))
      end
  | _ => Raise (ValidationError (lit "validation error for Purchase"))
  end.
End Validate.
End Purchase.

Module UserPurchasesResponse.
Record t := mk {
  user_id : str;
  username : option str;
  total_purchases : Z;
  total_spent : Q;
  purchases : list Purchase.t
}.

(** [Optional[str] = None] *)
Definition optional_str_field (name : string) (data : dict)
  : result (option str) :=
  match dict_get (lit name) data with
  | None | Some VNone => Return None
  | Some (VStr s) => Return (Some s)
  | Some _ => Raise (ValidationError (lit "Input should be a valid string"))
  end.

Section Validate.
Context {lib : PyLib}.

Fixpoint validate_all (l : list value) : result (list Purchase.t) :=
  match l with
  | [] => Return []
  | v :: l' =>
      match Purchase.validate v, validate_all l' with
      | Return p, Return ps => Return (p :: ps)
      | _, _ => Raise (ValidationError (lit "validation error for Purchase"))
      end
  end.

Definition purchases_field (data : dict) : result (list Purchase.t) :=
  match dict_get (lit "purchases") data with
  | Some (VList l) => validate_all l
  | Some _ => Raise (ValidationError (lit "Input should be a valid list"))
  | None => Raise (ValidationError (lit "Field required"))
  end.

Definition validate (data : dict) : result t :=
  match str_field "user_id" data, optional_str_field "username" data,
        int_field "total_purchases" data, float_field "total_spent" data,
        purchases_field data with
  | Return uid, Return u, Return n, Return s, Return ps =>
      Return (mk uid u n s ps)
  | _, _, _, _, _ =>
      Raise (ValidationError (lit "validation error for UserPurchasesResponse"))
  end.
End Validate.
End UserPurchasesResponse.

(** How [http_client.get] can fail: httpx's [TimeoutException], its
    [ConnectError], or any other exception (a broken read, too many
    redirects, ...). *)
Inductive get_failure : Type :=
| Timeout (msg : str)
| Connect (msg : str)
| Other (msg : str).

Definition exn_of (f : get_failure) : exn :=
  match f with
  | Timeout m => TimeoutException m
  | Connect m => ConnectError m
  | Other m => OtherException m
  end.

(** The answer of one [http_client.get]: a response (its status, its
    text and its body as [response.json()] decodes it, [None] when
    that raises) or a failure. *)
Inductive upstream : Type :=
| Response (status_code : Z) (text : str) (json : option value)
| GetRaises (f : get_failure).

(** [response.json()] *)
Definition response_json (json : option value) : result value :=
  match json with
  | Some v => Return v
  | None => Raise (ValueError (lit "Expecting value"))
  end.

(** [data['total_purchases']], read for the log line. *)
Definition subscript (data : value) (k : string) : result value :=
  match data with
  | VDict d =>
      match dict_get (lit k) d with
      | Some v => Return v
      | None => Raise (KeyError (lit k))
      end
  | _ => Raise (TypeError (lit "indices must be integers, or object is not subscriptable"))
  end.

Definition is_TimeoutException (e : exn) : bool :=
  match e with TimeoutException _ => true | _ => false end.

Definition is_ConnectError (e : exn) : bool :=
  match e with ConnectError _ => true | _ => false end.

Section Endpoint.
Context {lib : PyLib}.

(** The [try] block of [get_all_user_purchases]. *)
Definition fetch (user_id : str) (up : upstream)
  : result UserPurchasesResponse.t :=
  match up with
  | GetRaises f => Raise (exn_of f)
  | Response status_code text json =>
      if (status_code =? 404)%Z then
        Raise (HTTPException 404
                 (lit "No purchases found for user_id: " ++ user_id))
      else if negb (status_code =? 200)%Z then
        Raise (HTTPException 503 (lit "Unable to retrieve purchases at this time"))
      else
        data <- response_json json ;;
        _ <- subscript data "total_purchases" ;;
        kwargs <- as_mapping data ;;
        UserPurchasesResponse.validate kwargs
  end.

(** [async def get_all_user_purchases(user_id)]: the [try] block
    under its four [except] clauses, in their order. *)
Definition get_all_user_purchases (user_id : str) (up : upstream)
  : result UserPurchasesResponse.t :=
  match fetch user_id up with
  | Return r => Return r
  | Raise e =>
      if is_HTTPException e then Raise e
      else if is_TimeoutException e then
        Raise (HTTPException 503
                 (lit "Request timeout - Customer Management API not responding"))
      else if is_ConnectError e then
        Raise (HTTPException 503 (lit "Customer Management API unavailable"))
      else
        Raise (HTTPException 500 (lit "Failed to retrieve purchase history"))
  end.
End Endpoint.

(** The caller-visible outcomes of the design document. *)
Inductive outcome : Type :=
| History (r : UserPurchasesResponse.t)
| NotFound
| Unavailable
| InternalError
| OtherStatus (status_code : Z)
| Uncaught (e : exn).

Definition outcome_of (r : result UserPurchasesResponse.t) : outcome :=
  match r with
  | Return h => History h
  | Raise (HTTPException 404 _) => NotFound
  | Raise (HTTPException 503 _) => Unavailable
  | Raise (HTTPException 500 _) => InternalError
  | Raise (HTTPException c _) => OtherStatus c
  | Raise e => Uncaught e
  end.

End Gateway.

(** ** CustomerManagementAPI/data_model/purchase.py *)

Module Purchase.

Record t := mk {
  username : str;
  user_id : str;
  item_name : str;
  price : Q;
  timestamp : str
}.

Section Validate.
Context {lib : PyLib}.

Definition validate (data : dict) : result t :=
  match str_field "username" data, str_field "user_id" data,
        str_field "item_name" data, positive_float_field "price" data,
        str_field "timestamp" data with
  | Return u, Return i, Return n, Return p, Return ts =>
      Return (mk u i n p ts)
  | _, _, _, _, _ =>
      Raise (ValidationError (lit "validation error for Purchase"))
  end.
End Validate.

Definition model_dump (p : t) : dict :=
  [ (lit "username", VStr (username p));
    (lit "user_id", VStr (user_id p));
    (lit "item_name", VStr (item_name p));
    (lit "price", VFloat (price p));
    (lit "timestamp", VStr (timestamp p)) ].

End Purchase.

(** [PurchaseResponse(Purchase)]: the same fields and [id] under the
    alias [_id], with [populate_by_name]. *)
Module PurchaseResponse.

Record t := mk { id : str; purchase : Purchase.t }.

Section Validate.
Context {lib : PyLib}.

Definition id_field (data : dict) : result str :=
  match dict_get (lit "_id") data with
  | Some _ => str_field "_id" data
  | None => str_field "id" data
  end.

Definition validate (data : dict) : result t :=
  match Purchase.validate data, id_field data with
  | Return p, Return i => Return (mk i p)
  | _, _ => Raise (ValidationError (lit "validation error for PurchaseResponse"))
  end.
End Validate.

(** The JSON object of a [PurchaseResponse], [id] under its alias. *)
Definition model_dump_by_alias (r : t) : dict :=
  Purchase.model_dump (purchase r) ++ [ (lit "_id", VStr (id r)) ].

End PurchaseResponse.

Module UserPurchasesResponse.

Record t := mk {
  user_id : str;
  username : option str;
  total_purchases : Z;
  total_spent : Q;
  purchases : list PurchaseResponse.t
}.

(** The keyword [username=] against [Optional[str]]. *)
Definition validate_username (v : value) : result (option str) :=
  match v with
  | VNone => Return None
  | VStr s => Return (Some s)
  | _ => Raise (ValidationError (lit "Input should be a valid string"))
  end.

(** The JSON object of a [UserPurchasesResponse], as the endpoint's
    response model serializes it. *)
Definition model_dump_by_alias (r : t) : dict :=
  [ (lit "user_id", VStr (user_id r));
    (lit "username", match username r with Some u => VStr u | None => VNone end);
    (lit "total_purchases", VInt (total_purchases r));
    (lit "total_spent", VFloat (total_spent r));
    (lit "purchases",
     VList (map (fun p => VDict (PurchaseResponse.model_dump_by_alias p))
              (purchases r))) ].

End UserPurchasesResponse.

(** ** CustomerManagementAPI/database/database_manager.py *)

Module DatabaseManager.

(** The manager with its collection: the documents in insertion
    order. *)
Record t := mk { collection : list dict }.

(** What [insert_one] does: assign an id, raise [DuplicateKeyError],
    or raise another exception. *)
Inductive insert_env : Type :=
| Inserted (oid : str)
| InsertRaises (e : exn)
| InsertDuplicateKey.

Section Operations.
Context {lib : PyLib}.

(** [datetime.fromisoformat(ts.replace('Z', '+00:00'))] *)
Definition timestamp_dt (ts : str) : result datetime :=
  match fromisoformat (replace_char 90 (lit "+00:00") ts) with
  | Some dt => Return dt
  | None => Raise (ValueError (lit "Invalid isoformat string"))
  end.

(** The document [save_purchase] hands to [insert_one], with the
    [_id] the driver adds. *)
Definition document (purchase : Purchase.t) (dt : datetime) (oid : str) : dict :=
  dict_set (lit "_id") (VObjectId oid)
    (dict_set (lit "timestamp_dt") (VDatetime dt)
       (Purchase.model_dump purchase)).

(** [async def save_purchase(self, purchase)].  [except Exception]
    logs and re-raises.  [except DuplicateKeyError] calls
    [self.logger.warning], which the [Logger] of [logger/logger.py]
    does not have, so an [AttributeError] leaves the method instead of
    the [DuplicateKeyError]. *)
Definition save_purchase (self : t) (purchase : Purchase.t)
    (env : insert_env) : result str * t :=
  match timestamp_dt (Purchase.timestamp purchase) with
  | Raise e => (Raise e, self)
  | Return dt =>
      match env with
      | InsertRaises e => (Raise e, self)
      | InsertDuplicateKey =>
          (Raise (OtherException
                    (lit "AttributeError: 'Logger' object has no attribute 'warning'")),
           self)
      | Inserted oid =>
          (Return oid, mk (collection self ++ [document purchase dt oid]))
      end
  end.

(** The value the query sorts on; a document without a datetime
    there sorts as the oldest. *)
Definition sort_key (d : dict) : option Z :=
  match dict_get (lit "timestamp_dt") d with
  | Some (VDatetime t) => Some t
  | _ => None
  end.

Definition key_geb (a b : option Z) : bool :=
  match a, b with
  | _, None => true
  | None, Some _ => false
  | Some x, Some y => (y <=? x)%Z
  end.

Fixpoint insert_desc (d : dict) (l : list dict) : list dict :=
  match l with
  | [] => [d]
  | x :: l' =>
      if key_geb (sort_key d) (sort_key x) then d :: x :: l'
      else x :: insert_desc d l'
  end.

(** [.sort("timestamp_dt", -1)] *)
Definition sort_desc (l : list dict) : list dict :=
  fold_right insert_desc [] l.

(** [find({"user_id": user_id})]: the documents whose [user_id] is
    that string. *)
Definition matches (user_id : str) (d : dict) : bool :=
  match dict_get (lit "user_id") d with
  | Some (VStr s) => str_eqb s user_id
  | _ => false
  end.

Definition py_str (v : value) : str :=
  match v with
  | VStr s => s
  | VObjectId oid => oid
  | _ => str_other v
  end.

(** [purchase["_id"] = str(purchase["_id"])] *)
Definition stringify_id (d : dict) : result dict :=
  match dict_get (lit "_id") d with
  | Some v => Return (dict_set (lit "_id") (VStr (py_str v)) d)
  | None => Raise (KeyError (lit "_id"))
  end.

Fixpoint stringify_ids (l : list dict) : result (list dict) :=
  match l with
  | [] => Return []
  | d :: l' =>
      d' <- stringify_id d ;;
      ds <- stringify_ids l' ;;
      Return (d' :: ds)
  end.

(** [async def get_user_purchases(self, user_id)]; [cursor_error] is
    the exception of the query, if the store raises one. *)
Definition get_user_purchases (self : t) (user_id : str)
    (cursor_error : option exn) : result (list dict) :=
  match cursor_error with
  | Some e => Raise e
  | None =>
      stringify_ids (sort_desc (filter (matches user_id) (collection self)))
  end.
End Operations.

End DatabaseManager.

(** ** CustomerManagementAPI/kafka/kafka_consumer.py *)

Module ConsumerRecord.
(** A record as the client delivers it: [value] is the payload after
    the client's [value_deserializer]. *)
Record t := mk {
  partition : Z;
  offset : Z;
  key : option bytes;
  value : value
}.
End ConsumerRecord.

Module KafkaConsumer.

Record t := mk {
  bootstrap_servers : str;
  topic : str;
  group_id : str;
  db_manager : DatabaseManager.t;
  consumer : option nat;
  running : bool;
  consumer_task : option nat;
  messages_processed : Z;
  messages_failed : Z;
  last_message_time : option datetime
}.

Definition __init__ (bootstrap_servers topic group_id : str)
    (db_manager : DatabaseManager.t) : t :=
  mk bootstrap_servers topic group_id db_manager None false None 0 0 None.

Definition set_db_manager (db : DatabaseManager.t) (self : t) : t :=
  mk (bootstrap_servers self) (topic self) (group_id self) db
     (consumer self) (running self) (consumer_task self)
     (messages_processed self) (messages_failed self) (last_message_time self).

Definition set_consumer (c : option nat) (self : t) : t :=
  mk (bootstrap_servers self) (topic self) (group_id self) (db_manager self)
     c (running self) (consumer_task self)
     (messages_processed self) (messages_failed self) (last_message_time self).

Definition set_running (b : bool) (self : t) : t :=
  mk (bootstrap_servers self) (topic self) (group_id self) (db_manager self)
     (consumer self) b (consumer_task self)
     (messages_processed self) (messages_failed self) (last_message_time self).

Definition set_consumer_task (k : option nat) (self : t) : t :=
  mk (bootstrap_servers self) (topic self) (group_id self) (db_manager self)
     (consumer self) (running self) k
     (messages_processed self) (messages_failed self) (last_message_time self).

Definition set_messages_processed (n : Z) (self : t) : t :=
  mk (bootstrap_servers self) (topic self) (group_id self) (db_manager self)
     (consumer self) (running self) (consumer_task self)
     n (messages_failed self) (last_message_time self).

Definition set_messages_failed (n : Z) (self : t) : t :=
  mk (bootstrap_servers self) (topic self) (group_id self) (db_manager self)
     (consumer self) (running self) (consumer_task self)
     (messages_processed self) n (last_message_time self).

Definition set_last_message_time (d : option datetime) (self : t) : t :=
  mk (bootstrap_servers self) (topic self) (group_id self) (db_manager self)
     (consumer self) (running self) (consumer_task self)
     (messages_processed self) (messages_failed self) d.

(** What happens when [start] builds and starts the client; a started
    client comes with the task of the loop. *)
Inductive start_env : Type :=
| ConstructorRaises (e : exn)
| ClientStartRaises (c : nat) (e : exn)
| ClientStarted (c : nat) (task : nat).

(** [async def start(self)]; both [except] clauses only log and
    re-raise. *)
Definition start (self : t) (env : start_env) : result unit * t :=
  match env with
  | ConstructorRaises e => (Raise e, self)
  | ClientStartRaises c e => (Raise e, set_consumer (Some c) self)
  | ClientStarted c task =>
      (Return tt,
       set_consumer_task (Some task) (set_running true (set_consumer (Some c) self)))
  end.

(** [def is_running(self)] *)
Definition is_running (self : t) : bool :=
  running self && match consumer self with Some _ => true | None => false end.

(** One record of the stream with what the store does when asked to
    insert it and the clock at that moment. *)
Record delivery := mk_delivery {
  message : ConsumerRecord.t;
  insert : DatabaseManager.insert_env;
  clock : datetime
}.

Section Loop.
Context {lib : PyLib}.

(** The [try] block of [_process_message] up to the store call. *)
Definition persist (self : t) (d : delivery) : result str * DatabaseManager.t :=
  let purchase_data := ConsumerRecord.value (message d) in
  match (kwargs <- as_mapping purchase_data ;; Purchase.validate kwargs) with
  | Raise e => (Raise e, db_manager self)
  | Return purchase =>
      DatabaseManager.save_purchase (db_manager self) purchase (insert d)
  end.

(** [async def _process_message(self, message)]: the [try] block
    under [except ValueError] and [except Exception]. *)
Definition _process_message (self : t) (d : delivery) : result unit * t :=
  match persist self d with
  | (Return purchase_id, db) =>
      let self1 := set_db_manager db self in
      let self2 := set_messages_processed (messages_processed self1 + 1) self1 in
      (Return tt, set_last_message_time (Some (clock d)) self2)
  | (Raise e, db) =>
      let self1 := set_db_manager db self in
      if is_ValueError e then
        (Return tt, set_messages_failed (messages_failed self1 + 1) self1)
      else
        (Return tt, set_messages_failed (messages_failed self1 + 1) self1)
  end.

(** What the loop meets while it iterates over the client: a record,
    an exception of the iterator, or [stop()] having cleared
    [running] in between. *)
Inductive poll : Type :=
| Polled (d : delivery)
| IteratorRaises (e : exn)
| StopRequested.

(** [async def _consume_loop(self)] over a finite stream. *)
Fixpoint _consume_loop (self : t) (stream : list poll) : t :=
  match stream with
  | [] => self
  | StopRequested :: rest => _consume_loop (set_running false self) rest
  | IteratorRaises _ :: _ => self
  | Polled d :: rest =>
      if negb (running self) then self
      else
        match _process_message self d with
        | (Return _, self') => _consume_loop self' rest
        | (Raise _, self') => self'
        end
  end.

(** The records the loop hands to [_process_message]. *)
Fixpoint processed_records (is_running : bool) (stream : list poll)
  : list delivery :=
  match stream with
  | [] => []
  | StopRequested :: rest => processed_records false rest
  | IteratorRaises _ :: _ => []
  | Polled d :: rest =>
      if is_running then d :: processed_records is_running rest else []
  end.

(** The classes of the design document for one record, read off the
    record itself. *)
Inductive verdict : Type :=
| MalformedPayload
| InvalidEvent
| PersistenceError
| Persisted.

Definition classify (d : delivery) : verdict :=
  match ConsumerRecord.value (message d) with
  | VDict data =>
      match Purchase.validate data with
      | Raise _ => InvalidEvent
      | Return purchase =>
          match DatabaseManager.timestamp_dt (Purchase.timestamp purchase),
                insert d with
          | Return _, DatabaseManager.Inserted _ => Persisted
          | _, _ => PersistenceError
          end
      end
  | _ => MalformedPayload
  end.

Definition is_persisted (d : delivery) : bool :=
  match classify d with Persisted => true | _ => false end.

Definition count_persisted (l : list delivery) : Z :=
  Z.of_nat (List.length (filter is_persisted l)).

Definition count_failed (l : list delivery) : Z :=
  Z.of_nat (List.length (filter (fun d => negb (is_persisted d)) l)).

End Loop.

(** [value_deserializer=lambda m: json.loads(m.decode('utf-8'))] of
    [start]; [decode] is [bytes.decode] and [loads] is [json.loads]. *)
Definition value_deserializer (decode : bytes -> result str)
    (loads : str -> result value) (m : bytes) : result value :=
  s <- decode m ;; loads s.

(** A record as the broker holds it, the payload still bytes, with
    what the store and the clock answer once it is handled. *)
Record fetched := mk_fetched {
  fetched_partition : Z;
  fetched_offset : Z;
  fetched_key : option bytes;
  fetched_value : bytes;
  fetched_insert : DatabaseManager.insert_env;
  fetched_clock : datetime
}.

(** The client applies the deserializer when the loop asks for the
    next record, so a payload it raises on makes the iteration itself
    raise. *)
Definition next_record (deserializer : bytes -> result value) (r : fetched)
  : poll :=
  match deserializer (fetched_value r) with
  | Return v =>
      Polled
        (mk_delivery
           (ConsumerRecord.mk (fetched_partition r) (fetched_offset r)
              (fetched_key r) v)
           (fetched_insert r) (fetched_clock r))
  | Raise e => IteratorRaises e
  end.

(** [async def stop(self)]: [task_timeout] tells whether the loop
    outlived the ten seconds, [stop_r] what the client's [stop()]
    does. *)
Definition stop (self : t) (task_timeout : bool) (stop_r : result unit)
  : result unit * t :=
  let self1 := set_running false self in
  match consumer self1 with
  | Some _ => (stop_r, self1)
  | None => (Return tt, self1)
  end.

(** [def get_lag(self)] *)
Definition get_lag (self : t) : Z := 0.

(** [def get_stats(self)], the counters of it. *)
Definition get_stats (self : t) : bool * Z * Z * option datetime :=
  (running self, messages_processed self, messages_failed self,
   last_message_time self).

End KafkaConsumer.

(** ** CustomerManagementAPI/main.py: the purchase-history endpoint *)

Module ManagementMain.

(** A number under [+]: an [int] or a [float]. *)
Inductive num : Type :=
| NInt (z : Z)
| NFloat (x : Q).

(** The number a value stands for under [+]; [bool] is an [int]. *)
Definition number (v : value) : result num :=
  match v with
  | VInt z => Return (NInt z)
  | VFloat q => Return (NFloat (double q))
  | VBool b => Return (NInt (if b then 1 else 0))
  | _ => Raise (TypeError (lit "unsupported operand type(s) for +"))
  end.

(** [p["price"]] *)
Definition price_of (p : dict) : result value :=
  match dict_get (lit "price") p with
  | Some v => Return v
  | None => Raise (KeyError (lit "price"))
  end.

(** What [sum] carries from item to item: an exact [int] until the
    first [float], then the running float and the compensation. *)
Inductive sum_state : Type :=
| SumInt (i : Z)
| SumFloat (f c : Q).

Section Sum.
Context {lib : PyLib}.

Definition sum_step (s : sum_state) (x : num) : sum_state :=
  match s, x with
  | SumInt i, NInt k => SumInt (i + k)
  | SumInt i, NFloat x => SumFloat (double (double (inject_Z i) + x)) 0
  | SumFloat f c, NInt k => SumFloat (double (f + double (inject_Z k))) c
  | SumFloat f c, NFloat x =>
      let t := double (f + x) in
      if sum_compensated then
        let lost :=
          if Qle_bool (Qabs x) (Qabs f)
          then double (double (f - t) + x)
          else double (double (x - t) + f) in
        SumFloat t (double (c + lost))
      else SumFloat t c
  end.

Definition sum_result (s : sum_state) : num :=
  match s with
  | SumInt i => NInt i
  | SumFloat f c => NFloat (if Qeq_bool c 0 then f else double (f + c))
  end.

(** [sum(p["price"] for p in purchases)], the items taken one by
    one. *)
Fixpoint sum_prices (s : sum_state) (purchases : list dict) : result num :=
  match purchases with
  | [] => Return (sum_result s)
  | p :: rest =>
      v <- price_of p ;;
      x <- number v ;;
      sum_prices (sum_step s x) rest
  end.

(** [sum] of numbers, from [0]. *)
Definition py_sum (xs : list num) : num :=
  sum_result (fold_left sum_step xs (SumInt 0)).

End Sum.

(** The multiple of a hundredth nearest to [x], ties to the even
    one. *)
Definition nearest_cents (x : Q) : Q := round_half_even (x * 100) # 100.

(** [round(total, 2)]: an [int] is returned as it is, a [float] goes
    to the float nearest to the nearest multiple of a hundredth. *)
Definition round2 (total : num) : num :=
  match total with
  | NInt z => NInt z
  | NFloat x => NFloat (double (nearest_cents x))
  end.

(** A number given to a [float] field. *)
Definition to_float (n : num) : Q :=
  match n with
  | NInt z => double (inject_Z z)
  | NFloat x => x
  end.

(** [purchases[0].get("username", "Unknown") if purchases else "Unknown"] *)
Definition first_username (purchases : list dict) : value :=
  match purchases with
  | p :: _ =>
      match dict_get (lit "username") p with
      | Some v => v
      | None => VStr (lit "Unknown")
      end
  | [] => VStr (lit "Unknown")
  end.

Section Endpoint.
Context {lib : PyLib}.

(** The comprehension building one [PurchaseResponse] per document,
    each from the unpacked document. *)
Fixpoint purchase_responses (purchases : list dict)
  : result (list PurchaseResponse.t) :=
  match purchases with
  | [] => Return []
  | p :: rest =>
      r <- PurchaseResponse.validate p ;;
      rs <- purchase_responses rest ;;
      Return (r :: rs)
  end.

(** The [try] block of [get_user_purchases]. *)
Definition history (db_manager : DatabaseManager.t) (user_id : str)
    (cursor_error : option exn) : result UserPurchasesResponse.t :=
  purchases <- DatabaseManager.get_user_purchases db_manager user_id cursor_error ;;
  match purchases with
  | [] =>
      Raise (HTTPException 404 (lit "No purchases found for user_id: " ++ user_id))
  | _ :: _ =>
      let total_purchases := len_list purchases in
      total_spent <- sum_prices (SumInt 0) purchases ;;
      let username := first_username purchases in
      responses <- purchase_responses purchases ;;
      username' <- UserPurchasesResponse.validate_username username ;;
      Return (UserPurchasesResponse.mk user_id username' total_purchases
                (to_float (round2 total_spent)) responses)
  end.

(** [async def get_user_purchases(user_id)]: an [HTTPException]
    passes, any other exception becomes a 500. *)
Definition get_user_purchases (db_manager : DatabaseManager.t)
    (user_id : str) (cursor_error : option exn)
  : result UserPurchasesResponse.t :=
  match history db_manager user_id cursor_error with
  | Return r => Return r
  | Raise e =>
      if is_HTTPException e then Raise e
      else Raise (HTTPException 500
                    (lit "Internal server error while retrieving purchases"))
  end.
End Endpoint.

(** [data_model/health.py] *)
Record HealthResponse := mk_health {
  status : str;
  service : str;
  mongodb_connected : bool;
  kafka_connected : bool;
  timestamp : str
}.

(** [async def health_check()]: [ping] is what the store's
    [is_connected()] answers. *)
Definition health_check (db_manager : option bool)
    (kafka_consumer : option KafkaConsumer.t) (utcnow_iso : str)
  : Z * HealthResponse :=
  let mongodb_connected :=
    match db_manager with
    | Some ping => ping
    | None => false
    end in
  let kafka_connected :=
    match kafka_consumer with
    | Some kc => KafkaConsumer.is_running kc
    | None => false
    end in
  let is_healthy := mongodb_connected && kafka_connected in
  ((if is_healthy then 200 else 503)%Z,
   mk_health (if is_healthy then lit "healthy" else lit "unhealthy")
     (lit "CustomerManagementAPI") mongodb_connected kafka_connected
     (utcnow_iso ++ lit "Z")).

End ManagementMain.

(** ** Vocabulary of the statements *)

(** The entry of [send_batch]'s result list a future stands for. *)
Definition future_result (f : AIOKafkaProducer.future) : option RecordMetadata.t :=
  match f with Return md => Some md | Raise _ => None end.

(** A string that is empty or all whitespace. *)
Definition blank (s : str) : bool := forallb isspace s.

(** An upstream answer with status 200. *)
Definition upstream_success (up : Gateway.upstream) : bool :=
  match up with
  | Gateway.Response status_code _ _ => (status_code =? 200)%Z
  | Gateway.GetRaises _ => false
  end.

(** A persisted purchase of the design document: the event, the
    sortable instant derived from its timestamp and the identifier the
    store assigned. *)
Module PersistedPurchase.
Record t := mk { purchase : Purchase.t; timestamp_dt : datetime; oid : str }.

(** The document [save_purchase] stores for it. *)
Definition stored (r : t) : dict :=
  DatabaseManager.document (purchase r) (timestamp_dt r) (oid r).

(** The document after [str()] of its [_id], as the query returns
    it. *)
Definition served (r : t) : dict :=
  [ (lit "username", VStr (Purchase.username (purchase r)));
    (lit "user_id", VStr (Purchase.user_id (purchase r)));
    (lit "item_name", VStr (Purchase.item_name (purchase r)));
    (lit "price", VFloat (Purchase.price (purchase r)));
    (lit "timestamp", VStr (Purchase.timestamp (purchase r)));
    (lit "timestamp_dt", VDatetime (timestamp_dt r));
    (lit "_id", VStr (oid r)) ].

Definition of_user (user_id : str) (r : t) : bool :=
  str_eqb (Purchase.user_id (purchase r)) user_id.

Definition response_of (r : t) : PurchaseResponse.t :=
  PurchaseResponse.mk (oid r) (purchase r).

Definition price (r : t) : Q := Purchase.price (purchase r).

Definition price_sum (l : list t) : Q :=
  fold_right (fun r acc => price r + acc) 0 l.

(** The prices as [sum] meets them, one float each. *)
Definition price_numbers (l : list t) : list ManagementMain.num :=
  map (fun r => ManagementMain.NFloat (double (price r))) l.

(** Newest first: every record is at least as new as all after it. *)
Definition newest_first (l : list t) : Prop :=
  StronglySorted (fun a b => (timestamp_dt b <= timestamp_dt a)%Z) l.

Definition store_of (l : list t) : DatabaseManager.t :=
  DatabaseManager.mk (map stored l).
End PersistedPurchase.

(** A store that holds persisted purchases only, each with a price
    above zero. *)
Definition well_formed_store (db : DatabaseManager.t) : Prop :=
  exists recs : list PersistedPurchase.t,
    db = PersistedPurchase.store_of recs
    /\ Forall (fun r => 0 < PersistedPurchase.price r) recs.

(** *** Histories of calls *)

(** A call on the producer with what its collaborators answer. *)
Inductive producer_call : Type :=
| CallStart (env : KafkaProducer.start_env)
| CallStop (flush_r stop_r : result unit)
| CallFlush (flush_r : result unit)
| CallSend (key : str) (value : dict) (partition : option Z)
    (r : AIOKafkaProducer.reply) (now : datetime)
| CallBatch (messages : list (str * dict))
    (broker : nat -> AIOKafkaProducer.reply) (now : datetime).

(** The producer after one call, whether the call raised or not. *)
Definition producer_after (self : KafkaProducer.t) (c : producer_call)
  : KafkaProducer.t :=
  match c with
  | CallStart env => snd (KafkaProducer.start self env)
  | CallStop f s => snd (KafkaProducer.stop self f s)
  | CallFlush f => snd (KafkaProducer.flush self f)
  | CallSend key value partition r now =>
      snd (KafkaProducer.send_message self key value partition r now)
  | CallBatch messages broker now =>
      snd (KafkaProducer.send_batch self messages broker now)
  end.

Definition producer_run (self : KafkaProducer.t) (calls : list producer_call)
  : KafkaProducer.t :=
  fold_left producer_after calls self.

(** One [send_message] call as data. *)
Record send_call := mk_send_call {
  send_key : str;
  send_value : dict;
  send_partition : option Z;
  send_reply : AIOKafkaProducer.reply;
  send_now : datetime
}.

Definition send_all (self : KafkaProducer.t) (calls : list send_call)
  : KafkaProducer.t :=
  fold_left
    (fun p c =>
       snd (KafkaProducer.send_message p (send_key c) (send_value c)
              (send_partition c) (send_reply c) (send_now c)))
    calls self.

(** The number of entries of a result list that carry metadata. *)
Definition delivered_count (results : list (option RecordMetadata.t)) : Z :=
  len_list (filter (fun r => match r with Some _ => true | None => false end) results).

Definition undelivered_count (results : list (option RecordMetadata.t)) : Z :=
  len_list (filter (fun r => match r with Some _ => false | None => true end) results).

(** *** The two services over HTTP *)




(** The consumer's model of an event of the producing side. *)
Definition purchase_of_event (e : PurchaseEvent.t) : Purchase.t :=
  Purchase.mk (PurchaseEvent.username e) (PurchaseEvent.user_id e)
    (PurchaseEvent.item_name e) (PurchaseEvent.price e) (PurchaseEvent.timestamp e).

(** The documents the loop stores for the records it handles: one per
    persisted record, in order. *)
Section StoredDocuments.
Context {lib : PyLib}.

Definition document_of (d : KafkaConsumer.delivery) : list dict :=
  match ConsumerRecord.value (KafkaConsumer.message d) with
  | VDict data =>
      match Purchase.validate data with
      | Return purchase =>
          match DatabaseManager.timestamp_dt (Purchase.timestamp purchase),
                KafkaConsumer.insert d with
          | Return dt, DatabaseManager.Inserted oid =>
              [DatabaseManager.document purchase dt oid]
          | _, _ => []
          end
      | Raise _ => []
      end
  | _ => []
  end.

Definition documents_of (l : list KafkaConsumer.delivery) : list dict :=
  flat_map document_of l.

(** The clock of the last persisted record, after [before]. *)
Definition last_success (before : option datetime) (l : list KafkaConsumer.delivery)
  : option datetime :=
  fold_left
    (fun t d => if KafkaConsumer.is_persisted d then Some (KafkaConsumer.clock d) else t)
    l before.

End StoredDocuments.

(** The four shapes of an encoded character, in arithmetic: the lead
    byte tells the length and the bytes spell the code point in base
    64. *)
Inductive utf8_shape (c : N) : bytes -> Prop :=
| Shape1 : (c < 128)%N -> utf8_shape c [c]
| Shape2 (q m b0 b1 : N) :
    (b0 = 192 + q)%N -> (b1 = 128 + m)%N ->
    (c = 64 * q + m)%N -> (m < 64)%N -> (2 <= q < 32)%N ->
    utf8_shape c [b0; b1]
| Shape3 (q m1 m0 b0 b1 b2 : N) :
    (b0 = 224 + q)%N -> (b1 = 128 + m1)%N -> (b2 = 128 + m0)%N ->
    (c = 64 * (64 * q + m1) + m0)%N -> (m1 < 64)%N -> (m0 < 64)%N ->
    (q < 16)%N -> (2048 <= c)%N ->
    utf8_shape c [b0; b1; b2]
| Shape4 (q m2 m1 m0 b0 b1 b2 b3 : N) :
    (b0 = 240 + q)%N -> (b1 = 128 + m2)%N -> (b2 = 128 + m1)%N -> (b3 = 128 + m0)%N ->
    (c = 64 * (64 * (64 * q + m2) + m1) + m0)%N ->
    (m2 < 64)%N -> (m1 < 64)%N -> (m0 < 64)%N -> (q < 8)%N -> (65536 <= c)%N ->
    utf8_shape c [b0; b1; b2; b3].


(** *** Documents of the store in general *)

(** [a] sorts before [b] under [.sort("timestamp_dt", -1)], or with
    it. *)
Definition newer_or_equal (a b : dict) : Prop :=
  DatabaseManager.key_geb (DatabaseManager.sort_key a) (DatabaseManager.sort_key b)
  = true.

Section ServedDocuments.
Context {lib : PyLib}.

(** A document with its [_id] turned into a string. *)
Definition id_as_string (d : dict) : dict :=
  match dict_get (lit "_id") d with
  | Some v => dict_set (lit "_id") (VStr (DatabaseManager.py_str v)) d
  | None => d
  end.

End ServedDocuments.

Definition has_id (d : dict) : bool :=
  match dict_get (lit "_id") d with Some _ => true | None => false end.

(** ** Concrete inputs *)

Module Sample.

Definition client : AIOKafkaProducer.t := AIOKafkaProducer.mk 1 [].

(** A producer after a successful [start]. *)
Definition connected_producer : KafkaProducer.t :=
  snd (KafkaProducer.start
         (KafkaProducer.__init__ (lit "localhost:9092") (lit "purchases"))
         (KafkaProducer.ClientStarted client)).

Definition fresh_producer : KafkaProducer.t :=
  KafkaProducer.__init__ (lit "localhost:9092") (lit "purchases").

Definition metadata (offset : Z) : RecordMetadata.t :=
  RecordMetadata.mk (lit "purchases") 0 offset.

Definition payload (username user_id item : string) (price : Q) (ts : string)
  : dict :=
  [ (lit "username", VStr (lit username));
    (lit "user_id", VStr (lit user_id));
    (lit "item_name", VStr (lit item));
    (lit "price", VFloat price);
    (lit "timestamp", VStr (lit ts)) ].

Definition laptop : dict :=
  payload "john_doe" "user_123" "Laptop" (99999 # 100) "2025-12-15T10:30:00Z".

(** A batch of three and a broker that refuses the second send. *)
Definition batch : list (str * dict) :=
  [ (lit "user_1", payload "ann" "user_1" "Mouse" (4999 # 100) "2025-12-15T10:30:00Z");
    (lit "user_2", payload "bob" "user_2" "Router" (15999 # 100) "2025-12-15T10:31:00Z");
    (lit "user_3", payload "cid" "user_3" "Tablet" (49999 # 100) "2025-12-15T10:32:00Z") ].

Definition refuses_second (i : nat) : AIOKafkaProducer.reply :=
  match i with
  | 1%nat => AIOKafkaProducer.EnqueueRaises (KafkaTimeoutError (lit "metadata timeout"))
  | _ => AIOKafkaProducer.Delivered (metadata (Z.of_nat i))
  end.

(** A broker that acknowledges every send but the second delivery. *)
Definition fails_second_delivery (i : nat) : AIOKafkaProducer.reply :=
  match i with
  | 1%nat => AIOKafkaProducer.DeliveryRaises (KafkaError (lit "Send failed"))
  | _ => AIOKafkaProducer.Delivered (metadata (Z.of_nat i))
  end.

Definition stopped_consumer : KafkaConsumer.t :=
  KafkaConsumer.__init__ (lit "localhost:9092") (lit "purchases")
    (lit "customer-management-group") (DatabaseManager.mk []).

(** A payload whose [username] is two spaces and whose [user_id] has a
    space on each side. *)
Definition padded : dict :=
  payload "  " " u " "Laptop" (99999 # 100) "2025-12-15T10:30:00Z".

(** The request of the tests, the event [buy] builds for the draw 3
    and the response it returns. *)
Definition request_payload : dict :=
  [ (lit "username", VStr (lit "john_doe")); (lit "user_id", VStr (lit "user_123")) ].

Definition request : BuyRequest.t :=
  BuyRequest.mk (lit "john_doe") (lit "user_123").

Definition event : PurchaseEvent.t :=
  PurchaseEvent.mk (lit "john_doe") (lit "user_123") (lit "Keyboard")
    (8999 # 100) (lit "2025-12-15T10:30:00Z").

Definition response : FacingMain.BuyResponse :=
  FacingMain.mk_buy_response true event (Some 0%Z) (Some 42%Z).

(** The body the history service answers in the gateway's test. *)
Definition history_body : value :=
  VDict
    [ (lit "user_id", VStr (lit "user_123"));
      (lit "username", VStr (lit "john_doe"));
      (lit "total_purchases", VInt 5);
      (lit "total_spent", VFloat (259995 # 100));
      (lit "purchases",
       VList [ VDict ((lit "_id", VStr (lit "507f1f77bcf86cd799439011")) :: laptop) ]) ].

(** Two purchases of [user_123], of 10.00 and 20.00, the cheaper one
    first and older. *)
Definition ten : PersistedPurchase.t :=
  PersistedPurchase.mk
    (Purchase.mk (lit "john_doe") (lit "user_123") (lit "Mouse") (10 # 1)
       (lit "2025-12-15T10:30:00Z"))
    100 (lit "65a000000000000000000001").

Definition twenty : PersistedPurchase.t :=
  PersistedPurchase.mk
    (Purchase.mk (lit "john_doe") (lit "user_123") (lit "Keyboard") (20 # 1)
       (lit "2025-12-15T10:31:00Z"))
    200 (lit "65a000000000000000000002").

(** One purchase of a tenth of a cent. *)
Definition tiny : PersistedPurchase.t :=
  PersistedPurchase.mk
    (Purchase.mk (lit "john_doe") (lit "user_123") (lit "Sticker") (1 # 1000)
       (lit "2025-12-15T10:30:00Z"))
    100 (lit "65a000000000000000000003").

(** A document of [user_123] without a [username]. *)
Definition nameless : dict :=
  [ (lit "user_id", VStr (lit "user_123"));
    (lit "item_name", VStr (lit "Mouse"));
    (lit "price", VFloat (10 # 1));
    (lit "timestamp", VStr (lit "2025-12-15T10:30:00Z"));
    (lit "timestamp_dt", VDatetime 100);
    (lit "_id", VObjectId (lit "65a000000000000000000004")) ].

(** A stream of four records: two purchases of [user_123], a payload
    that is not a mapping and a purchase the store refuses. *)
Definition deliver (v : value) (i : DatabaseManager.insert_env)
  : KafkaConsumer.poll :=
  KafkaConsumer.Polled
    (KafkaConsumer.mk_delivery (ConsumerRecord.mk 0 0 None v) i 7).

Definition stream : list KafkaConsumer.poll :=
  [ deliver (VDict (payload "john_doe" "user_123" "Mouse" (10 # 1) "2025-12-15T10:30:00Z"))
      (DatabaseManager.Inserted (lit "65a000000000000000000001"));
    deliver (VStr (lit "not a dict"))
      (DatabaseManager.Inserted (lit "65a000000000000000000009"));
    deliver (VDict (payload "john_doe" "user_123" "Keyboard" (20 # 1) "2025-12-15T10:31:00Z"))
      (DatabaseManager.Inserted (lit "65a000000000000000000002"));
    deliver (VDict laptop)
      (DatabaseManager.InsertRaises (OtherException (lit "Database connection failed")));
    deliver (VDict (payload "john_doe" "user_123" "Mouse" (-10 # 1) "2025-12-15T10:32:00Z"))
      (DatabaseManager.Inserted (lit "65a000000000000000000008")) ].

(** A deserializer for the payloads of the examples: ASCII bytes are
    their own text, the text of the empty object is read as the empty
    object and any other text is refused, as [json.loads] refuses text
    that is not JSON. *)
Definition decode (m : bytes) : result str := Return m.

Definition loads (s : str) : result value :=
  if str_eqb s (lit "{}") then Return (VDict [])
  else Raise (ValueError (lit "Expecting value")).

(** A record of the broker with the given payload. *)
Definition broker_record (offset : Z) (text : string) : KafkaConsumer.fetched :=
  KafkaConsumer.mk_fetched 0 offset None (lit text)
    (DatabaseManager.Inserted (lit "65a000000000000000000007")) 7.

End Sample.
(** * Properties *)

(** ** Event producer *)

Section ProducerFacts.
Import KafkaProducer.

Lemma is_connected_producer (self : t) :
  is_connected self = true ->
  connected self = true /\ exists c, producer self = Some c.
Proof.
  unfold is_connected. destruct (connected self), (producer self) as [c|];
    simpl; intros H; try discriminate. split; [reflexivity | now exists c].
Qed.

(** What the client answers decides the outcome of a send. *)
Lemma send_outcome (c : AIOKafkaProducer.t) topic key value partition r :
  let out := AIOKafkaProducer.send c topic key value partition r in
  match fst out with
  | Return _ => AIOKafkaProducer.client_id (snd out) = AIOKafkaProducer.client_id c
                /\ exists w, AIOKafkaProducer.accepted (snd out)
                             = AIOKafkaProducer.accepted c ++ [w]
                             /\ Return (AIOKafkaProducer.wire_key w)
                                = AIOKafkaProducer.key_serializer key
                             /\ AIOKafkaProducer.wire_value w = value
                             /\ AIOKafkaProducer.wire_topic w = topic
  | Raise _ => snd out = c
  end.
Proof.
  unfold AIOKafkaProducer.send.
  destruct r as [e|e|md]; simpl; try reflexivity;
    destruct (AIOKafkaProducer.key_serializer key) as [kb|e1]; simpl; try reflexivity;
    unfold AIOKafkaProducer.value_serializer;
    destruct (json_serializable (VDict value)); simpl; try reflexivity;
    (split; [reflexivity | eexists; repeat split; reflexivity]).
Qed.
End ProducerFacts.


(** An acknowledged send of an encodable key and a serializable value
    returns the broker's metadata. *)
Lemma send_message_delivered (self : KafkaProducer.t) key value partition md now kb :
  KafkaProducer.is_connected self = true ->
  AIOKafkaProducer.key_serializer key = Return kb ->
  json_serializable (VDict value) = true ->
  fst (KafkaProducer.send_message self key value partition
         (AIOKafkaProducer.Delivered md) now) = Return md.
Proof.
  intros Hc Hk Hv. unfold KafkaProducer.send_message. rewrite Hc. simpl negb. cbv iota.
  destruct (is_connected_producer self Hc) as [_ [c Hp]]. rewrite Hp.
  unfold AIOKafkaProducer.send, AIOKafkaProducer.value_serializer. rewrite Hk, Hv.
  reflexivity.
Qed.

(** The producer's tests: a send that is acknowledged, a send on a
    producer that was never started, a broker error and a timeout. *)
Example send_message_tests :
  let ok := KafkaProducer.send_message Sample.connected_producer (lit "user_123")
              Sample.laptop None (AIOKafkaProducer.Delivered (Sample.metadata 42)) 7 in
  let off := KafkaProducer.send_message Sample.fresh_producer (lit "user_123")
               Sample.laptop None (AIOKafkaProducer.Delivered (Sample.metadata 42)) 7 in
  let err := KafkaProducer.send_message Sample.connected_producer (lit "user_123")
               Sample.laptop None
               (AIOKafkaProducer.DeliveryRaises (KafkaError (lit "Broker not available"))) 7 in
  let late := KafkaProducer.send_message Sample.connected_producer (lit "user_123")
                Sample.laptop None
                (AIOKafkaProducer.DeliveryRaises (KafkaTimeoutError (lit "Request timeout"))) 7 in
  (fst ok = Return (Sample.metadata 42)
   /\ KafkaProducer.get_stats (snd ok) = (true, 1, 0, Some 7)%Z)
  /\ (fst off = Raise (ValueError (lit "Kafka producer is not connected"))
      /\ KafkaProducer.get_stats (snd off) = (false, 0, 0, None)%Z)
  /\ (fst err = Raise (KafkaError (lit "Broker not available"))
      /\ KafkaProducer.get_stats (snd err) = (true, 0, 1, None)%Z)
  /\ (fst late = Raise (KafkaError (lit "Timeout sending message: Request timeout"))
      /\ KafkaProducer.get_stats (snd late) = (true, 0, 1, None)%Z).
Proof. cbv zeta. repeat split; reflexivity. Qed.

(** *** Batches *)

(** The second loop yields one outcome per future, in order, whatever
    fails. *)
Lemma collect_results (futures : list AIOKafkaProducer.future) :
  forall self : KafkaProducer.t,
    fst (KafkaProducer.collect self futures) = map future_result futures.
Proof.
  induction futures as [|f fs IH]; intros self; simpl; [reflexivity|].
  destruct f as [md|e].
  - specialize (IH (KafkaProducer.set_messages_sent (KafkaProducer.messages_sent self + 1) self)).
    destruct (KafkaProducer.collect _ fs) as [rs s']. simpl in *. now rewrite IH.
  - specialize (IH (KafkaProducer.set_messages_failed (KafkaProducer.messages_failed self + 1) self)).
    destruct (KafkaProducer.collect _ fs) as [rs s']. simpl in *. now rewrite IH.
Qed.

(** The first loop either queues every message or raises at the first
    send that raises. *)
Lemma enqueue_length (messages : list (str * dict)) :
  forall c topic broker i futures c',
    KafkaProducer.enqueue c topic messages broker i = (Return futures, c') ->
    List.length futures = List.length messages.
Proof.
  induction messages as [|[k v] rest IH]; intros c topic broker i futures c' H; simpl in H.
  - now inversion H.
  - destruct (AIOKafkaProducer.send c topic k v None (broker i)) as [[f|e] c1]; [|discriminate].
    destruct (KafkaProducer.enqueue c1 topic rest broker (S i)) as [[fs|e] c2] eqn:E;
      simpl in H; [|discriminate].
    inversion H; subst. simpl. f_equal. eapply IH; eassumption.
Qed.

Lemma send_batch_all_queued (self : KafkaProducer.t) messages broker now c futures c' :
  KafkaProducer.is_connected self = true ->
  KafkaProducer.producer self = Some c ->
  KafkaProducer.enqueue c (KafkaProducer.topic self) messages broker 0 = (Return futures, c') ->
  fst (KafkaProducer.send_batch self messages broker now) = Return (map future_result futures)
  /\ List.length (map future_result futures) = List.length messages.
Proof.
  intros Hc Hp He. unfold KafkaProducer.send_batch. rewrite Hc, Hp, He. simpl.
  pose proof (collect_results futures (KafkaProducer.set_producer (Some c') self)) as Hr.
  destruct (KafkaProducer.collect _ futures) as [rs s']. simpl in *.
  rewrite Hr. split; [reflexivity|].
  rewrite length_map. eapply enqueue_length; eassumption.
Qed.

(** One refused send is enough for the first loop to raise. *)
Lemma enqueue_refusal (messages : list (str * dict)) :
  forall c topic broker i,
    (exists j e, (j < List.length messages)%nat
                 /\ broker (i + j)%nat = AIOKafkaProducer.EnqueueRaises e) ->
    exists e', fst (KafkaProducer.enqueue c topic messages broker i) = Raise e'.
Proof.
  induction messages as [|[k v] rest IH]; intros c topic broker i (j & e & Hj & Hb).
  - simpl in Hj. lia.
  - cbn [KafkaProducer.enqueue].
    destruct (AIOKafkaProducer.send c topic k v None (broker i)) as [[f|e1] c1] eqn:Hs.
    + destruct j as [|j].
      * rewrite Nat.add_0_r in Hb. rewrite Hb in Hs. simpl in Hs. discriminate.
      * destruct (IH c1 topic broker (S i)) as [e' He'].
        { exists j, e. split; [simpl in Hj; lia|].
          now replace (S i + j)%nat with (i + S j)%nat by lia. }
        destruct (KafkaProducer.enqueue c1 topic rest broker (S i)) as [r c2].
        simpl in He'. subst r. exists e'. reflexivity.
    + exists e1. reflexivity.
Qed.

(** So [send_batch] raises, and returns no list, as soon as the client
    refuses one of the sends. *)
Lemma send_batch_refusal (self : KafkaProducer.t) messages broker now :
  KafkaProducer.is_connected self = true ->
  (exists j e, (j < List.length messages)%nat
               /\ broker j = AIOKafkaProducer.EnqueueRaises e) ->
  exists e', fst (KafkaProducer.send_batch self messages broker now) = Raise e'.
Proof.
  intros Hc Hr. unfold KafkaProducer.send_batch. rewrite Hc. simpl negb. cbv iota.
  destruct (is_connected_producer self Hc) as [_ [c Hp]]. rewrite Hp.
  destruct (enqueue_refusal messages c (KafkaProducer.topic self) broker 0 Hr) as [e' He'].
  destruct (KafkaProducer.enqueue c (KafkaProducer.topic self) messages broker 0) as [r c'].
  simpl in He'. subst r. exists e'. reflexivity.
Qed.

(** C2.  On a connected producer, a batch of three whose second
    [send] the client refuses: [send_batch] raises that exception, the
    caller gets no list of outcomes, no counter has moved, and the first
    message is already with the client.  The same batch with a failing
    second delivery yields the three outcomes. *)
Theorem send_batch_refused_send_aborts :
  let out := KafkaProducer.send_batch Sample.connected_producer Sample.batch
               Sample.refuses_second 7%Z in
  fst out = Raise (KafkaTimeoutError (lit "metadata timeout"))
  /\ KafkaProducer.messages_sent (snd out) = 0%Z
  /\ KafkaProducer.messages_failed (snd out) = 0%Z
  /\ option_map (fun c => List.length (AIOKafkaProducer.accepted c))
       (KafkaProducer.producer (snd out)) = Some 1%nat
  /\ fst (KafkaProducer.send_batch Sample.connected_producer Sample.batch
            Sample.fails_second_delivery 7%Z)
     = Return [Some (Sample.metadata 0); None; Some (Sample.metadata 2)].
Proof. vm_compute. repeat split; reflexivity. Qed.

(** *** Connection life cycle *)

(** C9.  [stop] never raises, whatever the client's [flush()] and
    [stop()] do; it leaves the producer not connected and touches
    nothing else, so a second [stop] ends in the state of the first. *)
Theorem stop_idempotent :
  forall (self : KafkaProducer.t) (flush1 stop1 flush2 stop2 : result unit),
    let once := KafkaProducer.stop self flush1 stop1 in
    let twice := KafkaProducer.stop (snd once) flush2 stop2 in
    fst once = Return tt
    /\ fst twice = Return tt
    /\ snd twice = snd once
    /\ KafkaProducer.is_connected (snd once) = false
    /\ KafkaProducer.connected (snd once) = false
    /\ snd once = KafkaProducer.set_connected false self.
Proof.
  intros self flush1 stop1 flush2 stop2 once twice. subst once twice.
  unfold KafkaProducer.stop. simpl.
  repeat split.
  - destruct (KafkaProducer.producer self); [|reflexivity].
    destruct flush1 as [[]|e]; simpl; [destruct stop1|]; reflexivity.
  - destruct (KafkaProducer.producer self); [|reflexivity].
    destruct flush2 as [[]|e]; simpl; [destruct stop2|]; reflexivity.
Qed.

(** C8.  When the client cannot be built or started, the producer's
    [start] raises the client's exception and the producer is not
    connected afterwards; its counters are as before, and so is every
    observable of a producer that was not connected.  The consumer's
    [start] raises it too and leaves [running], the task and the
    counters as they were, so a consumer that was stopped is still
    stopped and [is_running] is false. *)
Theorem failed_start_leaves_disconnected :
  forall (p : KafkaProducer.t) (pc : AIOKafkaProducer.t)
         (k : KafkaConsumer.t) (kc : nat) (e : exn),
    let p1 := KafkaProducer.start p (KafkaProducer.ClientStartRaises pc e) in
    let p2 := KafkaProducer.start p (KafkaProducer.ConstructorRaises e) in
    let k1 := KafkaConsumer.start k (KafkaConsumer.ClientStartRaises kc e) in
    let k2 := KafkaConsumer.start k (KafkaConsumer.ConstructorRaises e) in
    (fst p1 = Raise e /\ fst p2 = Raise e
     /\ KafkaProducer.is_connected (snd p1) = false
     /\ KafkaProducer.is_connected (snd p2) = false
     /\ KafkaProducer.connected (snd p1) = false
     /\ KafkaProducer.connected (snd p2) = false
     /\ snd p1 = KafkaProducer.set_connected false (KafkaProducer.set_producer (Some pc) p)
     /\ snd p2 = KafkaProducer.set_connected false p
     /\ (KafkaProducer.connected p = false ->
         KafkaProducer.get_stats (snd p1) = KafkaProducer.get_stats p
         /\ KafkaProducer.is_connected (snd p1) = KafkaProducer.is_connected p
         /\ snd p2 = p))
    /\ (fst k1 = Raise e /\ fst k2 = Raise e
        /\ KafkaConsumer.running (snd k1) = KafkaConsumer.running k
        /\ KafkaConsumer.is_running (snd k1) = KafkaConsumer.running k
        /\ snd k1 = KafkaConsumer.set_consumer (Some kc) k
        /\ snd k2 = k
        /\ (KafkaConsumer.running k = false ->
            KafkaConsumer.is_running (snd k1) = false
            /\ KafkaConsumer.is_running (snd k2) = false
            /\ KafkaConsumer.is_running (snd k1) = KafkaConsumer.is_running k)).
Proof.
  intros p pc k kc e p1 p2 k1 k2. subst p1 p2 k1 k2. simpl.
  split.
  - repeat split; try (unfold KafkaProducer.is_connected; reflexivity).
    + unfold KafkaProducer.get_stats. simpl. now rewrite H.
    + unfold KafkaProducer.is_connected. simpl. now rewrite H.
    + destruct p; simpl in *; now subst.
  - repeat split.
    + unfold KafkaConsumer.is_running; simpl. now rewrite andb_true_r.
    + unfold KafkaConsumer.is_running; simpl. now rewrite H.
    + unfold KafkaConsumer.is_running. now rewrite H.
    + unfold KafkaConsumer.is_running; simpl. now rewrite H.
Qed.

Lemma failed_start_leaves_disconnected_witness :
  KafkaConsumer.is_running
    (snd (KafkaConsumer.start Sample.stopped_consumer
            (KafkaConsumer.ClientStartRaises 3 (KafkaError (lit "Connection refused")))))
  = false
  /\ KafkaProducer.is_connected
       (snd (KafkaProducer.start Sample.fresh_producer
               (KafkaProducer.ClientStartRaises Sample.client
                  (KafkaError (lit "Connection refused")))))
     = false.
Proof.
  pose proof (failed_start_leaves_disconnected Sample.fresh_producer Sample.client
                Sample.stopped_consumer 3 (KafkaError (lit "Connection refused"))) as H.
  cbv zeta in H. destruct H as [Hp Hk]. split.
  - destruct Hk as (_ & _ & _ & _ & _ & _ & Hk). now apply Hk.
  - destruct Hp as (_ & _ & Hp & _). exact Hp.
Defined.

(** ** Event consumer *)

Section ConsumerFacts.
Context {lib : PyLib}.
Import KafkaConsumer.

(** The store call of a record raises exactly when the record is not
    classified [Persisted]. *)
Lemma persist_classify (self : t) (d : delivery) :
  match fst (persist self d) with
  | Return _ => classify d = Persisted
  | Raise _ => classify d <> Persisted
  end.
Proof.
  unfold persist, classify, as_mapping.
  destruct (ConsumerRecord.value (message d)); simpl; try discriminate.
  destruct (Purchase.validate d0) as [p|e]; simpl; try discriminate.
  unfold DatabaseManager.save_purchase.
  destruct (DatabaseManager.timestamp_dt (Purchase.timestamp p)) as [dt|e]; simpl;
    try discriminate.
  destruct (insert d); simpl; [reflexivity | discriminate | discriminate].
Qed.

Lemma process_message_step (self : t) (d : delivery) :
  let out := _process_message self d in
  fst out = Return tt
  /\ running (snd out) = running self
  /\ if is_persisted d then
       messages_processed (snd out) = (messages_processed self + 1)%Z
       /\ messages_failed (snd out) = messages_failed self
       /\ last_message_time (snd out) = Some (clock d)
     else
       messages_failed (snd out) = (messages_failed self + 1)%Z
       /\ messages_processed (snd out) = messages_processed self
       /\ last_message_time (snd out) = last_message_time self.
Proof.
  unfold _process_message, is_persisted.
  pose proof (persist_classify self d) as H.
  destruct (persist self d) as [[oid|e] db]; simpl in *.
  - rewrite H. repeat split; reflexivity.
  - destruct (classify d); try congruence;
      destruct (is_ValueError e); simpl; repeat split; reflexivity.
Qed.

Lemma count_cons (d : delivery) (l : list delivery) :
  count_persisted (d :: l)
  = ((if is_persisted d then 1 else 0) + count_persisted l)%Z
  /\ count_failed (d :: l)
     = ((if is_persisted d then 0 else 1) + count_failed l)%Z.
Proof.
  unfold count_persisted, count_failed. cbn [filter].
  destruct (is_persisted d); cbn [negb List.length]; split; lia.
Qed.

Lemma counts_partition (l : list delivery) :
  (count_persisted l + count_failed l)%Z = len_list l.
Proof.
  induction l as [|d l IH]; [reflexivity|].
  destruct (count_cons d l) as [-> ->]. unfold len_list in *. cbn [List.length].
  destruct (is_persisted d); lia.
Qed.

Lemma consume_loop_counters (stream : list poll) :
  forall self : t,
    let self' := _consume_loop self stream in
    let recs := processed_records (running self) stream in
    messages_processed self' = (messages_processed self + count_persisted recs)%Z
    /\ messages_failed self' = (messages_failed self + count_failed recs)%Z.
Proof.
  induction stream as [|ev rest IH]; intros self; simpl.
  - unfold count_persisted, count_failed; simpl. split; lia.
  - destruct ev as [d|e|].
    + destruct (running self) eqn:Hr; simpl.
      * pose proof (process_message_step self d) as (Hret & Hrun & Hstep).
        destruct (_process_message self d) as [r s1]; simpl in *. subst r.
        specialize (IH s1). simpl in IH. rewrite Hrun, Hr in IH.
        destruct IH as [IH1 IH2].
        destruct (count_cons d (processed_records true rest)) as [-> ->].
        destruct (is_persisted d); destruct Hstep as (H1 & H2 & _); split; lia.
      * unfold count_persisted, count_failed; simpl. split; lia.
    + unfold count_persisted, count_failed; simpl. split; lia.
    + specialize (IH (set_running false self)). simpl in IH. exact IH.
Qed.

Lemma processed_records_all (ds : list delivery) :
  processed_records true (map Polled ds) = ds.
Proof. induction ds as [|d ds IH]; simpl; [reflexivity | now rewrite IH]. Qed.

End ConsumerFacts.

(** Records the client has deserialized.  [_process_message] never
    raises and moves exactly one counter by one: [messages_processed]
    for a record that is persisted, [messages_failed] for one whose
    value is not a mapping, fails validation or fails in the store.
    Over a finite stream the loop adds to [messages_processed] the
    number of persisted records among those it handled and to
    [messages_failed] the number of the others; a running consumer fed
    deserialized records only handles them all. *)
Lemma delivered_records_partition :
  forall (lib : PyLib) (self : KafkaConsumer.t)
         (stream : list KafkaConsumer.poll) (ds : list KafkaConsumer.delivery)
         (d : KafkaConsumer.delivery),
    let one := KafkaConsumer._process_message self d in
    let self' := KafkaConsumer._consume_loop self stream in
    let recs := KafkaConsumer.processed_records (KafkaConsumer.running self) stream in
    let all := KafkaConsumer._consume_loop (KafkaConsumer.set_running true self)
                 (map KafkaConsumer.Polled ds) in
    (fst one = Return tt
     /\ match KafkaConsumer.classify d with
        | KafkaConsumer.Persisted =>
            KafkaConsumer.messages_processed (snd one)
            = (KafkaConsumer.messages_processed self + 1)%Z
            /\ KafkaConsumer.messages_failed (snd one) = KafkaConsumer.messages_failed self
        | _ =>
            KafkaConsumer.messages_failed (snd one)
            = (KafkaConsumer.messages_failed self + 1)%Z
            /\ KafkaConsumer.messages_processed (snd one)
               = KafkaConsumer.messages_processed self
        end)
    /\ (KafkaConsumer.messages_processed self'
        = (KafkaConsumer.messages_processed self + KafkaConsumer.count_persisted recs)%Z
        /\ KafkaConsumer.messages_failed self'
           = (KafkaConsumer.messages_failed self + KafkaConsumer.count_failed recs)%Z
        /\ (KafkaConsumer.messages_processed self' + KafkaConsumer.messages_failed self')%Z
           = (KafkaConsumer.messages_processed self + KafkaConsumer.messages_failed self
              + len_list recs)%Z)
    /\ (KafkaConsumer.messages_processed all
        = (KafkaConsumer.messages_processed self + KafkaConsumer.count_persisted ds)%Z
        /\ KafkaConsumer.messages_failed all
           = (KafkaConsumer.messages_failed self + KafkaConsumer.count_failed ds)%Z
        /\ (KafkaConsumer.messages_processed all + KafkaConsumer.messages_failed all)%Z
           = (KafkaConsumer.messages_processed self + KafkaConsumer.messages_failed self
              + len_list ds)%Z).
Proof.
  intros lib self stream ds d one self' recs all. subst one self' recs all.
  split; [|split].
  - pose proof (process_message_step self d) as (Hret & _ & Hstep).
    split; [exact Hret|]. unfold KafkaConsumer.is_persisted in Hstep.
    destruct (KafkaConsumer.classify d); destruct Hstep as (H1 & H2 & _); now split.
  - pose proof (consume_loop_counters stream self) as [H1 H2]. cbv zeta in *.
    pose proof (counts_partition
                  (KafkaConsumer.processed_records (KafkaConsumer.running self) stream)).
    repeat split; lia.
  - pose proof (consume_loop_counters (map KafkaConsumer.Polled ds)
                  (KafkaConsumer.set_running true self)) as [H1 H2].
    cbv zeta in *. simpl KafkaConsumer.running in *.
    rewrite processed_records_all in *. simpl in H1, H2.
    pose proof (counts_partition ds).
    repeat split; lia.
Qed.

(** ** Event schema and validation *)

Section StripFacts.

Lemma str_eqb_eq (a b : str) : str_eqb a b = true <-> a = b.
Proof.
  revert b; induction a as [|x a IH]; destruct b as [|y b]; simpl;
    try (split; [discriminate | congruence]); [tauto|].
  rewrite andb_true_iff, N.eqb_eq, IH. split; [intros [-> ->] | intros H; inversion H]; auto.
Qed.

Lemma str_eqb_refl (a : str) : str_eqb a a = true.
Proof. now apply str_eqb_eq. Qed.

Lemma lstrip_decompose (s : str) :
  exists a, s = a ++ lstrip s /\ blank a = true
            /\ match lstrip s with [] => True | c :: _ => isspace c = false end.
Proof.
  induction s as [|c s (a & Hs & Ha & Hh)]; simpl.
  - exists []; repeat split.
  - destruct (isspace c) eqn:Hc.
    + exists (c :: a); simpl. rewrite Hc, Ha. repeat split; [now f_equal | exact Hh].
    + exists []; repeat split. exact Hc.
Qed.

Lemma lstrip_nil (s : str) : lstrip s = [] <-> blank s = true.
Proof.
  induction s as [|c s IH]; simpl; [tauto|].
  destruct (isspace c); simpl; [exact IH | split; discriminate].
Qed.

Lemma blank_rev (s : str) : blank (rev s) = blank s.
Proof.
  unfold blank. induction s as [|c s IH]; simpl; [reflexivity|].
  rewrite forallb_app, IH. simpl. rewrite andb_true_r. apply andb_comm.
Qed.

Lemma blank_app (a b : str) : blank (a ++ b) = blank a && blank b.
Proof. apply forallb_app. Qed.

(** [strip] yields the empty string exactly on a string that is empty
    or all whitespace. *)
Lemma strip_nil (s : str) : strip s = [] <-> blank s = true.
Proof.
  unfold strip, rstrip.
  destruct (lstrip_decompose s) as (a & Hs & Ha & Hh).
  split.
  - intros H. apply (f_equal (@rev N)) in H. rewrite rev_involutive in H. simpl in H.
    apply lstrip_nil in H. rewrite blank_rev in H.
    rewrite Hs, blank_app, Ha, H. reflexivity.
  - intros H. apply lstrip_nil in H. rewrite H. reflexivity.
Qed.

(** [strip] removes a whitespace prefix and a whitespace suffix and
    what is left neither starts nor ends with whitespace. *)
Lemma strip_decompose (s : str) :
  exists a b, s = a ++ strip s ++ b /\ blank a = true /\ blank b = true
              /\ match strip s with [] => True | c :: _ => isspace c = false end
              /\ match rev (strip s) with [] => True | c :: _ => isspace c = false end.
Proof.
  unfold strip, rstrip.
  destruct (lstrip_decompose s) as (a & Hs & Ha & Hh).
  destruct (lstrip_decompose (rev (lstrip s))) as (b & Ht & Hb & Hl).
  set (t := lstrip s) in *. set (u := lstrip (rev t)) in *.
  assert (Et : t = rev u ++ rev b).
  { rewrite <- rev_app_distr, <- Ht. now rewrite rev_involutive. }
  exists a, (rev b). repeat split.
  - rewrite Hs at 1. now rewrite Et.
  - exact Ha.
  - now rewrite blank_rev.
  - destruct (rev u) as [|c r] eqn:Er; [exact I|].
    rewrite Et in Hh. simpl in Hh. exact Hh.
  - rewrite rev_involutive. exact Hl.
Qed.

End StripFacts.

Section ValidationFacts.
Context {lib : PyLib}.

Lemma str_field_spec (name : string) (data : dict) (s : str) :
  str_field name data = Return s <-> dict_get (lit name) data = Some (VStr s).
Proof.
  unfold str_field. destruct (dict_get (lit name) data) as [[]|];
    split; intros H; try discriminate; congruence.
Qed.

Lemma positive_float_field_spec (name : string) (data : dict) (q : Q) :
  positive_float_field name data = Return q
  <-> exists v, dict_get (lit name) data = Some v /\ as_float v = Some q /\ 0 < q.
Proof.
  unfold positive_float_field.
  destruct (dict_get (lit name) data) as [v|].
  2: { split; [discriminate | intros (v & H & _); discriminate]. }
  destruct (as_float v) as [x|] eqn:Hv.
  2: { split; [discriminate | intros (v' & H & H' & _); congruence]. }
  destruct (Qle_bool x 0) eqn:Hle.
  - split; [discriminate|]. intros (v' & H & H' & Hpos).
    assert (x = q) by congruence. subst x.
    apply Qle_bool_iff in Hle. exfalso. apply (Qlt_not_le _ _ Hpos Hle).
  - split.
    + intros H. inversion H; subst. exists v. repeat split; auto.
      apply Qnot_le_lt. intros Hc. apply Qle_bool_iff in Hc. congruence.
    + intros (v' & H & H' & _). congruence.
Qed.

Lemma bounded_str_field_spec (name : string) (data : dict) (s : str) :
  bounded_str_field name data = Return s
  <-> dict_get (lit name) data = Some (VStr s) /\ (1 <= len s <= 100)%Z.
Proof.
  unfold bounded_str_field.
  destruct (str_field name data) as [x|e] eqn:Hf; simpl.
  - apply str_field_spec in Hf.
    destruct (len x <? 1)%Z eqn:H1; [|destruct (100 <? len x)%Z eqn:H2].
    + split; [discriminate|]. intros [H Hb]. assert (x = s) by congruence. subst. lia.
    + split; [discriminate|]. intros [H Hb]. assert (x = s) by congruence. subst. lia.
    + split.
      * intros H; inversion H; subst. split; [assumption | lia].
      * intros [H _]. congruence.
  - split; [discriminate|]. intros [H _]. apply str_field_spec in H. congruence.
Qed.

Lemma Purchase_validate_spec (data : dict) (p : Purchase.t) :
  Purchase.validate data = Return p
  <-> dict_get (lit "username") data = Some (VStr (Purchase.username p))
      /\ dict_get (lit "user_id") data = Some (VStr (Purchase.user_id p))
      /\ dict_get (lit "item_name") data = Some (VStr (Purchase.item_name p))
      /\ (exists v, dict_get (lit "price") data = Some v
                    /\ as_float v = Some (Purchase.price p) /\ 0 < Purchase.price p)
      /\ dict_get (lit "timestamp") data = Some (VStr (Purchase.timestamp p)).
Proof.
  rewrite <- !str_field_spec, <- positive_float_field_spec.
  unfold Purchase.validate.
  destruct (str_field "username" data), (str_field "user_id" data),
    (str_field "item_name" data), (positive_float_field "price" data),
    (str_field "timestamp" data); destruct p; simpl;
    split; intros H; try discriminate;
    try (decompose [and] H; congruence);
    try (inversion H; subst; repeat split; reflexivity).
Qed.

Lemma PurchaseEvent_validate_spec (data : dict) (p : PurchaseEvent.t) :
  PurchaseEvent.validate data = Return p
  <-> dict_get (lit "username") data = Some (VStr (PurchaseEvent.username p))
      /\ dict_get (lit "user_id") data = Some (VStr (PurchaseEvent.user_id p))
      /\ dict_get (lit "item_name") data = Some (VStr (PurchaseEvent.item_name p))
      /\ (exists v, dict_get (lit "price") data = Some v
                    /\ as_float v = Some (PurchaseEvent.price p)
                    /\ 0 < PurchaseEvent.price p)
      /\ dict_get (lit "timestamp") data = Some (VStr (PurchaseEvent.timestamp p)).
Proof.
  rewrite <- !str_field_spec, <- positive_float_field_spec.
  unfold PurchaseEvent.validate.
  destruct (str_field "username" data), (str_field "user_id" data),
    (str_field "item_name" data), (positive_float_field "price" data),
    (str_field "timestamp" data); destruct p; simpl;
    split; intros H; try discriminate;
    try (decompose [and] H; congruence);
    try (inversion H; subst; repeat split; reflexivity).
Qed.

End ValidationFacts.

Lemma validate_name_spec (v s : str) :
  BuyRequest.validate_username v = Return s <-> blank v = false /\ s = strip v.
Proof.
  unfold BuyRequest.validate_username.
  destruct (strip v) as [|c r] eqn:Hs; simpl.
  - apply strip_nil in Hs. split; [discriminate | intros [H _]; congruence].
  - split; [intros H; inversion H; split; auto | intros [_ ->]; reflexivity].
    destruct (blank v) eqn:Hb; [|reflexivity]. apply strip_nil in Hb. congruence.
Qed.

Lemma validate_id_spec (v s : str) :
  BuyRequest.validate_user_id v = Return s <-> blank v = false /\ s = strip v.
Proof.
  unfold BuyRequest.validate_user_id.
  destruct (strip v) as [|c r] eqn:Hs; simpl.
  - apply strip_nil in Hs. split; [discriminate | intros [H _]; congruence].
  - split; [intros H; inversion H; split; auto | intros [_ ->]; reflexivity].
    destruct (blank v) eqn:Hb; [|reflexivity]. apply strip_nil in Hb. congruence.
Qed.

Lemma BuyRequest_validate_spec (data : dict) (b : BuyRequest.t) :
  BuyRequest.validate data = Return b
  <-> exists u i,
        dict_get (lit "username") data = Some (VStr u)
        /\ dict_get (lit "user_id") data = Some (VStr i)
        /\ (1 <= len u <= 100)%Z /\ (1 <= len i <= 100)%Z
        /\ blank u = false /\ blank i = false
        /\ b = BuyRequest.mk (strip u) (strip i).
Proof.
  unfold BuyRequest.validate.
  destruct (bounded_str_field "username" data) as [u|e1] eqn:Hu; simpl.
  2: { split; [discriminate|]. intros (u & i & H1 & _ & H3 & _).
       assert (bounded_str_field "username" data = Return u)
         by (apply bounded_str_field_spec; auto). congruence. }
  destruct (bounded_str_field "user_id" data) as [i|e2] eqn:Hi; simpl.
  2: { split; [destruct (BuyRequest.validate_username u); discriminate|].
       intros (u' & i & _ & H2 & _ & H4 & _).
       assert (bounded_str_field "user_id" data = Return i)
         by (apply bounded_str_field_spec; auto). congruence. }
  apply bounded_str_field_spec in Hu, Hi. destruct Hu as [Hu Lu], Hi as [Hi Li].
  destruct (BuyRequest.validate_username u) as [su|e] eqn:Vu;
    destruct (BuyRequest.validate_user_id i) as [si|e'] eqn:Vi;
    try apply validate_name_spec in Vu; try apply validate_id_spec in Vi.
  - destruct Vu as [Bu ->], Vi as [Bi ->]. split.
    + intros H; inversion H; subst. exists u, i. repeat split; auto; lia.
    + intros (u' & i' & H1 & H2 & _ & _ & _ & _ & ->). congruence.
  - split; [discriminate|]. intros (u' & i' & H1 & H2 & _ & _ & _ & Bi & _).
    assert (i' = i) by congruence. subst.
    assert (BuyRequest.validate_user_id i = Return (strip i))
      by (apply validate_id_spec; auto). congruence.
  - split; [discriminate|]. intros (u' & i' & H1 & H2 & _ & _ & Bu & _ & _).
    assert (u' = u) by congruence. subst.
    assert (BuyRequest.validate_username u = Return (strip u))
      by (apply validate_name_spec; auto). congruence.
  - split; [discriminate|]. intros (u' & i' & H1 & H2 & _ & _ & Bu & _ & _).
    assert (u' = u) by congruence. subst.
    assert (BuyRequest.validate_username u = Return (strip u))
      by (apply validate_name_spec; auto). congruence.
Qed.

(** C4, as the code has it.  The request model of the producing side
    accepts a payload exactly when [username] and [user_id] are strings
    of 1 to 100 characters that are not all whitespace, and yields both
    stripped.  The event model of the producing side and the model of
    the consuming side accept a payload exactly when the five fields are
    present, the four text fields are strings and [price] is a number
    above zero; they yield [username] and [user_id] as given, neither
    checked for whitespace nor stripped. *)
Theorem validation_rules :
  forall (lib : PyLib) (data : dict),
    (forall b : BuyRequest.t,
        BuyRequest.validate data = Return b
        <-> exists u i,
              dict_get (lit "username") data = Some (VStr u)
              /\ dict_get (lit "user_id") data = Some (VStr i)
              /\ (1 <= len u <= 100)%Z /\ (1 <= len i <= 100)%Z
              /\ blank u = false /\ blank i = false
              /\ b = BuyRequest.mk (strip u) (strip i))
    /\ (forall p : Purchase.t,
           Purchase.validate data = Return p
           <-> dict_get (lit "username") data = Some (VStr (Purchase.username p))
               /\ dict_get (lit "user_id") data = Some (VStr (Purchase.user_id p))
               /\ dict_get (lit "item_name") data = Some (VStr (Purchase.item_name p))
               /\ (exists v, dict_get (lit "price") data = Some v
                             /\ as_float v = Some (Purchase.price p)
                             /\ 0 < Purchase.price p)
               /\ dict_get (lit "timestamp") data = Some (VStr (Purchase.timestamp p)))
    /\ (forall e : PurchaseEvent.t,
           PurchaseEvent.validate data = Return e
           <-> dict_get (lit "username") data = Some (VStr (PurchaseEvent.username e))
               /\ dict_get (lit "user_id") data = Some (VStr (PurchaseEvent.user_id e))
               /\ dict_get (lit "item_name") data = Some (VStr (PurchaseEvent.item_name e))
               /\ (exists v, dict_get (lit "price") data = Some v
                             /\ as_float v = Some (PurchaseEvent.price e)
                             /\ 0 < PurchaseEvent.price e)
               /\ dict_get (lit "timestamp") data = Some (VStr (PurchaseEvent.timestamp e))).
Proof.
  intros lib data. split; [|split].
  - intros b. apply BuyRequest_validate_spec.
  - intros p. apply Purchase_validate_spec.
  - intros e. apply PurchaseEvent_validate_spec.
Qed.

(** C4 at a payload the consumer accepts as it is: [username] is two
    spaces and [user_id] is padded, and both arrive in the event
    unchanged, while the request model refuses the same payload. *)
Lemma validation_rules_witness :
  Purchase.validate (lib := strict_lib) Sample.padded
  = Return (Purchase.mk (lit "  ") (lit " u ") (lit "Laptop") (99999 # 100)
              (lit "2025-12-15T10:30:00Z"))
  /\ raised (BuyRequest.validate Sample.padded) = true.
Proof.
  split.
  - apply (proj1 (proj2 (validation_rules strict_lib Sample.padded))).
    repeat split; try reflexivity.
    exists (VFloat (99999 # 100)). repeat split; reflexivity.
  - reflexivity.
Defined.

(** The consumer-side model does not reject a whitespace-only
    [username] and does not strip: the rule set of C4 does not hold of
    it. *)
Lemma consumer_accepts_blank_username :
  ~ (forall (lib : PyLib) (data : dict) (u : str) (p : Purchase.t),
        dict_get (lit "username") data = Some (VStr u) ->
        (blank u = true -> raised (Purchase.validate data) = true)
        /\ (Purchase.validate data = Return p -> Purchase.username p = strip u)).
Proof.
  intros H.
  destruct (H strict_lib Sample.padded (lit "  ")
              (Purchase.mk (lit "  ") (lit " u ") (lit "Laptop") (99999 # 100)
                 (lit "2025-12-15T10:30:00Z")) eq_refl) as [H1 _].
  specialize (H1 eq_refl). vm_compute in H1. discriminate.
Qed.

(** The tests of the request model. *)
Example buy_request_trims :
  BuyRequest.validate
    [ (lit "username", VStr (lit "  test_user  ")); (lit "user_id", VStr (lit "user_123")) ]
  = Return (BuyRequest.mk (lit "test_user") (lit "user_123")).
Proof. reflexivity. Qed.

Example buy_request_rejects_blank :
  raised (BuyRequest.validate
            [ (lit "username", VStr (lit "   ")); (lit "user_id", VStr (lit "user_123")) ])
  = true
  /\ raised (BuyRequest.validate
               [ (lit "username", VStr ([])); (lit "user_id", VStr (lit "user_123")) ])
     = true.
Proof. split; reflexivity. Qed.

(** ** Partition key *)

Lemma lor_byte (a b : N) : (a < 256 -> b < 256 -> N.lor a b < 256)%N.
Proof.
  intros Ha Hb.
  destruct (N.eq_dec (N.lor a b) 0) as [E|E]; [rewrite E; lia|].
  change 256%N with (2 ^ 8)%N in *.
  apply N.log2_lt_pow2; [lia|].
  rewrite N.log2_lor.
  assert (La : (N.log2 a < 8)%N).
  { destruct (N.eq_dec a 0) as [->|Na]; [now compute|]. apply N.log2_lt_pow2; lia. }
  assert (Lb : (N.log2 b < 8)%N).
  { destruct (N.eq_dec b 0) as [->|Nb]; [now compute|]. apply N.log2_lt_pow2; lia. }
  lia.
Qed.

Lemma land_63 (c : N) : (N.land c 63 < 64)%N.
Proof.
  change 63%N with (N.ones 6). rewrite N.land_ones.
  apply N.mod_lt. discriminate.
Qed.

Lemma shiftr_lt (c k m : N) : (c < m * 2 ^ k -> N.shiftr c k < m)%N.
Proof.
  intros H. rewrite N.shiftr_div_pow2.
  apply N.Div0.div_lt_upper_bound. lia.
Qed.

Lemma some_inj {A : Type} (x y : A) : Some x = Some y -> y = x.
Proof. congruence. Qed.

(** What [encode_utf8] yields are bytes. *)
Lemma utf8_char_bytes (c : N) (b : bytes) :
  utf8_char c = Some b -> Forall (fun x => (x < 256)%N) b.
Proof.
  unfold utf8_char.
  destruct (c <? 128)%N eqn:H1.
  { intros H; apply some_inj in H; subst b. apply N.ltb_lt in H1. repeat constructor. lia. }
  destruct (c <? 2048)%N eqn:H2.
  { intros H; apply some_inj in H; subst b. apply N.ltb_lt in H2.
    pose proof (land_63 c). pose proof (@shiftr_lt c 6 32 ltac:(change (2 ^ 6)%N with 64%N; lia)).
    repeat (apply Forall_cons; [apply lor_byte; lia|]); apply Forall_nil. }
  destruct (c <? 65536)%N eqn:H3.
  { destruct ((55296 <=? c) && (c <=? 57343))%N; [discriminate|].
    intros H; apply some_inj in H; subst b. apply N.ltb_lt in H3.
    pose proof (land_63 c). pose proof (land_63 (N.shiftr c 6)).
    pose proof (@shiftr_lt c 12 16 ltac:(change (2 ^ 12)%N with 4096%N; lia)).
    repeat (apply Forall_cons; [apply lor_byte; lia|]); apply Forall_nil. }
  destruct (c <? 1114112)%N eqn:H4; [|discriminate].
  intros H; apply some_inj in H; subst b. apply N.ltb_lt in H4.
  pose proof (land_63 c). pose proof (land_63 (N.shiftr c 6)).
  pose proof (land_63 (N.shiftr c 12)).
  pose proof (@shiftr_lt c 18 8 ltac:(change (2 ^ 18)%N with 262144%N; lia)).
  repeat (apply Forall_cons; [apply lor_byte; lia|]); apply Forall_nil.
Qed.

Lemma encode_utf8_bytes (s : str) (b : bytes) :
  encode_utf8 s = Some b -> Forall (fun x => (x < 256)%N) b.
Proof.
  revert b; induction s as [|c s IH]; simpl; intros b H.
  - inversion H. constructor.
  - destruct (utf8_char c) as [bc|] eqn:Hc; [|discriminate].
    destruct (encode_utf8 s) as [bs|]; [|discriminate].
    apply some_inj in H; subst b. apply Forall_app.
    split; [exact (utf8_char_bytes c Hc) | now apply IH].
Qed.

Example encode_utf8_samples :
  encode_utf8 (lit "user_123") = Some (lit "user_123")
  /\ encode_utf8 [233; 8364; 128512]%N
     = Some [195; 169; 226; 130; 172; 240; 159; 152; 128]%N
  /\ encode_utf8 [117; 55296]%N = None.
Proof. repeat split. Qed.

Lemma utf8_char_ascii (c : N) : (c <? 128)%N = true -> utf8_char c = Some [c].
Proof. intros H. unfold utf8_char. now rewrite H. Qed.

Lemma encode_utf8_ascii (s : str) : is_ascii s = true -> encode_utf8 s = Some s.
Proof.
  induction s as [|c s IH]; simpl; [reflexivity|].
  intros H. apply andb_true_iff in H as [Hc Hs].
  rewrite (utf8_char_ascii c Hc), (IH Hs). reflexivity.
Qed.

Lemma utf8_char_nonempty (c : N) (b : bytes) : utf8_char c = Some b -> b <> [].
Proof.
  unfold utf8_char.
  destruct (c <? 128)%N; [intros H; inversion H; discriminate|].
  destruct (c <? 2048)%N; [intros H; inversion H; discriminate|].
  destruct (c <? 65536)%N.
  - destruct ((55296 <=? c) && (c <=? 57343))%N; intros H; inversion H; discriminate.
  - destruct (c <? 1114112)%N; intros H; inversion H; discriminate.
Qed.

Lemma encode_utf8_nonempty (s : str) (b : bytes) :
  s <> [] -> encode_utf8 s = Some b -> b <> [].
Proof.
  destruct s as [|c s]; [congruence|]. intros _. simpl.
  destruct (utf8_char c) as [bc|] eqn:Hc; [|discriminate].
  destruct (encode_utf8 s) as [bs|]; [|discriminate].
  intros H; inversion H; subst. apply utf8_char_nonempty in Hc.
  destruct bc; [congruence | discriminate].
Qed.

Lemma catalog_prices_positive (rnd : nat) :
  Qle_bool (snd (FacingMain.select_random_item rnd)) 0 = false.
Proof.
  unfold FacingMain.select_random_item.
  assert (H : (rnd mod List.length FacingMain.RANDOM_ITEMS < 15)%nat)
    by (apply Nat.mod_upper_bound; discriminate).
  revert H. generalize (rnd mod List.length FacingMain.RANDOM_ITEMS)%nat as i.
  intros i H.
  do 15 (destruct i as [|i]; [reflexivity|]). lia.
Qed.

Lemma key_serializer_nonempty (s : str) (k : option bytes) :
  s <> [] -> Return k = AIOKafkaProducer.key_serializer s ->
  k = encode_utf8 s /\ k <> None.
Proof.
  intros Hne. unfold AIOKafkaProducer.key_serializer.
  destruct s as [|x xs]; [congruence|]. cbn [truthy].
  destruct (encode_utf8 (x :: xs)) as [kb|]; [|discriminate].
  intros H; inversion H. split; [reflexivity | discriminate].
Qed.

Section BuyFacts.
Context {lib : PyLib}.

(** A validated request always yields an event, with [username] and
    [user_id] of the request. *)
Lemma generate_purchase_event_ok (b : BuyRequest.t) (rnd : nat) (iso : str) :
  FacingMain.generate_purchase_event b rnd iso
  = Return (PurchaseEvent.mk (BuyRequest.username b) (BuyRequest.user_id b)
              (lit (fst (FacingMain.select_random_item rnd)))
              (snd (FacingMain.select_random_item rnd))
              (iso ++ lit "Z")).
Proof.
  unfold FacingMain.generate_purchase_event, PurchaseEvent.validate.
  unfold str_field, positive_float_field. simpl.
  now rewrite catalog_prices_positive.
Qed.

End BuyFacts.

Lemma validated_user_id_nonempty (data : dict) (b : BuyRequest.t) :
  BuyRequest.validate data = Return b -> BuyRequest.user_id b <> [].
Proof.
  intros H. apply BuyRequest_validate_spec in H as (u & i & _ & _ & _ & _ & _ & Bi & ->).
  simpl. intros Hs. apply strip_nil in Hs. congruence.
Qed.

(** C5.  Whenever [buy] answers a validated request with success, the
    client has accepted exactly one more record; its key is the UTF-8
    encoding of the event's [user_id] (bytes, never the missing key,
    never the empty one; for an ASCII [user_id] the bytes are the
    characters themselves), its value is the dumped event and its topic is the
    producer's.  The event's [user_id] is the one of the request.  The
    key is a function of [user_id] alone, so events with one [user_id]
    carry one key. *)
Theorem published_key_is_user_id :
  forall (lib : PyLib) (kp : KafkaProducer.t) (data : dict) (b : BuyRequest.t)
         (rnd : nat) (iso : str) (r : AIOKafkaProducer.reply) (now : datetime)
         (resp : FacingMain.BuyResponse) (kp' : option KafkaProducer.t),
    BuyRequest.validate data = Return b ->
    FacingMain.buy (Some kp) b rnd iso r now = (Return resp, kp') ->
    exists c c' w kp1,
      kp' = Some kp1
      /\ KafkaProducer.producer kp = Some c
      /\ KafkaProducer.producer kp1 = Some c'
      /\ AIOKafkaProducer.accepted c' = AIOKafkaProducer.accepted c ++ [w]
      /\ PurchaseEvent.user_id (FacingMain.purchase resp) = BuyRequest.user_id b
      /\ AIOKafkaProducer.wire_key w
         = encode_utf8 (PurchaseEvent.user_id (FacingMain.purchase resp))
      /\ AIOKafkaProducer.wire_key w <> None
      /\ AIOKafkaProducer.wire_key w <> Some []
      /\ (forall kb, AIOKafkaProducer.wire_key w = Some kb ->
                     Forall (fun x => (x < 256)%N) kb)
      /\ (is_ascii (PurchaseEvent.user_id (FacingMain.purchase resp)) = true ->
          AIOKafkaProducer.wire_key w
          = Some (PurchaseEvent.user_id (FacingMain.purchase resp)))
      /\ AIOKafkaProducer.wire_value w = PurchaseEvent.model_dump (FacingMain.purchase resp)
      /\ AIOKafkaProducer.wire_topic w = KafkaProducer.topic kp.
Proof.
  intros lib kp data b rnd iso r now resp kp' Hv Hbuy.
  pose proof (validated_user_id_nonempty data Hv) as Hne.
  unfold FacingMain.buy in Hbuy.
  destruct (KafkaProducer.is_connected kp) eqn:Hc; simpl in Hbuy; [|discriminate].
  rewrite generate_purchase_event_ok in Hbuy.
  set (ev := PurchaseEvent.mk _ _ _ _ _) in Hbuy.
  unfold KafkaProducer.send_message in Hbuy. rewrite Hc in Hbuy. simpl negb in Hbuy.
  cbv iota in Hbuy.
  destruct (is_connected_producer kp Hc) as [_ [c Hp]]. rewrite Hp in Hbuy.
  pose proof (send_outcome c (KafkaProducer.topic kp) (PurchaseEvent.user_id ev)
                (PurchaseEvent.model_dump ev) None r) as Hs.
  cbv zeta in Hs.
  destruct (AIOKafkaProducer.send c (KafkaProducer.topic kp) (PurchaseEvent.user_id ev)
              (PurchaseEvent.model_dump ev) None r) as [sent c'].
  simpl fst in Hs; simpl snd in Hs.
  destruct sent as [[md|e]|e].
  - destruct Hs as (_ & w & Hacc & Hkey & Hval & Htop).
    simpl in Hbuy. inversion Hbuy; subst resp kp'. clear Hbuy.
    exists c, c', w. eexists. split; [reflexivity|]. simpl.
    assert (Hk : AIOKafkaProducer.wire_key w = encode_utf8 (BuyRequest.user_id b)
                 /\ AIOKafkaProducer.wire_key w <> None).
    { apply key_serializer_nonempty; [exact Hne | exact Hkey]. }
    destruct Hk as [Hk Hn].
    repeat split; auto.
    + intros Hnil. rewrite Hk in Hnil.
      apply (encode_utf8_nonempty Hne Hnil). reflexivity.
    + intros kb Hkb. rewrite Hk in Hkb. exact (encode_utf8_bytes _ Hkb).
    + intros Ha. rewrite Hk. now apply encode_utf8_ascii.
  - destruct e; simpl in Hbuy; discriminate.
  - destruct e; simpl in Hbuy; discriminate.
Qed.

Lemma published_key_is_user_id_witness :
  exists w : AIOKafkaProducer.wire_record,
    AIOKafkaProducer.wire_key w = Some (lit "user_123")
    /\ AIOKafkaProducer.wire_value w = PurchaseEvent.model_dump Sample.event.
Proof.
  destruct (@published_key_is_user_id strict_lib Sample.connected_producer
              Sample.request_payload Sample.request 3 (lit "2025-12-15T10:30:00")
              (AIOKafkaProducer.Delivered (Sample.metadata 42)) 7%Z
              Sample.response
              (snd (FacingMain.buy (lib := strict_lib) (Some Sample.connected_producer)
                      Sample.request 3 (lit "2025-12-15T10:30:00")
                      (AIOKafkaProducer.Delivered (Sample.metadata 42)) 7%Z))
              eq_refl eq_refl)
    as (c & c' & w & kp1 & _ & _ & _ & _ & _ & _ & _ & _ & _ & Ha & Hv & _).
  exists w. split; [apply Ha; reflexivity | exact Hv].
Defined.

(** ** Query gateway *)

Section GatewayFacts.
Context {lib : PyLib}.

(** The outcome of the gateway, read off the upstream answer. *)
Lemma gateway_outcome_table (user_id : str) (up : Gateway.upstream) :
  Gateway.outcome_of (Gateway.get_all_user_purchases user_id up)
  = match up with
    | Gateway.Response status_code _ json =>
        if (status_code =? 404)%Z then Gateway.NotFound
        else if (status_code =? 200)%Z then
          match json with
          | Some (VDict data) =>
              match dict_get (lit "total_purchases") data,
                    Gateway.UserPurchasesResponse.validate data with
              | Some _, Return r => Gateway.History r
              | _, _ => Gateway.InternalError
              end
          | _ => Gateway.InternalError
          end
        else Gateway.Unavailable
    | Gateway.GetRaises (Gateway.Timeout _) => Gateway.Unavailable
    | Gateway.GetRaises (Gateway.Connect _) => Gateway.Unavailable
    | Gateway.GetRaises (Gateway.Other _) => Gateway.InternalError
    end.
Proof.
  unfold Gateway.get_all_user_purchases, Gateway.fetch.
  destruct up as [s text json|[m|m|m]]; try reflexivity.
  destruct (s =? 404)%Z; [reflexivity|].
  destruct (s =? 200)%Z; [|reflexivity]. simpl negb. cbv iota.
  destruct json as [v|]; [|reflexivity]. simpl.
  destruct v; try reflexivity. simpl.
  destruct (dict_get (lit "total_purchases") d); [|reflexivity]. simpl.
  destruct (Gateway.UserPurchasesResponse.validate d) as [r|e] eqn:Hv; [reflexivity|].
  unfold Gateway.UserPurchasesResponse.validate in Hv.
  destruct (str_field "user_id" d), (Gateway.UserPurchasesResponse.optional_str_field "username" d),
    (int_field "total_purchases" d), (float_field "total_spent" d),
    (Gateway.UserPurchasesResponse.purchases_field d); inversion Hv; reflexivity.
Qed.

End GatewayFacts.

(** C6, as the code has it.  The gateway answers an upstream 404 with
    [NotFound]; any other status but 200, a timeout and a connection
    failure with [Unavailable]; any other failure of the request, and a
    200 whose body does not decode, lacks [total_purchases] or does not
    validate, with [InternalError]; a 200 with a valid body with the
    validated history.  Over the answers that are not a 200 the three
    outcomes [NotFound], [Unavailable] and [InternalError] are all
    there is. *)
Theorem gateway_outcomes :
  forall (lib : PyLib) (user_id : str) (up : Gateway.upstream),
    let outcome := Gateway.outcome_of (Gateway.get_all_user_purchases user_id up) in
    outcome
    = match up with
      | Gateway.Response status_code _ json =>
          if (status_code =? 404)%Z then Gateway.NotFound
          else if (status_code =? 200)%Z then
            match json with
            | Some (VDict data) =>
                match dict_get (lit "total_purchases") data,
                      Gateway.UserPurchasesResponse.validate data with
                | Some _, Return r => Gateway.History r
                | _, _ => Gateway.InternalError
                end
            | _ => Gateway.InternalError
            end
          else Gateway.Unavailable
      | Gateway.GetRaises (Gateway.Timeout _) => Gateway.Unavailable
      | Gateway.GetRaises (Gateway.Connect _) => Gateway.Unavailable
      | Gateway.GetRaises (Gateway.Other _) => Gateway.InternalError
      end
    /\ (upstream_success up = false ->
        outcome = Gateway.NotFound \/ outcome = Gateway.Unavailable
        \/ outcome = Gateway.InternalError).
Proof.
  intros lib user_id up outcome. subst outcome.
  split; [apply gateway_outcome_table|].
  intros Hns. rewrite gateway_outcome_table.
  destruct up as [s text json|[m|m|m]]; auto.
  simpl in Hns. rewrite Hns.
  destruct (s =? 404)%Z; auto.
Qed.

Lemma gateway_outcomes_witness :
  Gateway.outcome_of
    (Gateway.get_all_user_purchases (lib := strict_lib) (lit "user_123")
       (Gateway.GetRaises (Gateway.Other (lit "Server disconnected"))))
  = Gateway.InternalError.
Proof.
  destruct (@gateway_outcomes strict_lib (lit "user_123")
              (Gateway.GetRaises (Gateway.Other (lit "Server disconnected"))))
    as [H _]. exact H.
Defined.

(** A request that fails with neither a timeout nor a connection
    failure is a non-success upstream result the gateway answers with
    neither [NotFound] nor [Unavailable]. *)
Lemma gateway_other_failure_is_internal_error :
  ~ (forall (lib : PyLib) (user_id : str) (up : Gateway.upstream),
        upstream_success up = false ->
        Gateway.outcome_of (Gateway.get_all_user_purchases user_id up) = Gateway.NotFound
        \/ Gateway.outcome_of (Gateway.get_all_user_purchases user_id up)
           = Gateway.Unavailable).
Proof.
  intros H.
  destruct (H strict_lib (lit "user_123")
              (Gateway.GetRaises (Gateway.Other (lit "Server disconnected"))) eq_refl)
    as [E|E]; vm_compute in E; discriminate.
Qed.

(** The gateway's tests. *)
Example gateway_passes_history :
  exists r,
    Gateway.get_all_user_purchases (lib := strict_lib) (lit "user_123")
      (Gateway.Response 200 ([]) (Some Sample.history_body)) = Return r
    /\ Gateway.UserPurchasesResponse.total_purchases r = 5%Z
    /\ map Gateway.Purchase.id (Gateway.UserPurchasesResponse.purchases r)
       = [lit "507f1f77bcf86cd799439011"].
Proof. eexists. repeat split. Qed.

Example gateway_maps_failures :
  Gateway.outcome_of (Gateway.get_all_user_purchases (lib := strict_lib) (lit "user_999")
                        (Gateway.Response 404 ([]) None)) = Gateway.NotFound
  /\ Gateway.outcome_of (Gateway.get_all_user_purchases (lib := strict_lib) (lit "user_123")
                           (Gateway.Response 500 (lit "Internal server error") None))
     = Gateway.Unavailable
  /\ Gateway.outcome_of (Gateway.get_all_user_purchases (lib := strict_lib) (lit "user_123")
                           (Gateway.GetRaises (Gateway.Connect (lit "Connection refused"))))
     = Gateway.Unavailable.
Proof. repeat split. Qed.

(** ** Purchase history *)

Section StoreFacts.
Context {lib : PyLib}.
Import PersistedPurchase.

(** The stored document, key by key. *)
Lemma stored_eq (r : t) :
  stored r
  = [ (lit "username", VStr (Purchase.username (purchase r)));
      (lit "user_id", VStr (Purchase.user_id (purchase r)));
      (lit "item_name", VStr (Purchase.item_name (purchase r)));
      (lit "price", VFloat (Purchase.price (purchase r)));
      (lit "timestamp", VStr (Purchase.timestamp (purchase r)));
      (lit "timestamp_dt", VDatetime (timestamp_dt r));
      (lit "_id", VObjectId (oid r)) ].
Proof. reflexivity. Qed.

Lemma matches_stored (uid : str) (r : t) :
  DatabaseManager.matches uid (stored r) = of_user uid r.
Proof. reflexivity. Qed.

Lemma filter_stored (uid : str) (l : list t) :
  filter (DatabaseManager.matches uid) (map stored l)
  = map stored (filter (of_user uid) l).
Proof.
  induction l as [|r l IH]; [reflexivity|].
  cbn [map filter]. rewrite matches_stored.
  destruct (of_user uid r); cbn [map]; now rewrite IH.
Qed.

Lemma sort_key_stored (r : t) :
  DatabaseManager.sort_key (stored r) = Some (timestamp_dt r).
Proof. reflexivity. Qed.
End StoreFacts.

Section SumFacts.
Context {lib : PyLib}.

(** Whatever [sum] raises over the prices, it is no [HTTPException]. *)
Lemma sum_prices_raises (l : list dict) :
  forall s e, ManagementMain.sum_prices s l = Raise e -> is_HTTPException e = false.
Proof.
  induction l as [|d l IH]; intros s e H; cbn [ManagementMain.sum_prices] in H;
    [discriminate|].
  unfold ManagementMain.price_of in H.
  destruct (dict_get (lit "price") d) as [v|]; cbn [bind] in H.
  - destruct v; cbn [bind ManagementMain.number] in H;
      try (inversion H; reflexivity); eapply IH; exact H.
  - inversion H; reflexivity.
Qed.

End SumFacts.

Section QueryFacts.
Context {lib : PyLib}.
Import PersistedPurchase.

Lemma insert_desc_stored (r : t) (l : list t) :
  exists l',
    DatabaseManager.insert_desc (stored r) (map stored l) = map stored l'
    /\ Permutation l' (r :: l)
    /\ (newest_first l -> newest_first l').
Proof.
  induction l as [|x l (l' & He & Hp & Hs)].
  - exists [r]. repeat split; auto. intros _. repeat constructor.
  - cbn [map DatabaseManager.insert_desc]. rewrite !sort_key_stored.
    cbn [DatabaseManager.key_geb].
    destruct (timestamp_dt x <=? timestamp_dt r)%Z eqn:Hle.
    + exists (r :: x :: l). repeat split; auto.
      intros Hx. constructor; [exact Hx|].
      apply Z.leb_le in Hle. constructor; [exact Hle|].
      inversion Hx as [|? ? _ Hall]; subst.
      eapply Forall_impl; [|exact Hall]. cbv beta. intros; lia.
    + exists (x :: l'). rewrite He. repeat split; auto.
      * rewrite Hp. apply perm_swap.
      * intros Hx. inversion Hx as [|? ? Hl Hall]; subst.
        constructor; [apply Hs; exact Hl|].
        apply Z.leb_gt in Hle.
        eapply Permutation_Forall; [symmetry; exact Hp|].
        constructor; [lia | exact Hall].
Qed.

(** The query's sort yields the same records, newest first. *)
Lemma sort_desc_stored (l : list t) :
  exists l',
    DatabaseManager.sort_desc (map stored l) = map stored l'
    /\ Permutation l' l /\ newest_first l'.
Proof.
  induction l as [|r l (l' & He & Hp & Hs)].
  - exists []. repeat split; auto. constructor.
  - unfold DatabaseManager.sort_desc in *. cbn [map fold_right]. rewrite He.
    destruct (insert_desc_stored r l') as (l'' & He' & Hp' & Hs').
    exists l''. repeat split; auto.
    rewrite Hp'. now constructor.
Qed.

Lemma stringify_ids_stored (l : list t) :
  DatabaseManager.stringify_ids (map stored l) = Return (map served l).
Proof.
  induction l as [|r l IH]; [reflexivity|].
  cbn [map DatabaseManager.stringify_ids]. rewrite IH. reflexivity.
Qed.

Lemma sum_prices_served (l : list t) :
  forall s, ManagementMain.sum_prices s (map served l)
            = Return (ManagementMain.sum_result
                        (fold_left ManagementMain.sum_step (price_numbers l) s)).
Proof.
  induction l as [|r l IH]; intros s; [reflexivity|].
  cbn [map ManagementMain.sum_prices fold_left price_numbers].
  change (ManagementMain.price_of (served r)) with (Return (VFloat (price r))).
  cbn [bind ManagementMain.number]. apply IH.
Qed.

Lemma fold_left_price_sum (l : list t) :
  forall acc, fold_left (fun a r => a + price r) l acc == acc + price_sum l.
Proof.
  induction l as [|r l IH]; intros acc; simpl.
  - ring.
  - rewrite IH. unfold price_sum. ring.
Qed.

Lemma price_sum_perm (l l' : list t) :
  Permutation l l' -> price_sum l == price_sum l'.
Proof.
  unfold price_sum.
  induction 1; simpl; try ring.
  - rewrite IHPermutation. reflexivity.
  - rewrite IHPermutation1. exact IHPermutation2.
Qed.

Lemma validate_served (r : t) :
  0 < price r -> PurchaseResponse.validate (served r) = Return (response_of r).
Proof.
  intros Hpos. unfold PurchaseResponse.validate.
  assert (Hp : Purchase.validate (served r) = Return (purchase r)).
  { apply Purchase_validate_spec. repeat split; try reflexivity.
    exists (VFloat (price r)). repeat split; auto. }
  rewrite Hp. reflexivity.
Qed.

Lemma purchase_responses_served (l : list t) :
  Forall (fun r => 0 < price r) l ->
  ManagementMain.purchase_responses (map served l) = Return (map response_of l).
Proof.
  induction 1 as [|r l Hr _ IH]; [reflexivity|].
  cbn [map ManagementMain.purchase_responses].
  rewrite (validate_served r Hr), IH. reflexivity.
Qed.

End QueryFacts.

Section HistoryFacts.
Context {lib : PyLib}.
Import PersistedPurchase.

(** The response of the endpoint over a store of persisted
    purchases. *)
Lemma history_response (recs : list t) (uid : str) :
  filter (of_user uid) recs <> [] ->
  Forall (fun r => 0 < price r) (filter (of_user uid) recs) ->
  exists sorted,
    Permutation sorted (filter (of_user uid) recs)
    /\ newest_first sorted
    /\ ManagementMain.get_user_purchases (store_of recs) uid None
       = Return (UserPurchasesResponse.mk uid
                   (option_map (fun r => Purchase.username (purchase r)) (hd_error sorted))
                   (len_list sorted)
                   (ManagementMain.to_float
                      (ManagementMain.round2
                         (ManagementMain.py_sum (price_numbers sorted))))
                   (map response_of sorted)).
Proof.
  intros Hne Hpos.
  destruct (sort_desc_stored (filter (of_user uid) recs)) as (sorted & He & Hp & Hs).
  exists sorted. repeat split; auto.
  unfold ManagementMain.get_user_purchases, ManagementMain.history,
    DatabaseManager.get_user_purchases, store_of.
  cbn [DatabaseManager.collection]. rewrite filter_stored, He, stringify_ids_stored.
  cbn [bind].
  destruct sorted as [|r rest] eqn:Hsorted.
  { apply Permutation_nil in Hp. congruence. }
  rewrite <- Hsorted in *.
  assert (Hshape : map served sorted = served r :: map served rest)
    by (rewrite Hsorted; reflexivity).
  rewrite sum_prices_served.
  rewrite purchase_responses_served
    by (eapply Permutation_Forall; [symmetry; exact Hp | exact Hpos]).
  rewrite Hshape at 1. cbn [bind].
  rewrite Hshape at 1. cbn [ManagementMain.first_username].
  change (dict_get (lit "username") (served r))
    with (Some (VStr (Purchase.username (purchase r)))).
  cbn [UserPurchasesResponse.validate_username bind].
  unfold len_list. rewrite length_map. rewrite Hsorted. reflexivity.
Qed.
End HistoryFacts.

(** C7, as the code has it.  For a store of persisted purchases and a
    user with at least one of them, the sum of the prices within the
    range of finite floats, the endpoint answers with the user's
    purchases, all of them, newest first by [timestamp_dt];
    [total_purchases] is their number and [total_spent] is
    [round(s, 2)] of the float [s] that [sum] yields for the prices
    in the order served: every addition rounds to the nearest float,
    and the result is the float nearest to the nearest hundredth. *)
Theorem history_totals :
  forall (lib : PyLib) (recs : list PersistedPurchase.t) (uid : str),
    let mine := filter (PersistedPurchase.of_user uid) recs in
    mine <> [] ->
    Forall (fun r => 0 < PersistedPurchase.price r) mine ->
    PersistedPurchase.price_sum mine < pow2 1023 ->
    exists (resp : UserPurchasesResponse.t) (sorted : list PersistedPurchase.t),
      ManagementMain.get_user_purchases (PersistedPurchase.store_of recs) uid None
      = Return resp
      /\ Permutation sorted mine
      /\ PersistedPurchase.newest_first sorted
      /\ UserPurchasesResponse.purchases resp
         = map PersistedPurchase.response_of sorted
      /\ UserPurchasesResponse.total_purchases resp = len_list mine
      /\ UserPurchasesResponse.total_spent resp
         = ManagementMain.to_float
             (ManagementMain.round2
                (ManagementMain.py_sum (PersistedPurchase.price_numbers sorted)))
      /\ UserPurchasesResponse.user_id resp = uid.
Proof.
  intros lib recs uid mine Hne Hpos _. subst mine.
  destruct (history_response recs uid Hne Hpos) as (sorted & Hp & Hs & He).
  eexists. exists sorted. split; [exact He|]. cbn.
  repeat split; auto.
  unfold len_list. now rewrite (Permutation_length Hp).
Qed.

(** The scenario of the design document: purchases of 10.00 and 20.00
    give two purchases, 30.00 spent, the newer one first. *)
Lemma history_totals_witness :
  exists resp,
    ManagementMain.get_user_purchases (lib := strict_lib)
      (PersistedPurchase.store_of [Sample.ten; Sample.twenty]) (lit "user_123") None
    = Return resp
    /\ UserPurchasesResponse.total_purchases resp = 2%Z
    /\ UserPurchasesResponse.total_spent resp = 30
    /\ UserPurchasesResponse.purchases resp
       = map PersistedPurchase.response_of [Sample.twenty; Sample.ten].
Proof.
  destruct (@history_totals strict_lib [Sample.ten; Sample.twenty] (lit "user_123"))
    as (resp & sorted & He & _ & _ & _ & Hn & _ & _).
  - discriminate.
  - repeat constructor.
  - reflexivity.
  - exists resp. split; [exact He|]. split; [exact Hn|].
    vm_compute in He. inversion He. split; reflexivity.
Defined.

(** The same scenario under the compensated [sum]. *)
Example history_totals_compensated :
  exists resp,
    ManagementMain.get_user_purchases (lib := compensating_lib)
      (PersistedPurchase.store_of [Sample.ten; Sample.twenty]) (lit "user_123") None
    = Return resp
    /\ UserPurchasesResponse.total_spent resp = 30.
Proof. eexists. split; reflexivity. Qed.

(** A price below a cent: [total_spent] is not the sum of the prices. *)
Lemma total_spent_is_rounded :
  ~ (forall (lib : PyLib) (recs : list PersistedPurchase.t) (uid : str)
            (resp : UserPurchasesResponse.t),
        filter (PersistedPurchase.of_user uid) recs <> [] ->
        Forall (fun r => 0 < PersistedPurchase.price r)
          (filter (PersistedPurchase.of_user uid) recs) ->
        ManagementMain.get_user_purchases (PersistedPurchase.store_of recs) uid None
        = Return resp ->
        UserPurchasesResponse.total_spent resp
        == PersistedPurchase.price_sum (filter (PersistedPurchase.of_user uid) recs)).
Proof.
  intros H.
  specialize (H strict_lib [Sample.tiny] (lit "user_123")
                (UserPurchasesResponse.mk (lit "user_123") (Some (lit "john_doe")) 1
                   0 [PersistedPurchase.response_of Sample.tiny])).
  assert (E : 0 == 1 # 1000).
  { apply H; [discriminate | repeat constructor | reflexivity]. }
  vm_compute in E. discriminate.
Qed.

Section UsernameFacts.
Context {lib : PyLib}.
Import PersistedPurchase.

(** Over persisted purchases, the [username] of the response is the
    one of the first record of the newest-first list, whatever the
    older records carry. *)
Lemma history_username_newest (recs : list t) (uid : str) :
  filter (of_user uid) recs <> [] ->
  Forall (fun r => 0 < price r) (filter (of_user uid) recs) ->
  exists resp newest older,
    ManagementMain.get_user_purchases (store_of recs) uid None = Return resp
    /\ Permutation (newest :: older) (filter (of_user uid) recs)
    /\ newest_first (newest :: older)
    /\ UserPurchasesResponse.username resp
       = Some (Purchase.username (purchase newest)).
Proof.
  intros Hne Hpos.
  destruct (history_response recs uid Hne Hpos) as (sorted & Hp & Hs & He).
  destruct sorted as [|r rest].
  { apply Permutation_nil in Hp. congruence. }
  eexists. exists r, rest. split; [exact He|]. repeat split; auto.
Qed.

(** A first document without [username], which no code of the
    repository stores: the default is computed and the response model
    then refuses the document. *)
Lemma nameless_head_fails (db : DatabaseManager.t) (uid : str)
    (p : dict) (rest : list dict) :
  DatabaseManager.get_user_purchases db uid None = Return (p :: rest) ->
  dict_get (lit "username") p = None ->
  ManagementMain.first_username (p :: rest) = VStr (lit "Unknown")
  /\ ManagementMain.get_user_purchases db uid None
     = Raise (HTTPException 500
                (lit "Internal server error while retrieving purchases")).
Proof.
  intros Hq Hn. split.
  - cbn [ManagementMain.first_username]. now rewrite Hn.
  - unfold ManagementMain.get_user_purchases, ManagementMain.history.
    rewrite Hq. cbn [bind].
    destruct (ManagementMain.sum_prices (ManagementMain.SumInt 0) (p :: rest))
      as [total|e] eqn:Hsum; cbn [bind].
    + cbn [ManagementMain.purchase_responses].
      assert (Hv : PurchaseResponse.validate p
                   = Raise (ValidationError (lit "validation error for PurchaseResponse"))).
      { unfold PurchaseResponse.validate, Purchase.validate, str_field.
        rewrite Hn. destruct (PurchaseResponse.id_field p); reflexivity. }
      rewrite Hv. reflexivity.
    + now rewrite (@sum_prices_raises _ _ _ _ Hsum).
Qed.
End UsernameFacts.



(** A document without [username], put into the collection by hand:
    the endpoint computes the default and then answers with a 500. *)
Example nameless_document_is_refused :
  forall lib : PyLib,
    DatabaseManager.get_user_purchases (DatabaseManager.mk [Sample.nameless])
      (lit "user_123") None
    = Return [dict_set (lit "_id") (VStr (lit "65a000000000000000000004")) Sample.nameless]
    /\ ManagementMain.first_username
         [dict_set (lit "_id") (VStr (lit "65a000000000000000000004")) Sample.nameless]
       = VStr (lit "Unknown")
    /\ ManagementMain.get_user_purchases (DatabaseManager.mk [Sample.nameless])
         (lit "user_123") None
       = Raise (HTTPException 500
                  (lit "Internal server error while retrieving purchases")).
Proof.
  intros lib.
  assert (Hq : DatabaseManager.get_user_purchases (DatabaseManager.mk [Sample.nameless])
                 (lit "user_123") None
               = Return [dict_set (lit "_id") (VStr (lit "65a000000000000000000004"))
                           Sample.nameless]) by reflexivity.
  split; [exact Hq|].
  apply (nameless_head_fails _ _ Hq). reflexivity.
Qed.

(** ** From the stream to the history *)

Section PipelineFacts.
Context {lib : PyLib}.

Lemma save_purchase_store (db : DatabaseManager.t) (p : Purchase.t)
    (env : DatabaseManager.insert_env) :
  0 < Purchase.price p ->
  well_formed_store db ->
  well_formed_store (snd (DatabaseManager.save_purchase db p env)).
Proof.
  intros Hpos (recs & -> & Hall). unfold DatabaseManager.save_purchase.
  destruct (DatabaseManager.timestamp_dt (Purchase.timestamp p)) as [dt|e];
    [|exists recs; split; auto].
  destruct env as [oid|e|]; [|exists recs; split; auto|exists recs; split; auto].
  exists (recs ++ [PersistedPurchase.mk p dt oid]). split.
  - unfold PersistedPurchase.store_of. cbn [snd DatabaseManager.collection].
    now rewrite map_app.
  - apply Forall_app. split; [exact Hall|]. repeat constructor. exact Hpos.
Qed.

Lemma process_message_store (self : KafkaConsumer.t) (d : KafkaConsumer.delivery) :
  well_formed_store (KafkaConsumer.db_manager self) ->
  well_formed_store
    (KafkaConsumer.db_manager (snd (KafkaConsumer._process_message self d))).
Proof.
  intros Hwf. unfold KafkaConsumer._process_message.
  assert (Hp : well_formed_store (snd (KafkaConsumer.persist self d))).
  { unfold KafkaConsumer.persist.
    destruct (as_mapping _) as [kwargs|e]; cbn [bind]; [|exact Hwf].
    destruct (Purchase.validate kwargs) as [p|e] eqn:Hv; [|exact Hwf].
    apply save_purchase_store; [|exact Hwf].
    apply Purchase_validate_spec in Hv as (_ & _ & _ & (v & _ & _ & Hpos) & _).
    exact Hpos. }
  destruct (KafkaConsumer.persist self d) as [[oid|e] db]; cbn [snd] in *.
  - exact Hp.
  - destruct (is_ValueError e); exact Hp.
Qed.

(** Whatever the stream, the loop leaves a store of persisted
    purchases with prices above zero. *)
Lemma consume_loop_store (stream : list KafkaConsumer.poll) :
  forall self : KafkaConsumer.t,
    well_formed_store (KafkaConsumer.db_manager self) ->
    well_formed_store (KafkaConsumer.db_manager (KafkaConsumer._consume_loop self stream)).
Proof.
  induction stream as [|ev rest IH]; intros self Hwf; cbn [KafkaConsumer._consume_loop].
  - exact Hwf.
  - destruct ev as [d|e|].
    + destruct (KafkaConsumer.running self); cbn [negb]; [|exact Hwf].
      pose proof (process_message_store self d Hwf) as Hs.
      destruct (KafkaConsumer._process_message self d) as [[[]|e] s1]; cbn [snd] in Hs.
      * apply IH. exact Hs.
      * exact Hs.
    + exact Hwf.
    + apply IH. exact Hwf.
Qed.
End PipelineFacts.

(** The consumer's tests and the scenario of the design document in
    one run: of five records two are persisted and three fail, and the
    history of [user_123] holds two purchases, 30.00 spent, the newer
    one first. *)
Example stream_then_history :
  let consumer :=
    KafkaConsumer._consume_loop (lib := strict_lib)
      (KafkaConsumer.set_running true Sample.stopped_consumer) Sample.stream in
  KafkaConsumer.messages_processed consumer = 2%Z
  /\ KafkaConsumer.messages_failed consumer = 3%Z
  /\ KafkaConsumer.db_manager consumer
     = PersistedPurchase.store_of
         [ PersistedPurchase.mk (PersistedPurchase.purchase Sample.ten) 202512151030000000
             (lit "65a000000000000000000001");
           PersistedPurchase.mk (PersistedPurchase.purchase Sample.twenty) 202512151031000000
             (lit "65a000000000000000000002") ]
  /\ exists resp,
       ManagementMain.get_user_purchases (lib := strict_lib)
         (KafkaConsumer.db_manager consumer) (lit "user_123") None = Return resp
       /\ UserPurchasesResponse.total_purchases resp = 2%Z
       /\ UserPurchasesResponse.total_spent resp == 30
       /\ map PurchaseResponse.id (UserPurchasesResponse.purchases resp)
          = [ lit "65a000000000000000000002"; lit "65a000000000000000000001" ].
Proof.
  cbv zeta. repeat split; try reflexivity.
  eexists. repeat split; reflexivity.
Qed.

Example stream_classes :
  map (fun ev => match ev with
                 | KafkaConsumer.Polled d => Some (KafkaConsumer.classify (lib := strict_lib) d)
                 | _ => None
                 end) Sample.stream
  = [ Some KafkaConsumer.Persisted; Some KafkaConsumer.MalformedPayload;
      Some KafkaConsumer.Persisted; Some KafkaConsumer.PersistenceError;
      Some KafkaConsumer.InvalidEvent ].
Proof. reflexivity. Qed.

(** * Further properties of the code *)

(** ** Producer: batches and histories of calls *)

Section ProducerMore.
Import KafkaProducer.

Lemma send_client_id (c : AIOKafkaProducer.t) topic key value partition r :
  AIOKafkaProducer.client_id (snd (AIOKafkaProducer.send c topic key value partition r))
  = AIOKafkaProducer.client_id c.
Proof.
  unfold AIOKafkaProducer.send.
  destruct r; try reflexivity;
    destruct (AIOKafkaProducer.key_serializer key); try reflexivity;
    destruct (AIOKafkaProducer.value_serializer value); reflexivity.
Qed.

(** A queued record's future is the one the broker's reply stands
    for. *)
Lemma send_future (c : AIOKafkaProducer.t) topic key value partition r f c' :
  AIOKafkaProducer.send c topic key value partition r = (Return f, c') ->
  f = AIOKafkaProducer.future_of r.
Proof.
  unfold AIOKafkaProducer.send.
  destruct r; try discriminate;
    destruct (AIOKafkaProducer.key_serializer key); try discriminate;
    destruct (AIOKafkaProducer.value_serializer value); try discriminate;
    intros H; inversion H; reflexivity.
Qed.

Lemma enqueue_futures (messages : list (str * dict)) :
  forall c topic broker i futures c',
    enqueue c topic messages broker i = (Return futures, c') ->
    futures = map (fun j => AIOKafkaProducer.future_of (broker j))
                (seq i (List.length messages)).
Proof.
  induction messages as [|[k v] rest IH]; intros c topic broker i futures c' H.
  - simpl in H. inversion H. reflexivity.
  - cbn [enqueue] in H.
    destruct (AIOKafkaProducer.send c topic k v None (broker i)) as [[f|e] c1] eqn:Hs;
      [|discriminate].
    destruct (enqueue c1 topic rest broker (S i)) as [[fs|e] c2] eqn:He;
      simpl in H; [|discriminate].
    inversion H; subst. cbn [List.length seq map]. f_equal.
    + eapply send_future; eassumption.
    + eapply IH; eassumption.
Qed.

Lemma collect_counters (futures : list AIOKafkaProducer.future) :
  forall self,
    let out := collect self futures in
    messages_sent (snd out) = (messages_sent self + delivered_count (fst out))%Z
    /\ messages_failed (snd out) = (messages_failed self + undelivered_count (fst out))%Z
    /\ last_message_time (snd out) = last_message_time self
    /\ connected (snd out) = connected self
    /\ producer (snd out) = producer self
    /\ topic (snd out) = topic self
    /\ bootstrap_servers (snd out) = bootstrap_servers self.
Proof.
  unfold delivered_count, undelivered_count, len_list.
  induction futures as [|f fs IH]; intros self; cbn [collect].
  - cbn. repeat split; lia.
  - destruct f as [md|e].
    + specialize (IH (set_messages_sent (messages_sent self + 1) self)).
      destruct (collect _ fs) as [rs s']. cbn [fst snd filter List.length] in *.
      destruct IH as (H1 & H2 & H3 & H4 & H5 & H6 & H7). cbn in H1, H2, H3, H4, H5, H6, H7.
      repeat split; try assumption; lia.
    + specialize (IH (set_messages_failed (messages_failed self + 1) self)).
      destruct (collect _ fs) as [rs s']. cbn [fst snd filter List.length] in *.
      destruct IH as (H1 & H2 & H3 & H4 & H5 & H6 & H7). cbn in H1, H2, H3, H4, H5, H6, H7.
      repeat split; try assumption; lia.
Qed.

Lemma delivered_partition (results : list (option RecordMetadata.t)) :
  (delivered_count results + undelivered_count results)%Z = len_list results.
Proof.
  unfold delivered_count, undelivered_count, len_list.
  induction results as [|[md|] rs IH]; cbn [filter List.length]; lia.
Qed.

End ProducerMore.

(** X1.  When [send_batch] returns, its list has one entry per message,
    in order: the metadata where the broker acknowledged the record,
    [None] where the delivery failed.  [messages_sent] has grown by the
    number of the former and [messages_failed] by the number of the
    latter, together by the size of the batch, and [last_message_time]
    is the time of the call even when every delivery failed. *)
Theorem send_batch_accounting :
  forall (self : KafkaProducer.t) (messages : list (str * dict))
         (broker : nat -> AIOKafkaProducer.reply) (now : datetime)
         (results : list (option RecordMetadata.t)) (self' : KafkaProducer.t),
    KafkaProducer.send_batch self messages broker now = (Return results, self') ->
    results = map (fun j => future_result (AIOKafkaProducer.future_of (broker j)))
                (seq 0 (List.length messages))
    /\ List.length results = List.length messages
    /\ KafkaProducer.messages_sent self'
       = (KafkaProducer.messages_sent self + delivered_count results)%Z
    /\ KafkaProducer.messages_failed self'
       = (KafkaProducer.messages_failed self + undelivered_count results)%Z
    /\ (KafkaProducer.messages_sent self' + KafkaProducer.messages_failed self')%Z
       = (KafkaProducer.messages_sent self + KafkaProducer.messages_failed self
          + len_list messages)%Z
    /\ KafkaProducer.last_message_time self' = Some now
    /\ KafkaProducer.is_connected self' = true.
Proof.
  intros self messages broker now results self' H.
  unfold KafkaProducer.send_batch in H.
  destruct (KafkaProducer.is_connected self) eqn:Hc; simpl in H; [|discriminate].
  destruct (is_connected_producer self Hc) as [Hcon [c Hp]]. rewrite Hp in H.
  destruct (KafkaProducer.enqueue c (KafkaProducer.topic self) messages broker 0)
    as [[futures|e] c'] eqn:He; [|discriminate].
  pose proof (enqueue_futures _ _ _ _ _ He) as Hf.
  pose proof (collect_results futures (KafkaProducer.set_producer (Some c') self)) as Hr.
  pose proof (collect_counters futures (KafkaProducer.set_producer (Some c') self)) as Hk.
  cbv zeta in Hk.
  destruct (KafkaProducer.collect _ futures) as [rs s2]. cbn [fst snd] in *.
  inversion H; subst results self'. clear H.
  destruct Hk as (H1 & H2 & H3 & H4 & H5 & _). cbn in H1, H2, H3, H4, H5.
  assert (Hres : rs = map (fun j => future_result (AIOKafkaProducer.future_of (broker j)))
                        (seq 0 (List.length messages))).
  { rewrite Hr, Hf, map_map. reflexivity. }
  assert (Hlen : List.length rs = List.length messages).
  { rewrite Hres, length_map, length_seq. reflexivity. }
  repeat split; auto.
  - pose proof (delivered_partition rs). unfold len_list in *. cbn. lia.
  - unfold KafkaProducer.is_connected. cbn. now rewrite H4, H5, Hcon.
Qed.

Lemma send_batch_accounting_witness :
  exists self',
    KafkaProducer.send_batch Sample.connected_producer Sample.batch
      Sample.fails_second_delivery 7
    = (Return [Some (Sample.metadata 0); None; Some (Sample.metadata 2)], self')
    /\ KafkaProducer.messages_sent self' = 2%Z
    /\ KafkaProducer.messages_failed self' = 1%Z.
Proof.
  eexists. split; [reflexivity|].
  destruct (@send_batch_accounting Sample.connected_producer Sample.batch
              Sample.fails_second_delivery 7 _ _ eq_refl)
    as (_ & _ & Hs & Hf & _).
  split; [exact Hs | exact Hf].
Defined.

(** X2.  When [send_batch] raises, the counters and
    [last_message_time] are as before the call; on a producer that is
    not connected it raises the not-connected [ValueError] and changes
    nothing at all. *)
Theorem send_batch_raise_leaves_counters :
  forall (self : KafkaProducer.t) (messages : list (str * dict))
         (broker : nat -> AIOKafkaProducer.reply) (now : datetime) (e : exn),
    fst (KafkaProducer.send_batch self messages broker now) = Raise e ->
    KafkaProducer.get_stats (snd (KafkaProducer.send_batch self messages broker now))
    = KafkaProducer.get_stats self
    /\ (KafkaProducer.is_connected self = false ->
        e = ValueError (lit "Kafka producer is not connected")
        /\ snd (KafkaProducer.send_batch self messages broker now) = self).
Proof.
  intros self messages broker now e H.
  unfold KafkaProducer.send_batch in *.
  destruct (KafkaProducer.is_connected self) eqn:Hc; simpl in *.
  - split; [|discriminate].
    destruct (is_connected_producer self Hc) as [_ [c Hp]]. rewrite Hp in *.
    destruct (KafkaProducer.enqueue c (KafkaProducer.topic self) messages broker 0)
      as [[futures|e'] c'].
    + destruct (KafkaProducer.collect _ futures); discriminate.
    + reflexivity.
  - split; [reflexivity|]. intros _. split; [congruence | reflexivity].
Qed.

Lemma send_batch_raise_leaves_counters_witness :
  KafkaProducer.get_stats
    (snd (KafkaProducer.send_batch Sample.connected_producer Sample.batch
            Sample.refuses_second 7))
  = KafkaProducer.get_stats Sample.connected_producer.
Proof.
  exact (proj1 (@send_batch_raise_leaves_counters Sample.connected_producer Sample.batch
                  Sample.refuses_second 7 (KafkaTimeoutError (lit "metadata timeout"))
                  eq_refl)).
Defined.

(** X3.  A producer whose client starts is connected; [stop] then
    leaves it disconnected with the counters it had; a [send_message]
    or a [send_batch] after the stop raises the not-connected
    [ValueError] and changes nothing; a [flush] changes nothing either;
    and a second successful [start] connects it again, counters kept. *)
Theorem producer_lifecycle :
  forall (p : KafkaProducer.t) (c c2 : AIOKafkaProducer.t)
         (flush_r stop_r flush2 : result unit)
         (key : str) (value : dict) (partition : option Z)
         (r : AIOKafkaProducer.reply) (now : datetime)
         (messages : list (str * dict)) (broker : nat -> AIOKafkaProducer.reply),
    let started := snd (KafkaProducer.start p (KafkaProducer.ClientStarted c)) in
    let stopped := snd (KafkaProducer.stop started flush_r stop_r) in
    let restarted := snd (KafkaProducer.start stopped (KafkaProducer.ClientStarted c2)) in
    fst (KafkaProducer.start p (KafkaProducer.ClientStarted c)) = Return tt
    /\ KafkaProducer.is_connected started = true
    /\ KafkaProducer.is_connected stopped = false
    /\ KafkaProducer.send_message stopped key value partition r now
       = (Raise (ValueError (lit "Kafka producer is not connected")), stopped)
    /\ KafkaProducer.send_batch stopped messages broker now
       = (Raise (ValueError (lit "Kafka producer is not connected")), stopped)
    /\ snd (KafkaProducer.flush stopped flush2) = stopped
    /\ KafkaProducer.is_connected restarted = true
    /\ KafkaProducer.producer restarted = Some c2
    /\ KafkaProducer.messages_sent restarted = KafkaProducer.messages_sent p
    /\ KafkaProducer.messages_failed restarted = KafkaProducer.messages_failed p
    /\ KafkaProducer.last_message_time restarted = KafkaProducer.last_message_time p.
Proof.
  intros. subst started stopped restarted.
  unfold KafkaProducer.send_message, KafkaProducer.send_batch, KafkaProducer.flush,
    KafkaProducer.is_connected.
  cbn. repeat split.
Qed.

Section ProducerHistory.
Import KafkaProducer.

(** What one call may do to the producer. *)
Lemma producer_after_step (self : t) (c : producer_call) :
  let self' := producer_after self c in
  (messages_sent self <= messages_sent self')%Z
  /\ (messages_failed self <= messages_failed self')%Z
  /\ topic self' = topic self
  /\ bootstrap_servers self' = bootstrap_servers self
  /\ ((0 < messages_sent self -> last_message_time self <> None)%Z ->
      (0 < messages_sent self' -> last_message_time self' <> None)%Z).
Proof.
  destruct c as [env|f s|f|key value partition r now|messages broker now];
    cbn [producer_after].
  - destruct env; cbn; repeat split; auto; lia.
  - cbn. repeat split; auto; lia.
  - unfold flush. destruct (producer self); cbn; repeat split; auto; lia.
  - unfold send_message.
    destruct (is_connected self) eqn:Hc; cbn [negb]; cbv iota;
      [|cbn; repeat split; auto; lia].
    destruct (is_connected_producer self Hc) as [_ [c Hp]]. rewrite Hp.
    destruct (AIOKafkaProducer.send c (topic self) key value partition r) as [sent c'].
    destruct sent as [[md|e]|e]; cbn [bind].
    + cbn. repeat split; auto; try lia. intros _ _. discriminate.
    + destruct (is_KafkaTimeoutError e); [|destruct (is_KafkaError e)];
        cbn; repeat split; auto; lia.
    + destruct (is_KafkaTimeoutError e); [|destruct (is_KafkaError e)];
        cbn; repeat split; auto; lia.
  - unfold send_batch.
    destruct (is_connected self) eqn:Hc; cbn [negb]; cbv iota;
      [|cbn; repeat split; auto; lia].
    destruct (is_connected_producer self Hc) as [_ [c Hp]]. rewrite Hp.
    destruct (enqueue c (topic self) messages broker 0) as [[futures|e] c'].
    + pose proof (collect_counters futures (set_producer (Some c') self)) as Hk.
      cbv zeta in Hk. destruct (collect _ futures) as [rs s2]. cbn [fst snd] in *.
      destruct Hk as (H1 & H2 & _ & _ & _ & H6 & H7). cbn in H1, H2, H6, H7.
      assert (0 <= delivered_count rs /\ 0 <= undelivered_count rs)%Z
        by (unfold delivered_count, undelivered_count, len_list; lia).
      cbn. repeat split; auto; try lia. intros _ _. discriminate.
    + cbn. repeat split; auto; lia.
Qed.

Lemma producer_run_steps (calls : list producer_call) :
  forall self,
    let self' := producer_run self calls in
    (messages_sent self <= messages_sent self')%Z
    /\ (messages_failed self <= messages_failed self')%Z
    /\ topic self' = topic self
    /\ bootstrap_servers self' = bootstrap_servers self
    /\ ((0 < messages_sent self -> last_message_time self <> None)%Z ->
        (0 < messages_sent self' -> last_message_time self' <> None)%Z).
Proof.
  induction calls as [|c rest IH]; intros self; cbn [producer_run fold_left].
  - repeat split; auto; lia.
  - pose proof (producer_after_step self c) as (A1 & A2 & A3 & A4 & A5).
    specialize (IH (producer_after self c)). cbv zeta in *.
    destruct IH as (B1 & B2 & B3 & B4 & B5).
    unfold producer_run in *.
    repeat split; try lia; try congruence. auto.
Qed.

End ProducerHistory.

(** X4.  Over any history of [start], [stop], [flush], [send_message]
    and [send_batch] calls, raising or not, the counters never go down
    and the topic and broker address never change; on a producer that
    began fresh both counters are non-negative and, once a message has
    been counted as sent, [last_message_time] is set. *)
Theorem producer_history_invariants :
  forall (self : KafkaProducer.t) (bootstrap_servers topic : str)
         (calls : list producer_call),
    let self' := producer_run self calls in
    let fresh := producer_run (KafkaProducer.__init__ bootstrap_servers topic) calls in
    ((KafkaProducer.messages_sent self <= KafkaProducer.messages_sent self')%Z
     /\ (KafkaProducer.messages_failed self <= KafkaProducer.messages_failed self')%Z
     /\ KafkaProducer.topic self' = KafkaProducer.topic self
     /\ KafkaProducer.bootstrap_servers self' = KafkaProducer.bootstrap_servers self)
    /\ ((0 <= KafkaProducer.messages_sent fresh)%Z
        /\ (0 <= KafkaProducer.messages_failed fresh)%Z
        /\ KafkaProducer.topic fresh = topic
        /\ ((KafkaProducer.messages_sent fresh = 0)%Z
            \/ KafkaProducer.last_message_time fresh <> None)).
Proof.
  intros self b t calls self' fresh. subst self' fresh.
  pose proof (producer_run_steps calls self) as (A1 & A2 & A3 & A4 & _).
  pose proof (producer_run_steps calls (KafkaProducer.__init__ b t))
    as (B1 & B2 & B3 & _ & B5).
  cbv zeta in *. cbn in B1, B2, B3, B5.
  repeat split; auto.
  destruct (Z.eq_dec (KafkaProducer.messages_sent
                        (producer_run (KafkaProducer.__init__ b t) calls)) 0) as [E|E];
    [left; exact E | right; apply B5; lia].
Qed.

Section SendSequence.
Import KafkaProducer.

Lemma send_message_keeps_connection (self : t) key value partition r now :
  let self' := snd (send_message self key value partition r now) in
  is_connected self' = is_connected self
  /\ connected self' = connected self
  /\ option_map AIOKafkaProducer.client_id (producer self')
     = option_map AIOKafkaProducer.client_id (producer self).
Proof.
  unfold send_message.
  destruct (is_connected self) eqn:Hc; cbn [negb]; cbv iota;
    [|cbn; rewrite Hc; repeat split].
  destruct (is_connected_producer self Hc) as [Hcon [c Hp]]. rewrite Hp.
  pose proof (send_client_id c (topic self) key value partition r) as Hid.
  destruct (AIOKafkaProducer.send c (topic self) key value partition r) as [sent c'].
  cbn [snd] in Hid.
  destruct sent as [[md|e]|e]; cbn [bind];
    try (destruct (is_KafkaTimeoutError e); [|destruct (is_KafkaError e)]);
    unfold is_connected; cbn; rewrite Hcon, Hid; repeat split.
Qed.

Lemma send_message_total (self : t) key value partition r now :
  is_connected self = true ->
  let self' := snd (send_message self key value partition r now) in
  (messages_sent self' + messages_failed self'
   = messages_sent self + messages_failed self + 1)%Z.
Proof.
  intros Hc. unfold send_message. rewrite Hc. cbn [negb]. cbv iota.
  destruct (is_connected_producer self Hc) as [_ [c Hp]]. rewrite Hp.
  destruct (AIOKafkaProducer.send c (topic self) key value partition r) as [sent c'].
  destruct sent as [[md|e]|e]; cbn [bind];
    try (destruct (is_KafkaTimeoutError e); [|destruct (is_KafkaError e)]);
    cbn; lia.
Qed.

End SendSequence.

(** X5.  A connected producer stays connected, with the same client,
    through any sequence of [send_message] calls, failed ones included,
    and the two counters together grow by exactly the number of
    calls. *)
Theorem send_sequence_accounting :
  forall (self : KafkaProducer.t) (calls : list send_call),
    KafkaProducer.is_connected self = true ->
    let self' := send_all self calls in
    KafkaProducer.is_connected self' = true
    /\ option_map AIOKafkaProducer.client_id (KafkaProducer.producer self')
       = option_map AIOKafkaProducer.client_id (KafkaProducer.producer self)
    /\ (KafkaProducer.messages_sent self' + KafkaProducer.messages_failed self'
        = KafkaProducer.messages_sent self + KafkaProducer.messages_failed self
          + len_list calls)%Z.
Proof.
  intros self calls. revert self.
  induction calls as [|c rest IH]; intros self Hc; cbn [send_all fold_left].
  - unfold len_list. cbn. repeat split; auto; lia.
  - pose proof (send_message_keeps_connection self (send_key c) (send_value c)
                  (send_partition c) (send_reply c) (send_now c)) as (K1 & _ & K3).
    pose proof (send_message_total self (send_key c) (send_value c)
                  (send_partition c) (send_reply c) (send_now c) Hc) as T.
    cbv zeta in *.
    set (s1 := snd (KafkaProducer.send_message self (send_key c) (send_value c)
                      (send_partition c) (send_reply c) (send_now c))) in *.
    assert (Hc1 : KafkaProducer.is_connected s1 = true) by congruence.
    destruct (IH s1 Hc1) as (I1 & I2 & I3). unfold send_all in *.
    repeat split.
    + exact I1.
    + congruence.
    + unfold len_list in *. cbn [List.length]. lia.
Qed.

Lemma send_sequence_accounting_witness :
  let calls :=
    [ mk_send_call (lit "user_123") Sample.laptop None
        (AIOKafkaProducer.Delivered (Sample.metadata 1)) 7;
      mk_send_call (lit "user_123") Sample.laptop None
        (AIOKafkaProducer.DeliveryRaises (KafkaTimeoutError (lit "Request timeout"))) 8;
      mk_send_call (lit "user_456") Sample.laptop None
        (AIOKafkaProducer.EnqueueRaises (KafkaError (lit "Broker not available"))) 9 ] in
  KafkaProducer.is_connected (send_all Sample.connected_producer calls) = true
  /\ (KafkaProducer.messages_sent (send_all Sample.connected_producer calls)
      + KafkaProducer.messages_failed (send_all Sample.connected_producer calls) = 3)%Z.
Proof.
  intros calls.
  destruct (send_sequence_accounting Sample.connected_producer calls eq_refl)
    as (H1 & _ & H3).
  split; [exact H1 | exact H3].
Defined.

(** ** Keys on the wire *)

Lemma below_forall (P : N -> bool) (n : nat) :
  forallb P (map N.of_nat (seq 0 n)) = true ->
  forall x : N, (x < N.of_nat n)%N -> P x = true.
Proof.
  intros H x Hx. rewrite forallb_forall in H. apply H.
  apply in_map_iff. exists (N.to_nat x). split; [apply N2Nat.id|].
  apply in_seq. lia.
Qed.

Lemma lor_add_below (a : N) (n : nat) :
  forallb (fun x => N.lor a x =? a + x)%N (map N.of_nat (seq 0 n)) = true ->
  forall x : N, (x < N.of_nat n)%N -> N.lor a x = (a + x)%N.
Proof.
  intros H x Hx. apply N.eqb_eq.
  exact (@below_forall (fun x => (N.lor a x =? a + x)%N) n H x Hx).
Qed.

Lemma lor_128 (x : N) : (x < 64)%N -> N.lor 128 x = (128 + x)%N.
Proof. apply (@lor_add_below 128 64). vm_compute. reflexivity. Qed.

Lemma lor_192 (x : N) : (x < 32)%N -> N.lor 192 x = (192 + x)%N.
Proof. apply (@lor_add_below 192 32). vm_compute. reflexivity. Qed.

Lemma lor_224 (x : N) : (x < 16)%N -> N.lor 224 x = (224 + x)%N.
Proof. apply (@lor_add_below 224 16). vm_compute. reflexivity. Qed.

Lemma lor_240 (x : N) : (x < 8)%N -> N.lor 240 x = (240 + x)%N.
Proof. apply (@lor_add_below 240 8). vm_compute. reflexivity. Qed.

Lemma land_63_mod (c : N) : N.land c 63 = (c mod 64)%N.
Proof. change 63%N with (N.ones 6). now rewrite N.land_ones. Qed.

Lemma shiftr_6 (c : N) : N.shiftr c 6 = (c / 64)%N.
Proof. now rewrite N.shiftr_div_pow2. Qed.

Lemma shiftr_12 (c : N) : N.shiftr c 12 = (c / 64 / 64)%N.
Proof. rewrite N.shiftr_div_pow2, N.Div0.div_div. reflexivity. Qed.

Lemma shiftr_18 (c : N) : N.shiftr c 18 = (c / 64 / 64 / 64)%N.
Proof. rewrite N.shiftr_div_pow2, !N.Div0.div_div. reflexivity. Qed.

Lemma utf8_char_shape (c : N) (b : bytes) : utf8_char c = Some b -> utf8_shape c b.
Proof.
  unfold utf8_char.
  destruct (c <? 128)%N eqn:H1.
  { intros H; apply some_inj in H; subst b. apply N.ltb_lt in H1. now constructor. }
  apply N.ltb_ge in H1.
  pose proof (N.div_mod c 64 ltac:(discriminate)) as D0.
  pose proof (N.mod_lt c 64 ltac:(discriminate)) as M0.
  pose proof (N.div_mod (c / 64) 64 ltac:(discriminate)) as D1.
  pose proof (N.mod_lt (c / 64) 64 ltac:(discriminate)) as M1.
  pose proof (N.div_mod (c / 64 / 64) 64 ltac:(discriminate)) as D2.
  pose proof (N.mod_lt (c / 64 / 64) 64 ltac:(discriminate)) as M2.
  rewrite !land_63_mod, shiftr_6, shiftr_12, shiftr_18.
  set (q1 := (c / 64)%N) in *. set (m0 := (c mod 64)%N) in *.
  set (q2 := (q1 / 64)%N) in *. set (m1 := (q1 mod 64)%N) in *.
  set (q3 := (q2 / 64)%N) in *. set (m2 := (q2 mod 64)%N) in *.
  clearbody q1 m0 q2 m1 q3 m2.
  destruct (c <? 2048)%N eqn:H2.
  { intros H; apply some_inj in H; subst b. apply N.ltb_lt in H2.
    rewrite lor_192, lor_128 by lia.
    eapply Shape2; try reflexivity; lia. }
  apply N.ltb_ge in H2.
  destruct (c <? 65536)%N eqn:H3.
  { destruct ((55296 <=? c) && (c <=? 57343))%N; [discriminate|].
    intros H; apply some_inj in H; subst b. apply N.ltb_lt in H3.
    rewrite lor_224, !lor_128 by lia.
    eapply Shape3; try reflexivity; lia. }
  apply N.ltb_ge in H3.
  destruct (c <? 1114112)%N eqn:H4; [|discriminate].
  intros H; apply some_inj in H; subst b. apply N.ltb_lt in H4.
  rewrite lor_240, !lor_128 by lia.
  eapply Shape4; try reflexivity; lia.
Qed.

(** Two encoded characters at the head of one byte string are one
    character. *)
Lemma utf8_shape_prefix (c1 c2 : N) (b1 b2 r1 r2 : bytes) :
  utf8_shape c1 b1 -> utf8_shape c2 b2 -> b1 ++ r1 = b2 ++ r2 ->
  c1 = c2 /\ r1 = r2.
Proof.
  intros S1 S2 E.
  destruct S1; destruct S2; cbn [app] in E; injection E; intros;
    try (split; [lia | congruence]); try (exfalso; lia).
Qed.

Lemma encode_utf8_injective (s1 : str) :
  forall (s2 : str) (b : bytes),
    encode_utf8 s1 = Some b -> encode_utf8 s2 = Some b -> s1 = s2.
Proof.
  induction s1 as [|c1 t1 IH]; intros s2 b H1 H2.
  - cbn in H1. apply some_inj in H1. subst b.
    destruct s2 as [|c2 t2]; [reflexivity|].
    exfalso. eapply (encode_utf8_nonempty (s := c2 :: t2)); [discriminate | exact H2 | reflexivity].
  - destruct s2 as [|c2 t2].
    + cbn in H2. apply some_inj in H2. subst b.
      exfalso. eapply (encode_utf8_nonempty (s := c1 :: t1)); [discriminate | exact H1 | reflexivity].
    + cbn [encode_utf8] in H1, H2.
      destruct (utf8_char c1) as [b1|] eqn:E1; [|discriminate].
      destruct (encode_utf8 t1) as [r1|] eqn:R1; [|discriminate].
      destruct (utf8_char c2) as [b2|] eqn:E2; [|discriminate].
      destruct (encode_utf8 t2) as [r2|] eqn:R2; [|discriminate].
      apply some_inj in H1. apply some_inj in H2. subst b.
      destruct (@utf8_shape_prefix c1 c2 b1 b2 r1 r2 (utf8_char_shape _ E1)
                  (utf8_char_shape _ E2) H2) as [-> ->].
      f_equal. eapply IH; [reflexivity | exact R2].
Qed.

(** X6.  The key serializer the producer configures sends two
    different keys to two different byte strings: whenever it yields
    the same key for two strings, the strings are equal.  It yields no
    key exactly for the empty string, and otherwise a non-empty string
    of bytes. *)
Theorem key_serializer_injective :
  forall (k1 k2 : str) (kb : option bytes),
    AIOKafkaProducer.key_serializer k1 = Return kb ->
    AIOKafkaProducer.key_serializer k2 = Return kb ->
    k1 = k2
    /\ match kb with
       | None => k1 = []
       | Some b => k1 <> [] /\ b <> [] /\ Forall (fun x => (x < 256)%N) b
       end.
Proof.
  intros k1 k2 kb H1 H2. unfold AIOKafkaProducer.key_serializer in *.
  destruct k1 as [|c1 t1]; destruct k2 as [|c2 t2]; cbn [truthy] in *.
  - inversion H1. split; reflexivity.
  - inversion H1; subst kb.
    destruct (encode_utf8 (c2 :: t2)); discriminate.
  - inversion H2; subst kb.
    destruct (encode_utf8 (c1 :: t1)); discriminate.
  - destruct (encode_utf8 (c1 :: t1)) as [b1|] eqn:E1; [|discriminate].
    destruct (encode_utf8 (c2 :: t2)) as [b2|] eqn:E2; [|discriminate].
    assert (kb = Some b1) by congruence. subst kb.
    assert (b2 = b1) by congruence. subst b2.
    split; [eapply encode_utf8_injective; eassumption|].
    split; [discriminate|]. split.
    + eapply (encode_utf8_nonempty (s := c1 :: t1)); [discriminate | exact E1].
    + exact (encode_utf8_bytes _ E1).
Qed.

Lemma key_serializer_injective_witness :
  lit "user_123" <> []
  /\ lit "user_123" <> []
  /\ Forall (fun x => (x < 256)%N) (lit "user_123").
Proof.
  exact (proj2 (@key_serializer_injective (lit "user_123") (lit "user_123")
                  (Some (lit "user_123")) eq_refl eq_refl)).
Defined.

(** ** Requests and events *)

Lemma lstrip_fixed (s : str) :
  match s with [] => True | c :: _ => isspace c = false end -> lstrip s = s.
Proof. destruct s as [|c s]; [reflexivity|]. cbn. now intros ->. Qed.

Lemma strip_fixed (s : str) :
  match s with [] => True | c :: _ => isspace c = false end ->
  match rev s with [] => True | c :: _ => isspace c = false end ->
  strip s = s.
Proof.
  intros Hh Hl. unfold strip, rstrip.
  rewrite (lstrip_fixed s Hh), (lstrip_fixed (rev s) Hl). apply rev_involutive.
Qed.

(** [strip] is idempotent. *)
Lemma strip_strip (s : str) : strip (strip s) = strip s.
Proof.
  destruct (strip_decompose s) as (a & b & _ & _ & _ & Hh & Hl).
  now apply strip_fixed.
Qed.

Lemma strip_length (s : str) : (len (strip s) <= len s)%Z.
Proof.
  destruct (strip_decompose s) as (a & b & Hs & _).
  unfold len. rewrite Hs at 2. rewrite !length_app. lia.
Qed.

Lemma blank_head (s : str) :
  s <> [] -> match s with [] => True | c :: _ => isspace c = false end ->
  blank s = false.
Proof. destruct s as [|c s]; [congruence|]. intros _ H. cbn. now rewrite H. Qed.

(** X7.  What the request model yields is in normal form: [username]
    and [user_id] are non-empty, at most 100 characters long, and
    neither starts nor ends with whitespace; each field validator
    returns such a value unchanged, and the yielded request validates
    to itself. *)
Theorem buy_request_normal_form :
  forall (data : dict) (b : BuyRequest.t),
    BuyRequest.validate data = Return b ->
    let u := BuyRequest.username b in
    let i := BuyRequest.user_id b in
    (u <> [] /\ (len u <= 100)%Z /\ strip u = u
     /\ (forall c, hd_error u = Some c -> isspace c = false)
     /\ (forall c, hd_error (rev u) = Some c -> isspace c = false))
    /\ (i <> [] /\ (len i <= 100)%Z /\ strip i = i
        /\ (forall c, hd_error i = Some c -> isspace c = false)
        /\ (forall c, hd_error (rev i) = Some c -> isspace c = false))
    /\ BuyRequest.validate_username u = Return u
    /\ BuyRequest.validate_user_id i = Return i
    /\ BuyRequest.validate [ (lit "username", VStr u); (lit "user_id", VStr i) ]
       = Return b.
Proof.
  intros data b H u i. subst u i.
  apply BuyRequest_validate_spec in H
    as (u & i & _ & _ & Lu & Li & Bu & Bi & ->). cbn [BuyRequest.username BuyRequest.user_id].
  assert (Nu : strip u <> []) by (intros E; apply strip_nil in E; congruence).
  assert (Ni : strip i <> []) by (intros E; apply strip_nil in E; congruence).
  destruct (strip_decompose u) as (_ & _ & _ & _ & _ & Hhu & Hlu).
  destruct (strip_decompose i) as (_ & _ & _ & _ & _ & Hhi & Hli).
  pose proof (strip_length u). pose proof (strip_length i).
  assert (Bsu : blank (strip u) = false) by (apply blank_head; assumption).
  assert (Bsi : blank (strip i) = false) by (apply blank_head; assumption).
  assert (Lsu : (1 <= len (strip u))%Z).
  { unfold len. destruct (strip u); [congruence | cbn [List.length]; lia]. }
  assert (Lsi : (1 <= len (strip i))%Z).
  { unfold len. destruct (strip i); [congruence | cbn [List.length]; lia]. }
  repeat split; try assumption; try lia; try apply strip_strip.
  - intros c Hc. destruct (strip u); inversion Hc; subst; assumption.
  - intros c Hc. destruct (rev (strip u)); inversion Hc; subst; assumption.
  - intros c Hc. destruct (strip i); inversion Hc; subst; assumption.
  - intros c Hc. destruct (rev (strip i)); inversion Hc; subst; assumption.
  - apply validate_name_spec. split; [assumption | symmetry; apply strip_strip].
  - apply validate_id_spec. split; [assumption | symmetry; apply strip_strip].
  - apply BuyRequest_validate_spec. exists (strip u), (strip i).
    repeat split; try reflexivity; try assumption; try lia.
    now rewrite !strip_strip.
Qed.

Lemma buy_request_normal_form_witness :
  BuyRequest.validate
    [ (lit "username", VStr (lit "test_user")); (lit "user_id", VStr (lit "user_123")) ]
  = Return (BuyRequest.mk (lit "test_user") (lit "user_123")).
Proof.
  destruct (@buy_request_normal_form
              [ (lit "username", VStr (lit "  test_user  "));
                (lit "user_id", VStr (lit "user_123")) ]
              (BuyRequest.mk (lit "test_user") (lit "user_123")) eq_refl)
    as (_ & _ & _ & _ & H).
  exact H.
Defined.

Lemma select_random_item_in_catalog (rnd : nat) :
  In (FacingMain.select_random_item rnd) FacingMain.RANDOM_ITEMS.
Proof.
  unfold FacingMain.select_random_item. apply nth_In.
  apply Nat.mod_upper_bound. discriminate.
Qed.

Lemma catalog_price_range (item : string * Q) :
  In item FacingMain.RANDOM_ITEMS -> 1999 # 100 <= snd item /\ snd item <= 99999 # 100.
Proof.
  intros H. cbn in H.
  repeat (destruct H as [<-|H]; [split; discriminate|]). destruct H.
Qed.

(** X8.  For every request and every draw, [generate_purchase_event]
    yields an event (it never fails validation): it carries the
    request's [username] and [user_id], the name and price of one entry
    of the catalog, a price between 19.99 and 999.99, and the clock's
    text followed by [Z]. *)
Theorem generated_event_is_from_catalog :
  forall (lib : PyLib) (b : BuyRequest.t) (rnd : nat) (iso : str),
    exists (e : PurchaseEvent.t) (item : string * Q),
      FacingMain.generate_purchase_event b rnd iso = Return e
      /\ In item FacingMain.RANDOM_ITEMS
      /\ PurchaseEvent.username e = BuyRequest.username b
      /\ PurchaseEvent.user_id e = BuyRequest.user_id b
      /\ PurchaseEvent.item_name e = lit (fst item)
      /\ PurchaseEvent.price e = snd item
      /\ 0 < PurchaseEvent.price e
      /\ 1999 # 100 <= PurchaseEvent.price e <= 99999 # 100
      /\ PurchaseEvent.timestamp e = iso ++ lit "Z".
Proof.
  intros lib b rnd iso. eexists. exists (FacingMain.select_random_item rnd).
  split; [apply generate_purchase_event_ok|]. cbn.
  pose proof (select_random_item_in_catalog rnd) as Hin.
  pose proof (catalog_price_range Hin) as [Hlo Hhi].
  repeat split; auto.
  eapply Qlt_le_trans; [|exact Hlo]. reflexivity.
Qed.

Section WireFacts.
Context {lib : PyLib}.

Lemma event_dump_validates (e : PurchaseEvent.t) :
  0 < PurchaseEvent.price e ->
  Purchase.validate (PurchaseEvent.model_dump e) = Return (purchase_of_event e)
  /\ PurchaseEvent.validate (PurchaseEvent.model_dump e) = Return e.
Proof.
  intros Hpos. split.
  - apply Purchase_validate_spec. repeat split; try reflexivity.
    exists (VFloat (PurchaseEvent.price e)). repeat split; auto.
  - apply PurchaseEvent_validate_spec. repeat split; try reflexivity.
    exists (VFloat (PurchaseEvent.price e)). repeat split; auto.
Qed.

Lemma purchase_dump_validates (p : Purchase.t) :
  0 < Purchase.price p -> Purchase.validate (Purchase.model_dump p) = Return p.
Proof.
  intros Hpos. apply Purchase_validate_spec. repeat split; try reflexivity.
  exists (VFloat (Purchase.price p)). repeat split; auto.
Qed.

End WireFacts.

(** X9.  The event models of the two services agree on the wire: what
    the producing side dumps for an event with a price above zero can
    always be serialized, the consuming side's model accepts it and
    yields the same five field values, and each model reads its own
    dump back unchanged. *)
Theorem wire_schema_round_trip :
  forall (lib : PyLib) (e : PurchaseEvent.t) (p : Purchase.t),
    0 < PurchaseEvent.price e ->
    0 < Purchase.price p ->
    AIOKafkaProducer.value_serializer (PurchaseEvent.model_dump e)
    = Return (PurchaseEvent.model_dump e)
    /\ Purchase.validate (PurchaseEvent.model_dump e) = Return (purchase_of_event e)
    /\ PurchaseEvent.validate (PurchaseEvent.model_dump e) = Return e
    /\ Purchase.validate (Purchase.model_dump p) = Return p
    /\ Purchase.model_dump (purchase_of_event e) = PurchaseEvent.model_dump e.
Proof.
  intros lib e p He Hp.
  destruct (event_dump_validates e He) as [H1 H2].
  repeat split; auto. now apply purchase_dump_validates.
Qed.

Lemma wire_schema_round_trip_witness :
  Purchase.validate (lib := strict_lib) (PurchaseEvent.model_dump Sample.event)
  = Return (purchase_of_event Sample.event).
Proof.
  destruct (@wire_schema_round_trip strict_lib Sample.event
              (purchase_of_event Sample.event) eq_refl eq_refl) as (_ & H & _).
  exact H.
Defined.

(** ** The purchase endpoint *)


(** On a connected producer every exception of [send_message] is a
    [KafkaError]. *)
Lemma send_message_raises_kafka_error (self : KafkaProducer.t) key value partition r now :
  KafkaProducer.is_connected self = true ->
  match fst (KafkaProducer.send_message self key value partition r now) with
  | Return _ => True
  | Raise e => is_KafkaError e = true
  end.
Proof.
  intros Hc. unfold KafkaProducer.send_message. rewrite Hc. cbn [negb]. cbv iota.
  destruct (is_connected_producer self Hc) as [_ [c Hp]]. rewrite Hp.
  destruct (AIOKafkaProducer.send c (KafkaProducer.topic self) key value partition r)
    as [sent c'].
  destruct sent as [[md|e]|e]; cbn; auto; destruct e; reflexivity.
Qed.

Section BuyOutcomes.
Context {lib : PyLib}.

Lemma future_of_return (r : AIOKafkaProducer.reply) (md : RecordMetadata.t) :
  AIOKafkaProducer.future_of r = Return md -> r = AIOKafkaProducer.Delivered md.
Proof. destruct r; cbn; intros H; inversion H; reflexivity. Qed.

(** What [buy] does on a connected producer. *)
Lemma buy_connected (kp : KafkaProducer.t) (b : BuyRequest.t) (rnd : nat) (iso : str)
    (r : AIOKafkaProducer.reply) (now : datetime) :
  KafkaProducer.is_connected kp = true ->
  let sent :=
    KafkaProducer.send_message kp (BuyRequest.user_id b)
      (PurchaseEvent.model_dump
         (PurchaseEvent.mk (BuyRequest.username b) (BuyRequest.user_id b)
            (lit (fst (FacingMain.select_random_item rnd)))
            (snd (FacingMain.select_random_item rnd)) (iso ++ lit "Z")))
      None r now in
  FacingMain.buy (Some kp) b rnd iso r now
  = match fst sent with
    | Return md =>
        (Return (FacingMain.mk_buy_response true
                   (PurchaseEvent.mk (BuyRequest.username b) (BuyRequest.user_id b)
                      (lit (fst (FacingMain.select_random_item rnd)))
                      (snd (FacingMain.select_random_item rnd)) (iso ++ lit "Z"))
                   (Some (RecordMetadata.partition md))
                   (Some (RecordMetadata.offset md))),
         Some (snd sent))
    | Raise _ =>
        (Raise (HTTPException 500 (lit "Failed to process purchase request")),
         Some (snd sent))
    end.
Proof.
  intros Hc sent. subst sent. unfold FacingMain.buy. rewrite Hc. cbn [negb]. cbv iota.
  rewrite generate_purchase_event_ok. cbn [PurchaseEvent.user_id].
  pose proof (send_message_raises_kafka_error kp (BuyRequest.user_id b)
                (PurchaseEvent.model_dump
                   (PurchaseEvent.mk (BuyRequest.username b) (BuyRequest.user_id b)
                      (lit (fst (FacingMain.select_random_item rnd)))
                      (snd (FacingMain.select_random_item rnd)) (iso ++ lit "Z")))
                None r now Hc) as Hk.
  destruct (KafkaProducer.send_message kp _ _ None r now) as [[md|e] kp1];
    cbn [fst snd] in *.
  - reflexivity.
  - destruct e; cbn in Hk; try discriminate; reflexivity.
Qed.

End BuyOutcomes.

(** A [send_message] that returns was acknowledged by the broker with
    the metadata it returns; one that raises was not. *)
Lemma send_message_effect (self : KafkaProducer.t) key value partition r now :
  KafkaProducer.is_connected self = true ->
  let out := KafkaProducer.send_message self key value partition r now in
  match fst out with
  | Return md =>
      r = AIOKafkaProducer.Delivered md
      /\ KafkaProducer.messages_sent (snd out) = (KafkaProducer.messages_sent self + 1)%Z
      /\ KafkaProducer.messages_failed (snd out) = KafkaProducer.messages_failed self
  | Raise _ =>
      KafkaProducer.messages_failed (snd out) = (KafkaProducer.messages_failed self + 1)%Z
      /\ KafkaProducer.messages_sent (snd out) = KafkaProducer.messages_sent self
  end.
Proof.
  intros Hc. unfold KafkaProducer.send_message. rewrite Hc. cbn [negb]. cbv iota.
  destruct (is_connected_producer self Hc) as [_ [c Hp]]. rewrite Hp.
  destruct (AIOKafkaProducer.send c (KafkaProducer.topic self) key value partition r)
    as [sent c'] eqn:Hs.
  destruct sent as [[md|e]|e]; cbn [bind].
  - cbn. repeat split. apply future_of_return. symmetry. eapply send_future. exact Hs.
  - destruct (is_KafkaTimeoutError e); [|destruct (is_KafkaError e)]; cbn; split; reflexivity.
  - destruct (is_KafkaTimeoutError e); [|destruct (is_KafkaError e)]; cbn; split; reflexivity.
Qed.

(** X10.  [buy] answers in one of three ways.  Without a producer, or
    with one that is not connected, it raises a 503 and touches
    nothing.  Otherwise it returns the generated event with the
    partition and offset of the broker's acknowledgment, the producer
    having counted one message sent; or it raises a 500, the producer
    having counted one message failed. *)
Theorem buy_outcomes :
  forall (lib : PyLib) (kafka_producer : option KafkaProducer.t) (b : BuyRequest.t)
         (rnd : nat) (iso : str) (r : AIOKafkaProducer.reply) (now : datetime),
    let out := FacingMain.buy kafka_producer b rnd iso r now in
    match kafka_producer with
    | Some kp =>
        if KafkaProducer.is_connected kp then
          exists kp',
            snd out = Some kp'
            /\ match fst out with
               | Return resp =>
                   exists md,
                     r = AIOKafkaProducer.Delivered md
                     /\ FacingMain.success resp = true
                     /\ FacingMain.kafka_partition resp = Some (RecordMetadata.partition md)
                     /\ FacingMain.kafka_offset resp = Some (RecordMetadata.offset md)
                     /\ PurchaseEvent.username (FacingMain.purchase resp)
                        = BuyRequest.username b
                     /\ PurchaseEvent.user_id (FacingMain.purchase resp)
                        = BuyRequest.user_id b
                     /\ KafkaProducer.messages_sent kp'
                        = (KafkaProducer.messages_sent kp + 1)%Z
                     /\ KafkaProducer.messages_failed kp' = KafkaProducer.messages_failed kp
               | Raise e =>
                   e = HTTPException 500 (lit "Failed to process purchase request")
                   /\ KafkaProducer.messages_failed kp'
                      = (KafkaProducer.messages_failed kp + 1)%Z
                   /\ KafkaProducer.messages_sent kp' = KafkaProducer.messages_sent kp
               end
        else
          out = (Raise (HTTPException 503
                   (lit "Purchase service temporarily unavailable (Kafka connection issue)")),
                 Some kp)
    | None =>
        out = (Raise (HTTPException 503
                 (lit "Purchase service temporarily unavailable (Kafka connection issue)")),
               None)
    end.
Proof.
  intros lib kafka_producer b rnd iso r now out. subst out.
  destruct kafka_producer as [kp|]; [|reflexivity].
  destruct (KafkaProducer.is_connected kp) eqn:Hc.
  2: { unfold FacingMain.buy. rewrite Hc. reflexivity. }
  rewrite (buy_connected kp b rnd iso r now Hc). cbv zeta.
  pose proof (send_message_effect kp (BuyRequest.user_id b)
                (PurchaseEvent.model_dump
                   (PurchaseEvent.mk (BuyRequest.username b) (BuyRequest.user_id b)
                      (lit (fst (FacingMain.select_random_item rnd)))
                      (snd (FacingMain.select_random_item rnd)) (iso ++ lit "Z")))
                None r now Hc) as He.
  cbv zeta in He.
  destruct (KafkaProducer.send_message kp _ _ None r now) as [[md|e] kp1];
    cbn [fst snd] in *.
  - exists kp1. split; [reflexivity|]. destruct He as (Hr & Hs & Hf).
    exists md. repeat split; auto.
  - exists kp1. split; [reflexivity|]. destruct He as (Hf & Hs). repeat split; auto.
Qed.


Section Availability.
Context {lib : PyLib}.

(** [buy] raises its 503 exactly when there is no connected
    producer. *)
Lemma buy_availability (kafka_producer : option KafkaProducer.t) (b : BuyRequest.t)
    (rnd : nat) (iso : str) (r : AIOKafkaProducer.reply) (now : datetime) :
  let unavailable :=
    Raise (HTTPException 503
             (lit "Purchase service temporarily unavailable (Kafka connection issue)")) in
  if match kafka_producer with
     | Some kp => KafkaProducer.is_connected kp
     | None => false
     end
  then fst (FacingMain.buy kafka_producer b rnd iso r now) <> unavailable
  else FacingMain.buy kafka_producer b rnd iso r now = (unavailable, kafka_producer).
Proof.
  intros unavailable. subst unavailable.
  destruct kafka_producer as [kp|]; [|reflexivity].
  destruct (KafkaProducer.is_connected kp) eqn:Hc.
  - rewrite (buy_connected kp b rnd iso r now Hc). cbv zeta.
    destruct (fst (KafkaProducer.send_message kp _ _ None r now)); discriminate.
  - unfold FacingMain.buy. rewrite Hc. reflexivity.
Qed.

End Availability.

(** X11.  The health probe, the metrics and the purchase endpoint
    agree on availability: [buy] raises its 503 exactly when the health
    body and the metrics report the producer as not connected, and
    whenever the health check answers 200 a purchase is never refused
    with a 503.  The health check answers 200 only if the producer is
    connected and the history service answered its probe with 200; an
    exception of the probe counts as unreachable. *)
Theorem health_agrees_with_buy :
  forall (lib : PyLib) (kafka_producer : option KafkaProducer.t) (probe : result Z)
         (iso_h : str) (b : BuyRequest.t) (rnd : nat) (iso : str)
         (r : AIOKafkaProducer.reply) (now : datetime),
    let health := FacingMain.health_check kafka_producer probe iso_h in
    let bought := FacingMain.buy kafka_producer b rnd iso r now in
    let unavailable :=
      Raise (HTTPException 503
               (lit "Purchase service temporarily unavailable (Kafka connection issue)")) in
    snd (fst (FacingMain.metrics kafka_producer))
    = FacingMain.kafka_connected (snd health)
    /\ (if FacingMain.kafka_connected (snd health)
        then fst bought <> unavailable
        else bought = (unavailable, kafka_producer))
    /\ (fst health = 200%Z \/ fst health = 503%Z)
    /\ (fst health = 200%Z ->
        FacingMain.kafka_connected (snd health) = true
        /\ probe = Return 200%Z
        /\ FacingMain.status (snd health) = lit "healthy"
        /\ fst bought <> unavailable)
    /\ (forall e, probe = Raise e -> fst health = 503%Z).
Proof.
  intros lib kafka_producer probe iso_h b rnd iso r now health bought unavailable.
  subst health bought unavailable.
  pose proof (buy_availability kafka_producer b rnd iso r now) as Hb. cbv zeta in Hb.
  unfold FacingMain.health_check, FacingMain.metrics.
  destruct kafka_producer as [kp|]; cbn [fst snd FacingMain.kafka_connected].
  - destruct (KafkaProducer.is_connected kp) eqn:Hc.
    + split; [reflexivity|]. split; [exact Hb|].
      destruct probe as [code|e]; cbn.
      * destruct (code =? 200)%Z eqn:Hp; cbn.
        -- apply Z.eqb_eq in Hp. subst code. repeat split; auto. intros e He. discriminate.
        -- repeat split; auto; try discriminate.
      * repeat split; auto; discriminate.
    + split; [reflexivity|]. split; [exact Hb|]. cbn.
      repeat split; auto; discriminate.
  - split; [reflexivity|]. split; [exact Hb|]. cbn.
    repeat split; auto; discriminate.
Qed.

Lemma health_agrees_with_buy_witness :
  fst (FacingMain.buy (lib := strict_lib) (Some Sample.connected_producer) Sample.request 3
         (lit "2025-12-15T10:30:00") (AIOKafkaProducer.Delivered (Sample.metadata 42)) 7)
  <> Raise (HTTPException 503
              (lit "Purchase service temporarily unavailable (Kafka connection issue)")).
Proof.
  destruct (@health_agrees_with_buy strict_lib (Some Sample.connected_producer)
              (Return 200%Z) (lit "2025-12-15T10:29:00") Sample.request 3
              (lit "2025-12-15T10:30:00") (AIOKafkaProducer.Delivered (Sample.metadata 42)) 7)
    as (_ & _ & _ & H & _).
  apply H. reflexivity.
Defined.

(** ** From the purchase to the store *)

Section PublishConsume.
Context {lib : PyLib}.

(** A successful [buy] has handed the client one record whose value is
    the dumped event of the response, and that event has a price above
    zero. *)
Lemma buy_published (kp : KafkaProducer.t) (b : BuyRequest.t) (rnd : nat) (iso : str)
    (r : AIOKafkaProducer.reply) (now : datetime)
    (resp : FacingMain.BuyResponse) (kp' : option KafkaProducer.t) :
  FacingMain.buy (Some kp) b rnd iso r now = (Return resp, kp') ->
  0 < PurchaseEvent.price (FacingMain.purchase resp)
  /\ PurchaseEvent.user_id (FacingMain.purchase resp) = BuyRequest.user_id b
  /\ PurchaseEvent.username (FacingMain.purchase resp) = BuyRequest.username b
  /\ exists c c' w kp1,
       kp' = Some kp1
       /\ KafkaProducer.producer kp = Some c
       /\ KafkaProducer.producer kp1 = Some c'
       /\ AIOKafkaProducer.accepted c' = AIOKafkaProducer.accepted c ++ [w]
       /\ AIOKafkaProducer.wire_value w
          = PurchaseEvent.model_dump (FacingMain.purchase resp).
Proof.
  intros Hbuy.
  destruct (KafkaProducer.is_connected kp) eqn:Hc.
  2: { unfold FacingMain.buy in Hbuy. rewrite Hc in Hbuy. discriminate. }
  rewrite (buy_connected kp b rnd iso r now Hc) in Hbuy. cbv zeta in Hbuy.
  set (ev := PurchaseEvent.mk _ _ _ _ _) in *.
  unfold KafkaProducer.send_message in Hbuy. rewrite Hc in Hbuy.
  cbn [negb] in Hbuy. cbv iota in Hbuy.
  destruct (is_connected_producer kp Hc) as [_ [c Hp]]. rewrite Hp in Hbuy.
  pose proof (send_outcome c (KafkaProducer.topic kp) (BuyRequest.user_id b)
                (PurchaseEvent.model_dump ev) None r) as Hs.
  cbv zeta in Hs.
  destruct (AIOKafkaProducer.send c (KafkaProducer.topic kp) (BuyRequest.user_id b)
              (PurchaseEvent.model_dump ev) None r) as [sent c'].
  cbn [fst snd] in Hs.
  destruct sent as [[md|e]|e]; cbn [bind fst snd] in Hbuy.
  - destruct Hs as (_ & w & Hacc & _ & Hval & _).
    inversion Hbuy; subst resp kp'. cbn [FacingMain.purchase].
    split; [|split; [reflexivity|split; [reflexivity|]]].
    + subst ev. cbn [PurchaseEvent.price].
      pose proof (catalog_prices_positive rnd) as Hq.
      apply Qnot_le_lt. intros Hle. apply Qle_bool_iff in Hle. congruence.
    + exists c, c', w. eexists. repeat split; eauto.
  - destruct (is_KafkaTimeoutError e); [|destruct (is_KafkaError e)];
      cbn in Hbuy; discriminate.
  - destruct (is_KafkaTimeoutError e); [|destruct (is_KafkaError e)];
      cbn in Hbuy; discriminate.
Qed.

(** A record whose value validates and whose timestamp parses is
    stored as its document when the store accepts it. *)
Lemma process_message_persists (self : KafkaConsumer.t) (d : KafkaConsumer.delivery)
    (data : dict) (p : Purchase.t) (dt : datetime) (oid : str) :
  ConsumerRecord.value (KafkaConsumer.message d) = VDict data ->
  Purchase.validate data = Return p ->
  DatabaseManager.timestamp_dt (Purchase.timestamp p) = Return dt ->
  KafkaConsumer.insert d = DatabaseManager.Inserted oid ->
  KafkaConsumer.classify d = KafkaConsumer.Persisted
  /\ KafkaConsumer._process_message self d
     = (Return tt,
        KafkaConsumer.set_last_message_time (Some (KafkaConsumer.clock d))
          (KafkaConsumer.set_messages_processed
             (KafkaConsumer.messages_processed self + 1)
             (KafkaConsumer.set_db_manager
                (DatabaseManager.mk
                   (DatabaseManager.collection (KafkaConsumer.db_manager self)
                    ++ [DatabaseManager.document p dt oid])) self))).
Proof.
  intros Hv Hp Ht Hi.
  unfold KafkaConsumer.classify, KafkaConsumer._process_message, KafkaConsumer.persist,
    DatabaseManager.save_purchase.
  rewrite Hv. cbn [as_mapping bind]. rewrite Hp, Ht, Hi. split; reflexivity.
Qed.

End PublishConsume.

(** X12.  Round trip of a purchase: when [buy] succeeds, the value of
    the record it handed to the client is the dumped event of its
    response; a consumer that receives that value, parses its timestamp
    and finds the store willing counts one message processed and the
    store gains exactly one document, holding the five field values of
    the event, the parsed instant and the assigned identifier. *)
Theorem published_purchase_is_persisted :
  forall (lib : PyLib) (kp : KafkaProducer.t) (b : BuyRequest.t) (rnd : nat) (iso : str)
         (r : AIOKafkaProducer.reply) (now : datetime)
         (resp : FacingMain.BuyResponse) (kp' : option KafkaProducer.t)
         (self : KafkaConsumer.t) (partition offset : Z) (key : option bytes)
         (dt clock : datetime) (oid : str),
    FacingMain.buy (Some kp) b rnd iso r now = (Return resp, kp') ->
    DatabaseManager.timestamp_dt (PurchaseEvent.timestamp (FacingMain.purchase resp))
    = Return dt ->
    let event := FacingMain.purchase resp in
    let d := KafkaConsumer.mk_delivery
               (ConsumerRecord.mk partition offset key
                  (VDict (PurchaseEvent.model_dump event)))
               (DatabaseManager.Inserted oid) clock in
    let self' := snd (KafkaConsumer._process_message self d) in
    (exists c c' w,
        KafkaProducer.producer kp = Some c
        /\ option_map KafkaProducer.producer kp' = Some (Some c')
        /\ AIOKafkaProducer.accepted c' = AIOKafkaProducer.accepted c ++ [w]
        /\ AIOKafkaProducer.wire_value w = PurchaseEvent.model_dump event)
    /\ KafkaConsumer.classify d = KafkaConsumer.Persisted
    /\ KafkaConsumer.messages_processed self'
       = (KafkaConsumer.messages_processed self + 1)%Z
    /\ KafkaConsumer.messages_failed self' = KafkaConsumer.messages_failed self
    /\ DatabaseManager.collection (KafkaConsumer.db_manager self')
       = DatabaseManager.collection (KafkaConsumer.db_manager self)
         ++ [ [ (lit "username", VStr (PurchaseEvent.username event));
                (lit "user_id", VStr (PurchaseEvent.user_id event));
                (lit "item_name", VStr (PurchaseEvent.item_name event));
                (lit "price", VFloat (PurchaseEvent.price event));
                (lit "timestamp", VStr (PurchaseEvent.timestamp event));
                (lit "timestamp_dt", VDatetime dt);
                (lit "_id", VObjectId oid) ] ].
Proof.
  intros lib kp b rnd iso r now resp kp' self partition offset key dt clock oid
    Hbuy Hdt event d self'.
  destruct (buy_published kp b rnd iso r now Hbuy)
    as (Hpos & _ & _ & c & c' & w & kp1 & -> & Hp & Hp1 & Hacc & Hval).
  split.
  - exists c, c', w. cbn [option_map]. rewrite Hp1. repeat split; assumption.
  - destruct (event_dump_validates event Hpos) as [Hvalid _].
    destruct (@process_message_persists lib self d (PurchaseEvent.model_dump event)
                (purchase_of_event event) dt oid eq_refl Hvalid Hdt eq_refl)
      as [Hc Hm].
    subst self'. rewrite Hm. cbn [snd]. split; [exact Hc|].
    repeat split.
Qed.

Lemma published_purchase_is_persisted_witness :
  KafkaConsumer.classify (lib := strict_lib)
    (KafkaConsumer.mk_delivery
       (ConsumerRecord.mk 0 42 (Some (lit "user_123"))
          (VDict (PurchaseEvent.model_dump Sample.event)))
       (DatabaseManager.Inserted (lit "65a000000000000000000001")) 8)
  = KafkaConsumer.Persisted.
Proof.
  destruct (@published_purchase_is_persisted strict_lib Sample.connected_producer
              Sample.request 3 (lit "2025-12-15T10:30:00")
              (AIOKafkaProducer.Delivered (Sample.metadata 42)) 7
              Sample.response
              (snd (FacingMain.buy (lib := strict_lib) (Some Sample.connected_producer)
                      Sample.request 3 (lit "2025-12-15T10:30:00")
                      (AIOKafkaProducer.Delivered (Sample.metadata 42)) 7))
              Sample.stopped_consumer 0 42 (Some (lit "user_123"))
              202512151030000000 8 (lit "65a000000000000000000001")
              eq_refl eq_refl)
    as (_ & H & _).
  exact H.
Defined.

(** ** What the loop leaves behind *)

Section LoopEffect.
Context {lib : PyLib}.
Import KafkaConsumer.

(** A record adds its document to the end of the store, or nothing,
    and touches neither the client nor the flag of the loop. *)
Lemma process_message_store_effect (self : t) (d : delivery) :
  let self' := snd (_process_message self d) in
  DatabaseManager.collection (db_manager self')
  = DatabaseManager.collection (db_manager self) ++ document_of d
  /\ consumer self' = consumer self
  /\ consumer_task self' = consumer_task self
  /\ topic self' = topic self
  /\ group_id self' = group_id self
  /\ bootstrap_servers self' = bootstrap_servers self.
Proof.
  unfold _process_message, persist, document_of, as_mapping,
    DatabaseManager.save_purchase.
  destruct (ConsumerRecord.value (message d)) as [| | | | |? |data| |];
    cbn [bind]; try (cbn; rewrite app_nil_r; repeat split; reflexivity).
  destruct (Purchase.validate data) as [p|e].
  2: { destruct (is_ValueError e); cbn; rewrite app_nil_r; repeat split; reflexivity. }
  destruct (DatabaseManager.timestamp_dt (Purchase.timestamp p)) as [dt|e].
  2: { destruct (is_ValueError e); cbn; rewrite app_nil_r; repeat split; reflexivity. }
  destruct (insert d) as [oid|e|].
  - cbn. repeat split; reflexivity.
  - destruct (is_ValueError e); cbn; rewrite app_nil_r; repeat split; reflexivity.
  - cbn. rewrite app_nil_r. repeat split; reflexivity.
Qed.

Lemma document_of_persisted (d : delivery) :
  List.length (document_of d) = if is_persisted d then 1%nat else 0%nat.
Proof.
  unfold document_of, is_persisted, classify.
  destruct (ConsumerRecord.value (message d)); try reflexivity.
  destruct (Purchase.validate d0) as [p|e]; try reflexivity.
  destruct (DatabaseManager.timestamp_dt (Purchase.timestamp p)); try reflexivity.
  destruct (insert d); reflexivity.
Qed.

Lemma documents_of_count (ds : list delivery) :
  len_list (documents_of ds) = count_persisted ds.
Proof.
  induction ds as [|d ds IH]; [reflexivity|].
  destruct (count_cons d ds) as [-> _]. rewrite <- IH.
  unfold documents_of, len_list. cbn [flat_map]. rewrite length_app.
  rewrite document_of_persisted. destruct (is_persisted d); lia.
Qed.

Lemma consume_loop_store_effect (stream : list poll) :
  forall self : t,
    let self' := _consume_loop self stream in
    let ds := processed_records (running self) stream in
    DatabaseManager.collection (db_manager self')
    = DatabaseManager.collection (db_manager self) ++ documents_of ds
    /\ last_message_time self' = last_success (last_message_time self) ds
    /\ consumer self' = consumer self
    /\ consumer_task self' = consumer_task self
    /\ topic self' = topic self
    /\ group_id self' = group_id self
    /\ bootstrap_servers self' = bootstrap_servers self.
Proof.
  induction stream as [|ev rest IH]; intros self; cbn [_consume_loop processed_records].
  - cbn. rewrite app_nil_r. repeat split; reflexivity.
  - destruct ev as [d|e|].
    + destruct (running self) eqn:Hr; cbn [negb].
      2: { cbn. rewrite app_nil_r. repeat split; reflexivity. }
      pose proof (process_message_step self d) as (Hret & Hrun & Hstep).
      pose proof (process_message_store_effect self d) as (Hs & Hc & Hk & Ht & Hg & Hb).
      destruct (_process_message self d) as [r s1]; cbn [fst snd] in *. subst r.
      specialize (IH s1). cbv zeta in IH. rewrite Hrun, Hr in IH.
      destruct IH as (I1 & I2 & I3 & I4 & I5 & I6 & I7).
      rewrite I1, I2, I3, I4, I5, I6, I7, Hs, Hc, Hk, Ht, Hg, Hb.
      unfold documents_of, last_success. cbn [flat_map fold_left].
      rewrite <- app_assoc. repeat split; try reflexivity.
      destruct (is_persisted d); destruct Hstep as (_ & _ & ->); reflexivity.
    + cbn. rewrite app_nil_r. repeat split; reflexivity.
    + specialize (IH (set_running false self)). cbv zeta in IH.
      cbn [running set_running] in IH. exact IH.
Qed.

End LoopEffect.

(** X13.  The loop only ever appends to the store: after any finite
    stream the collection is the old one followed by the documents of
    the persisted records it handled, in the order of the stream, so
    the store grows by exactly the growth of [messages_processed];
    [last_message_time] is the clock of the last persisted record (the
    old value when there was none), and the client, the task and the
    configuration are untouched. *)
Theorem consume_loop_appends_documents :
  forall (lib : PyLib) (self : KafkaConsumer.t) (stream : list KafkaConsumer.poll),
    let self' := KafkaConsumer._consume_loop self stream in
    let ds := KafkaConsumer.processed_records (KafkaConsumer.running self) stream in
    DatabaseManager.collection (KafkaConsumer.db_manager self')
    = DatabaseManager.collection (KafkaConsumer.db_manager self) ++ documents_of ds
    /\ (len_list (DatabaseManager.collection (KafkaConsumer.db_manager self'))
        - len_list (DatabaseManager.collection (KafkaConsumer.db_manager self))
        = KafkaConsumer.messages_processed self'
          - KafkaConsumer.messages_processed self)%Z
    /\ KafkaConsumer.last_message_time self'
       = last_success (KafkaConsumer.last_message_time self) ds
    /\ KafkaConsumer.consumer self' = KafkaConsumer.consumer self
    /\ KafkaConsumer.consumer_task self' = KafkaConsumer.consumer_task self
    /\ KafkaConsumer.topic self' = KafkaConsumer.topic self
    /\ KafkaConsumer.group_id self' = KafkaConsumer.group_id self.
Proof.
  intros lib self stream self' ds.
  destruct (consume_loop_store_effect stream self) as (Hs & Hl & Hc & Hk & Ht & Hg & _).
  destruct (consume_loop_counters stream self) as (Hp & _).
  fold self' in Hs, Hl, Hc, Hk, Ht, Hg, Hp. fold ds in Hs, Hl, Hp.
  repeat split; try assumption.
  rewrite Hs, Hp. unfold len_list at 1 2. rewrite length_app.
  pose proof (documents_of_count ds) as Hn. unfold len_list in Hn. lia.
Qed.

(** ** How the loop ends *)

Section LoopEnd.
Context {lib : PyLib}.
Import KafkaConsumer.

Lemma set_running_same (self : t) (b : bool) :
  running self = b -> set_running b self = self.
Proof. destruct self; cbn. intros ->. reflexivity. Qed.

(** With [running] cleared the loop handles nothing. *)
Lemma consume_loop_stopped (stream : list poll) (self : t) :
  running self = false -> _consume_loop self stream = self.
Proof.
  revert self. induction stream as [|ev rest IH]; intros self Hr; [reflexivity|].
  cbn [_consume_loop]. destruct ev as [d|e|].
  - rewrite Hr. reflexivity.
  - reflexivity.
  - rewrite (set_running_same self Hr). apply IH. exact Hr.
Qed.

Lemma consume_loop_records_running (ds : list delivery) (self : t) :
  running (_consume_loop self (map Polled ds)) = running self.
Proof.
  revert self. induction ds as [|d ds IH]; intros self; [reflexivity|].
  cbn [map _consume_loop]. destruct (running self) eqn:Hr; cbn [negb]; [|exact Hr].
  pose proof (process_message_step self d) as (Hret & Hrun & _).
  destruct (_process_message self d) as [r s1]; cbn [fst snd] in *. subst r.
  rewrite IH. congruence.
Qed.

Lemma consume_loop_records_consumer (ds : list delivery) (self : t) :
  consumer (_consume_loop self (map Polled ds)) = consumer self.
Proof.
  destruct (consume_loop_store_effect (map Polled ds) self) as (_ & _ & H & _).
  exact H.
Qed.

(** Records, then an event that ends the loop, then anything. *)
Lemma consume_loop_cut (ds : list delivery) (ev : poll) (rest : list poll) :
  forall self : t,
    _consume_loop self (map Polled ds ++ ev :: rest)
    = _consume_loop (_consume_loop self (map Polled ds)) (ev :: rest).
Proof.
  induction ds as [|d ds IH]; intros self; [reflexivity|].
  cbn [map app _consume_loop]. destruct (running self) eqn:Hr; cbn [negb].
  - pose proof (process_message_step self d) as (Hret & _).
    destruct (_process_message self d) as [r s1]. cbn [fst] in Hret. subst r.
    apply IH.
  - symmetry. apply (consume_loop_stopped (ev :: rest) self Hr).
Qed.

End LoopEnd.

(** X14.  Nothing that follows an exception of the client's iterator
    or a stop request is handled.  After records and then an iterator
    exception the consumer is as after the records alone: [running] is
    not cleared, so [is_running()] and the code of the health endpoint
    are what they were before the loop ended.  After records and then a
    stop request the consumer is as after the records with [running]
    cleared, and [is_running()] is false. *)
Theorem consume_loop_end_of_stream :
  forall (lib : PyLib) (self : KafkaConsumer.t) (ds : list KafkaConsumer.delivery)
         (e : exn) (rest : list KafkaConsumer.poll)
         (db_manager : option bool) (utcnow_iso : str),
    let handled := KafkaConsumer._consume_loop self (map KafkaConsumer.Polled ds) in
    let failed :=
      KafkaConsumer._consume_loop self
        (map KafkaConsumer.Polled ds ++ KafkaConsumer.IteratorRaises e :: rest) in
    let stopped :=
      KafkaConsumer._consume_loop self
        (map KafkaConsumer.Polled ds ++ KafkaConsumer.StopRequested :: rest) in
    failed = handled
    /\ KafkaConsumer.is_running failed = KafkaConsumer.is_running self
    /\ fst (ManagementMain.health_check db_manager (Some failed) utcnow_iso)
       = fst (ManagementMain.health_check db_manager (Some self) utcnow_iso)
    /\ stopped = KafkaConsumer.set_running false handled
    /\ KafkaConsumer.is_running stopped = false
    /\ fst (ManagementMain.health_check db_manager (Some stopped) utcnow_iso) = 503%Z.
Proof.
  intros lib self ds e rest db_manager utcnow_iso handled failed stopped.
  assert (Hf : failed = handled).
  { subst failed handled. rewrite consume_loop_cut. reflexivity. }
  assert (Hs : stopped = KafkaConsumer.set_running false handled).
  { subst stopped handled. rewrite consume_loop_cut.
    cbn [KafkaConsumer._consume_loop]. apply consume_loop_stopped. reflexivity. }
  assert (Hr : KafkaConsumer.is_running handled = KafkaConsumer.is_running self).
  { subst handled. unfold KafkaConsumer.is_running.
    now rewrite consume_loop_records_running, consume_loop_records_consumer. }
  split; [exact Hf|]. rewrite Hf, Hs.
  split; [exact Hr|].
  split; [unfold ManagementMain.health_check; cbn [fst]; now rewrite Hr|].
  split; [reflexivity|].
  split; [reflexivity|].
  unfold ManagementMain.health_check. cbn [fst].
  replace (KafkaConsumer.is_running (KafkaConsumer.set_running false handled))
    with false by reflexivity.
  now rewrite andb_false_r.
Qed.

(** X15.  [stop] clears [running] and leaves the counters, the store
    and the client handle as they are; it returns normally when there
    is no client and otherwise ends as the client's [stop()] does, an
    exception of it included.  A loop of the stopped consumer handles
    no record of any stream, and a later successful [start] makes
    [is_running()] true again with the counters kept. *)
Theorem consumer_stop_effect :
  forall (lib : PyLib) (self : KafkaConsumer.t) (task_timeout : bool)
         (stop_r : result unit) (stream : list KafkaConsumer.poll) (c task : nat),
    let out := KafkaConsumer.stop self task_timeout stop_r in
    let self' := snd out in
    fst out = match KafkaConsumer.consumer self with
              | Some _ => stop_r
              | None => Return tt
              end
    /\ KafkaConsumer.is_running self' = false
    /\ KafkaConsumer.get_stats self'
       = (false, KafkaConsumer.messages_processed self,
          KafkaConsumer.messages_failed self, KafkaConsumer.last_message_time self)
    /\ KafkaConsumer.db_manager self' = KafkaConsumer.db_manager self
    /\ KafkaConsumer.consumer self' = KafkaConsumer.consumer self
    /\ KafkaConsumer._consume_loop self' stream = self'
    /\ snd (KafkaConsumer.stop self' task_timeout stop_r) = self'
    /\ let again := snd (KafkaConsumer.start self' (KafkaConsumer.ClientStarted c task)) in
       KafkaConsumer.is_running again = true
       /\ KafkaConsumer.messages_processed again = KafkaConsumer.messages_processed self
       /\ KafkaConsumer.messages_failed again = KafkaConsumer.messages_failed self
       /\ KafkaConsumer.db_manager again = KafkaConsumer.db_manager self.
Proof.
  intros lib self task_timeout stop_r stream c task out self'.
  assert (Hs : self' = KafkaConsumer.set_running false self).
  { subst self' out. unfold KafkaConsumer.stop.
    destruct (KafkaConsumer.consumer (KafkaConsumer.set_running false self));
      reflexivity. }
  split.
  { subst out. unfold KafkaConsumer.stop. cbn [KafkaConsumer.consumer
      KafkaConsumer.set_running].
    destruct (KafkaConsumer.consumer self); reflexivity. }
  rewrite Hs.
  split; [reflexivity|]. split; [reflexivity|]. split; [reflexivity|].
  split; [reflexivity|].
  split; [apply consume_loop_stopped; reflexivity|].
  split.
  { unfold KafkaConsumer.stop. cbn [KafkaConsumer.consumer KafkaConsumer.set_running].
    destruct (KafkaConsumer.consumer self); reflexivity. }
  cbv zeta. repeat split; reflexivity.
Qed.

(** ** The query of the store *)

Section DictFacts.

Lemma str_eqb_sym (a b : str) : str_eqb a b = str_eqb b a.
Proof.
  destruct (str_eqb a b) eqn:H1, (str_eqb b a) eqn:H2; try reflexivity.
  - apply str_eqb_eq in H1. subst. rewrite str_eqb_refl in H2. discriminate.
  - apply str_eqb_eq in H2. subst. rewrite str_eqb_refl in H1. discriminate.
Qed.

Lemma dict_get_set_same (k : str) (v : value) (d : dict) :
  dict_get k (dict_set k v d) = Some v.
Proof.
  induction d as [|[k' v'] d IH]; cbn [dict_set dict_get].
  - now rewrite str_eqb_refl.
  - destruct (str_eqb k k') eqn:H; cbn [dict_get].
    + now rewrite str_eqb_refl.
    + rewrite H. exact IH.
Qed.

Lemma dict_get_set_other (k k' : str) (v : value) (d : dict) :
  str_eqb k' k = false -> dict_get k' (dict_set k v d) = dict_get k' d.
Proof.
  intros Hk. induction d as [|[k0 v0] d IH]; cbn [dict_set dict_get].
  - now rewrite Hk.
  - destruct (str_eqb k k0) eqn:H; cbn [dict_get].
    + apply str_eqb_eq in H. subst k0. now rewrite Hk.
    + now rewrite IH.
Qed.

End DictFacts.

Section QueryInGeneral.
Context {lib : PyLib}.
Import DatabaseManager.

Lemma key_geb_total (a b : option Z) : key_geb a b = false -> key_geb b a = true.
Proof.
  destruct a as [x|], b as [y|]; cbn; try congruence.
  intros H. apply Z.leb_gt in H. apply Z.leb_le. lia.
Qed.

Lemma key_geb_trans (a b c : option Z) :
  key_geb a b = true -> key_geb b c = true -> key_geb a c = true.
Proof.
  destruct a as [x|], b as [y|], c as [z|]; cbn; try congruence.
  rewrite !Z.leb_le. lia.
Qed.

Lemma insert_desc_perm (d : dict) (l : list dict) :
  Permutation (insert_desc d l) (d :: l).
Proof.
  induction l as [|x l IH]; cbn [insert_desc]; [reflexivity|].
  destruct (key_geb (sort_key d) (sort_key x)); [reflexivity|].
  rewrite IH. apply perm_swap.
Qed.

Lemma insert_desc_sorted (d : dict) (l : list dict) :
  StronglySorted newer_or_equal l -> StronglySorted newer_or_equal (insert_desc d l).
Proof.
  induction l as [|x l IH]; intros Hs; cbn [insert_desc].
  - repeat constructor.
  - inversion Hs as [|? ? Hl Hall]; subst.
    destruct (key_geb (sort_key d) (sort_key x)) eqn:Hk.
    + constructor; [exact Hs|]. constructor; [exact Hk|].
      eapply Forall_impl; [|exact Hall]. intros y Hy.
      unfold newer_or_equal in *. eapply key_geb_trans; eassumption.
    + constructor; [apply IH; exact Hl|].
      eapply Permutation_Forall; [symmetry; apply insert_desc_perm|].
      constructor; [|exact Hall]. apply key_geb_total. exact Hk.
Qed.

Lemma sort_desc_perm (l : list dict) : Permutation (sort_desc l) l.
Proof.
  induction l as [|d l IH]; [reflexivity|].
  unfold sort_desc in *. cbn [fold_right]. rewrite insert_desc_perm.
  now constructor.
Qed.

Lemma sort_desc_sorted (l : list dict) : StronglySorted newer_or_equal (sort_desc l).
Proof.
  induction l as [|d l IH]; [constructor|].
  unfold sort_desc in *. cbn [fold_right]. apply insert_desc_sorted. exact IH.
Qed.

Lemma stringify_ids_total (l : list dict) :
  Forall (fun d => has_id d = true) l ->
  stringify_ids l = Return (map id_as_string l).
Proof.
  induction l as [|d l IH]; intros H; [reflexivity|].
  inversion H as [|? ? Hd Hl]; subst.
  cbn [stringify_ids map]. rewrite (IH Hl).
  unfold stringify_id, id_as_string, has_id in *.
  destruct (dict_get (lit "_id") d); [reflexivity | discriminate].
Qed.

(** Turning the [_id] into a string changes no other key. *)
Lemma id_as_string_other (k : str) (d : dict) :
  str_eqb k (lit "_id") = false -> dict_get k (id_as_string d) = dict_get k d.
Proof.
  intros Hk. unfold id_as_string.
  destruct (dict_get (lit "_id") d); [|reflexivity].
  now apply dict_get_set_other.
Qed.

Lemma id_as_string_id (d : dict) :
  has_id d = true ->
  exists s, dict_get (lit "_id") (id_as_string d) = Some (VStr s).
Proof.
  unfold has_id, id_as_string. destruct (dict_get (lit "_id") d) as [v|]; [|discriminate].
  intros _. eexists. apply dict_get_set_same.
Qed.

Lemma id_as_string_matches (uid : str) (d : dict) :
  matches uid (id_as_string d) = matches uid d.
Proof. unfold matches. now rewrite id_as_string_other. Qed.

Lemma id_as_string_sort_key (d : dict) : sort_key (id_as_string d) = sort_key d.
Proof. unfold sort_key. now rewrite id_as_string_other. Qed.

Lemma sorted_map_id_as_string (l : list dict) :
  StronglySorted newer_or_equal l ->
  StronglySorted newer_or_equal (map id_as_string l).
Proof.
  induction 1 as [|d l Hl IH Hall]; cbn [map]; constructor; [exact IH|].
  apply Forall_map. eapply Forall_impl; [|exact Hall]. intros y Hy.
  unfold newer_or_equal in *. now rewrite !id_as_string_sort_key.
Qed.

(** The query in one equation, for a store whose documents all carry
    an [_id]. *)
Lemma get_user_purchases_found (db : t) (uid : str) :
  Forall (fun d => has_id d = true) (collection db) ->
  get_user_purchases db uid None
  = Return (map id_as_string (sort_desc (filter (matches uid) (collection db)))).
Proof.
  intros Hid. unfold get_user_purchases. apply stringify_ids_total.
  eapply Permutation_Forall; [symmetry; apply sort_desc_perm|].
  apply Forall_forall. intros d Hd. apply filter_In in Hd as [Hd _].
  rewrite Forall_forall in Hid. now apply Hid.
Qed.

End QueryInGeneral.

(** X16.  The query of the store, for any collection whose documents
    carry an [_id] (as every stored document does): it returns the
    documents whose [user_id] is the given string, all of them and no
    other, each once and changed only in its [_id], which is a string
    afterwards; the list is ordered by [timestamp_dt], newest first,
    documents without one last.  An exception of the store is
    re-raised as it is. *)
Theorem query_returns_the_users_documents :
  forall (lib : PyLib) (db : DatabaseManager.t) (uid : str),
    Forall (fun d => has_id d = true) (DatabaseManager.collection db) ->
    (exists found,
        DatabaseManager.get_user_purchases db uid None
        = Return (map id_as_string found)
        /\ Permutation found
             (filter (DatabaseManager.matches uid) (DatabaseManager.collection db))
        /\ StronglySorted newer_or_equal (map id_as_string found)
        /\ Forall (fun d => DatabaseManager.matches uid d = true
                            /\ exists s, dict_get (lit "_id") d = Some (VStr s))
             (map id_as_string found)
        /\ forall k d, In d found -> str_eqb k (lit "_id") = false ->
                       dict_get k (id_as_string d) = dict_get k d)
    /\ forall e, DatabaseManager.get_user_purchases db uid (Some e) = Raise e.
Proof.
  intros lib db uid Hid. split; [|reflexivity].
  exists (DatabaseManager.sort_desc
            (filter (DatabaseManager.matches uid) (DatabaseManager.collection db))).
  split; [now apply get_user_purchases_found|].
  split; [apply sort_desc_perm|].
  split; [apply sorted_map_id_as_string, sort_desc_sorted|].
  split.
  - apply Forall_map. apply Forall_forall. intros d Hd.
    apply (Permutation_in _ (sort_desc_perm _)) in Hd.
    apply filter_In in Hd as [Hd Hm]. rewrite id_as_string_matches.
    split; [exact Hm|]. apply id_as_string_id.
    rewrite Forall_forall in Hid. now apply Hid.
  - intros k d _ Hk. now apply id_as_string_other.
Qed.

Lemma query_returns_the_users_documents_witness :
  exists found,
    DatabaseManager.get_user_purchases (lib := strict_lib)
      (PersistedPurchase.store_of [Sample.ten; Sample.twenty]) (lit "user_123") None
    = Return (map (id_as_string (lib := strict_lib)) found).
Proof.
  destruct (@query_returns_the_users_documents strict_lib
              (PersistedPurchase.store_of [Sample.ten; Sample.twenty]) (lit "user_123"))
    as [(found & H & _) _].
  - repeat constructor.
  - exists found. exact H.
Defined.

(** ** Saving and finding *)

Section SaveThenQuery.
Context {lib : PyLib}.
Import DatabaseManager.

Lemma document_has_id (p : Purchase.t) (dt : datetime) (oid : str) :
  has_id (document p dt oid) = true.
Proof. reflexivity. Qed.

Lemma document_matches (p : Purchase.t) (dt : datetime) (oid : str) (uid : str) :
  matches uid (document p dt oid) = str_eqb (Purchase.user_id p) uid.
Proof. reflexivity. Qed.

Lemma document_served (p : Purchase.t) (dt : datetime) (oid : str) :
  id_as_string (document p dt oid)
  = PersistedPurchase.served (PersistedPurchase.mk p dt oid).
Proof. reflexivity. Qed.

(** What a returning [save_purchase] has done. *)
Lemma save_purchase_returns (db : t) (p : Purchase.t) (env : insert_env)
    (oid : str) (db' : t) :
  save_purchase db p env = (Return oid, db') ->
  exists dt,
    timestamp_dt (Purchase.timestamp p) = Return dt
    /\ env = Inserted oid
    /\ collection db' = collection db ++ [document p dt oid].
Proof.
  unfold save_purchase.
  destruct (timestamp_dt (Purchase.timestamp p)) as [dt|e]; [|discriminate].
  destruct env as [o|e|]; [|discriminate|discriminate].
  intros H. inversion H; subst. exists dt. repeat split.
Qed.

End SaveThenQuery.

(** X17.  Saving and finding.  When [save_purchase] returns an
    identifier, it is the one the store assigned; the query for the
    purchase's [user_id] afterwards returns one document more than
    before, among them the saved purchase with its five fields, the
    instant parsed from its timestamp and that identifier as a string,
    while the query for any other user returns what it returned
    before.  When [save_purchase] raises, because the
    timestamp does not parse or because the store refuses the
    document, the store is unchanged; the exception is the one of the
    parse or of the store, except that a [DuplicateKeyError] of the
    store ends as the [AttributeError] of the missing
    [Logger.warning]. *)
Theorem saved_purchase_is_found :
  forall (lib : PyLib) (db : DatabaseManager.t) (p : Purchase.t)
         (env : DatabaseManager.insert_env),
    Forall (fun d => has_id d = true) (DatabaseManager.collection db) ->
    match DatabaseManager.save_purchase db p env with
    | (Return oid, db') =>
        env = DatabaseManager.Inserted oid
        /\ (exists dt before after,
               DatabaseManager.timestamp_dt (Purchase.timestamp p) = Return dt
               /\ DatabaseManager.get_user_purchases db (Purchase.user_id p) None
                  = Return before
               /\ DatabaseManager.get_user_purchases db' (Purchase.user_id p) None
                  = Return after
               /\ In (PersistedPurchase.served (PersistedPurchase.mk p dt oid)) after
               /\ List.length after = S (List.length before))
        /\ (forall uid, uid <> Purchase.user_id p ->
                        DatabaseManager.get_user_purchases db' uid None
                        = DatabaseManager.get_user_purchases db uid None)
    | (Raise e, db') =>
        db' = db
        /\ (DatabaseManager.timestamp_dt (Purchase.timestamp p) = Raise e
            \/ (exists dt,
                   DatabaseManager.timestamp_dt (Purchase.timestamp p) = Return dt
                   /\ (env = DatabaseManager.InsertRaises e
                       \/ (env = DatabaseManager.InsertDuplicateKey
                           /\ e = OtherException
                                    (lit "AttributeError: 'Logger' object has no attribute 'warning'")))))
    end.
Proof.
  intros lib db p env Hid.
  destruct (DatabaseManager.save_purchase db p env) as [[oid|e] db'] eqn:Hsave.
  - destruct (save_purchase_returns db p env Hsave) as (dt & Hdt & -> & Hcoll).
    assert (Hid' : Forall (fun d => has_id d = true) (DatabaseManager.collection db')).
    { rewrite Hcoll. apply Forall_app. split; [exact Hid|]. repeat constructor. }
    split; [reflexivity|]. split.
    + exists dt. eexists. eexists. split; [exact Hdt|].
      split; [now apply get_user_purchases_found|].
      split; [now apply get_user_purchases_found|].
      rewrite Hcoll, filter_app. cbn [filter]. rewrite document_matches, str_eqb_refl.
      split.
      * rewrite <- document_served. apply in_map.
        apply (Permutation_in _ (Permutation_sym (sort_desc_perm _))).
        apply in_or_app. right. now left.
      * rewrite !length_map.
        rewrite (Permutation_length (sort_desc_perm _)).
        rewrite (Permutation_length (sort_desc_perm _)).
        rewrite length_app. cbn [List.length]. lia.
    + intros uid Hne. unfold DatabaseManager.get_user_purchases.
      rewrite Hcoll, filter_app. cbn [filter]. rewrite document_matches.
      destruct (str_eqb (Purchase.user_id p) uid) eqn:He.
      * apply str_eqb_eq in He. congruence.
      * now rewrite app_nil_r.
  - unfold DatabaseManager.save_purchase in Hsave.
    destruct (DatabaseManager.timestamp_dt (Purchase.timestamp p)) as [dt|e'].
    + destruct env as [oid|e'|]; inversion Hsave; subst.
      * split; [reflexivity|]. right. exists dt. split; [reflexivity|now left].
      * split; [reflexivity|]. right. exists dt. split; [reflexivity|].
        right. split; reflexivity.
    + inversion Hsave; subst. split; [reflexivity|]. now left.
Qed.

Lemma saved_purchase_is_found_witness :
  (exists after,
      DatabaseManager.get_user_purchases (lib := strict_lib)
        (snd (DatabaseManager.save_purchase (lib := strict_lib)
                (PersistedPurchase.store_of [Sample.ten])
                (PersistedPurchase.purchase Sample.twenty)
                (DatabaseManager.Inserted (lit "65a000000000000000000002"))))
        (lit "user_123") None
      = Return after
      /\ List.length after = 2%nat)
  /\ snd (DatabaseManager.save_purchase (lib := strict_lib)
            (PersistedPurchase.store_of [Sample.ten])
            (PersistedPurchase.purchase Sample.twenty)
            DatabaseManager.InsertDuplicateKey)
     = PersistedPurchase.store_of [Sample.ten].
Proof.
  split.
  - pose proof (@saved_purchase_is_found strict_lib
                  (PersistedPurchase.store_of [Sample.ten])
                  (PersistedPurchase.purchase Sample.twenty)
                  (DatabaseManager.Inserted (lit "65a000000000000000000002"))) as H.
    destruct (DatabaseManager.save_purchase (lib := strict_lib)
                (PersistedPurchase.store_of [Sample.ten])
                (PersistedPurchase.purchase Sample.twenty)
                (DatabaseManager.Inserted (lit "65a000000000000000000002")))
      as [[oid|e] db'] eqn:Hs; [|vm_compute in Hs; discriminate].
    destruct H as (_ & (dt & before & after & _ & Hb & Ha & _ & Hlen) & _).
    { repeat constructor. }
    exists after. split; [exact Ha|].
    vm_compute in Hb. inversion Hb; subst before. exact Hlen.
  - pose proof (@saved_purchase_is_found strict_lib
                  (PersistedPurchase.store_of [Sample.ten])
                  (PersistedPurchase.purchase Sample.twenty)
                  DatabaseManager.InsertDuplicateKey) as H.
    destruct (DatabaseManager.save_purchase (lib := strict_lib)
                (PersistedPurchase.store_of [Sample.ten])
                (PersistedPurchase.purchase Sample.twenty)
                DatabaseManager.InsertDuplicateKey)
      as [[oid|e] db'] eqn:Hs; [vm_compute in Hs; discriminate|].
    destruct H as (Hdb & _).
    { repeat constructor. }
    exact Hdb.
Defined.

(** ** The answers of the history endpoint *)

Section HistoryAnswers.
Context {lib : PyLib}.

Lemma stringify_ids_result (l : list dict) :
  match DatabaseManager.stringify_ids l with
  | Return docs => List.length docs = List.length l
  | Raise e => is_HTTPException e = false
  end.
Proof.
  induction l as [|d l IH]; cbn [DatabaseManager.stringify_ids]; [reflexivity|].
  unfold DatabaseManager.stringify_id.
  destruct (dict_get (lit "_id") d); cbn [bind]; [|reflexivity].
  destruct (DatabaseManager.stringify_ids l); cbn [bind List.length]; [lia | exact IH].
Qed.

Lemma PurchaseResponse_validate_raises (d : dict) (e : exn) :
  PurchaseResponse.validate d = Raise e -> is_HTTPException e = false.
Proof.
  unfold PurchaseResponse.validate.
  destruct (Purchase.validate d); [destruct (PurchaseResponse.id_field d)|];
    intros H; inversion H; reflexivity.
Qed.

Lemma purchase_responses_result (l : list dict) :
  match ManagementMain.purchase_responses l with
  | Return rs => List.length rs = List.length l
  | Raise e => is_HTTPException e = false
  end.
Proof.
  induction l as [|d l IH]; cbn [ManagementMain.purchase_responses]; [reflexivity|].
  destruct (PurchaseResponse.validate d) as [r|e] eqn:Hv; cbn [bind].
  - destruct (ManagementMain.purchase_responses l); cbn [bind List.length];
      [lia | exact IH].
  - eapply PurchaseResponse_validate_raises; exact Hv.
Qed.

Lemma validate_username_raises (v : value) (e : exn) :
  UserPurchasesResponse.validate_username v = Raise e -> is_HTTPException e = false.
Proof. destruct v; intros H; inversion H; reflexivity. Qed.

(** The [try] block over the documents the query returned. *)
Lemma history_of_documents (db : DatabaseManager.t) (uid : str)
    (p : dict) (rest : list dict) :
  DatabaseManager.get_user_purchases db uid None = Return (p :: rest) ->
  match ManagementMain.get_user_purchases db uid None with
  | Return r =>
      UserPurchasesResponse.user_id r = uid
      /\ UserPurchasesResponse.total_purchases r = len_list (p :: rest)
      /\ List.length (UserPurchasesResponse.purchases r) = List.length (p :: rest)
  | Raise e =>
      e = HTTPException 500 (lit "Internal server error while retrieving purchases")
  end.
Proof.
  intros Hq. unfold ManagementMain.get_user_purchases, ManagementMain.history.
  rewrite Hq. cbn [bind].
  destruct (ManagementMain.sum_prices (ManagementMain.SumInt 0) (p :: rest)) as [total|e] eqn:Hsum; cbn [bind].
  2: { now rewrite (@sum_prices_raises _ _ _ _ Hsum). }
  pose proof (purchase_responses_result (p :: rest)) as Hr.
  destruct (ManagementMain.purchase_responses (p :: rest)) as [rs|e]; cbn [bind].
  2: { now rewrite Hr. }
  destruct (UserPurchasesResponse.validate_username
              (ManagementMain.first_username (p :: rest))) as [u|e] eqn:Hu; cbn [bind].
  - repeat split. exact Hr.
  - now rewrite (validate_username_raises _ Hu).
Qed.

(** The cases of the endpoint's answer. *)
Lemma history_answers_cases :
  forall (db : DatabaseManager.t) (uid : str) (cursor_error : option exn),
    (forall e, cursor_error = Some e -> is_HTTPException e = false) ->
    let mine := filter (DatabaseManager.matches uid) (DatabaseManager.collection db) in
    match ManagementMain.get_user_purchases db uid cursor_error with
    | Return r =>
        cursor_error = None
        /\ mine <> []
        /\ UserPurchasesResponse.user_id r = uid
        /\ UserPurchasesResponse.total_purchases r = len_list mine
        /\ len_list (UserPurchasesResponse.purchases r) = len_list mine
    | Raise e =>
        (e = HTTPException 404 (lit "No purchases found for user_id: " ++ uid)
         /\ cursor_error = None /\ mine = [])
        \/ (e = HTTPException 500
                  (lit "Internal server error while retrieving purchases")
            /\ (cursor_error <> None \/ mine <> []))
    end.
Proof.
  intros db uid cursor_error Hce mine.
  destruct cursor_error as [e|].
  { unfold ManagementMain.get_user_purchases, ManagementMain.history,
      DatabaseManager.get_user_purchases. cbn [bind].
    rewrite (Hce e eq_refl). right. split; [reflexivity|]. left. discriminate. }
  assert (Hlen : List.length (DatabaseManager.sort_desc mine) = List.length mine)
    by apply Permutation_length, sort_desc_perm.
  assert (Hq : DatabaseManager.get_user_purchases db uid None
               = DatabaseManager.stringify_ids (DatabaseManager.sort_desc mine))
    by reflexivity.
  clearbody mine.
  pose proof (stringify_ids_result (DatabaseManager.sort_desc mine)) as Hs.
  destruct (DatabaseManager.stringify_ids (DatabaseManager.sort_desc mine))
    as [docs|e] eqn:Hdocs.
  - rewrite Hlen in Hs. destruct docs as [|p rest].
    + assert (Hm : mine = []).
      { destruct mine; [reflexivity|]. discriminate. }
      unfold ManagementMain.get_user_purchases, ManagementMain.history.
      rewrite Hq. cbn [bind]. left. repeat split. exact Hm.
    + assert (Hm : mine <> []).
      { intros Hm. rewrite Hm in Hs. discriminate. }
      pose proof (history_of_documents db uid Hq) as Hh.
      destruct (ManagementMain.get_user_purchases db uid None) as [r|e].
      * destruct Hh as (Hu & Ht & Hp). unfold len_list in *.
        repeat split; auto; lia.
      * right. split; [exact Hh|]. now right.
  - assert (Hm : mine <> []).
    { intros Hm. rewrite Hm in Hdocs. discriminate. }
    unfold ManagementMain.get_user_purchases, ManagementMain.history.
    rewrite Hq. cbn [bind]. rewrite Hs. right. split; [reflexivity|]. now right.
Qed.

End HistoryAnswers.

(** X18.  The answers of the history endpoint over any store, when the
    exception of a failing query is not itself an [HTTPException]: a
    404 naming the user exactly when the query succeeds and finds no
    document of the user; otherwise a response whose [user_id] is the
    requested one and whose [total_purchases] and number of purchases
    are the number of the user's documents, or a 500 with one fixed
    detail, whatever went wrong. *)
Theorem history_answers :
  forall (lib : PyLib) (db : DatabaseManager.t) (uid : str) (cursor_error : option exn),
    (forall e, cursor_error = Some e -> is_HTTPException e = false) ->
    let mine := filter (DatabaseManager.matches uid) (DatabaseManager.collection db) in
    match ManagementMain.get_user_purchases db uid cursor_error with
    | Return r =>
        cursor_error = None
        /\ mine <> []
        /\ UserPurchasesResponse.user_id r = uid
        /\ UserPurchasesResponse.total_purchases r = len_list mine
        /\ len_list (UserPurchasesResponse.purchases r) = len_list mine
    | Raise e =>
        (e = HTTPException 404 (lit "No purchases found for user_id: " ++ uid)
         /\ cursor_error = None /\ mine = [])
        \/ (e = HTTPException 500
                  (lit "Internal server error while retrieving purchases")
            /\ (cursor_error <> None \/ mine <> []))
    end.
Proof.
  intros lib db uid cursor_error Hce. exact (history_answers_cases db uid Hce).
Qed.

Lemma history_answers_witness :
  ManagementMain.get_user_purchases (lib := strict_lib)
    (PersistedPurchase.store_of [Sample.ten; Sample.twenty]) (lit "user_999") None
  = Raise (HTTPException 404 (lit "No purchases found for user_id: user_999")).
Proof.
  pose proof (@history_answers strict_lib
                (PersistedPurchase.store_of [Sample.ten; Sample.twenty])
                (lit "user_999") None) as H.
  cbv zeta in H.
  destruct (ManagementMain.get_user_purchases (lib := strict_lib)
              (PersistedPurchase.store_of [Sample.ten; Sample.twenty])
              (lit "user_999") None) as [r|e].
  - destruct H as (_ & Hne & _); [discriminate|]. exfalso. apply Hne. reflexivity.
  - destruct H as [(-> & _) | (_ & [Hc | Hm])]; [discriminate| reflexivity | |].
    + exfalso. apply Hc. reflexivity.
    + exfalso. apply Hm. reflexivity.
Defined.

(** ** The history through the gateway *)

Section ThroughGateway.
Context {lib : PyLib}.





End ThroughGateway.



(** ** From the purchase to the history *)



(** ** Payloads the deserializer refuses *)

Section Undecodable.
Context {lib : PyLib}.
Import KafkaConsumer.

(** Records whose payloads all deserialize reach the loop as
    records. *)
Lemma next_records_delivered (deserializer : bytes -> result value)
    (rs : list fetched) :
  Forall (fun r => exists v, deserializer (fetched_value r) = Return v) rs ->
  exists ds : list delivery,
    map (next_record deserializer) rs = map Polled ds
    /\ List.length ds = List.length rs.
Proof.
  induction 1 as [|r rs [v Hv] _ (ds & Hm & Hl)].
  - exists []. split; reflexivity.
  - eexists (_ :: ds). cbn [map List.length]. unfold next_record at 1.
    rewrite Hv, Hm, Hl. split; reflexivity.
Qed.

(** The counters after deserialized records only. *)
Lemma consume_loop_records_counters (ds : list delivery) (self : t) :
  running self = true ->
  let self' := _consume_loop self (map Polled ds) in
  messages_processed self' = (messages_processed self + count_persisted ds)%Z
  /\ messages_failed self' = (messages_failed self + count_failed ds)%Z
  /\ (count_persisted ds + count_failed ds)%Z = len_list ds.
Proof.
  intros Hr. pose proof (consume_loop_counters (map Polled ds) self) as [H1 H2].
  cbv zeta in *. rewrite Hr, processed_records_all in *.
  repeat split; auto. apply counts_partition.
Qed.

End Undecodable.

(** C1, where the code departs from it.  The client deserializes a
    payload when the loop asks for the next record.  When the
    deserializer configured in [start] raises on a payload, the
    iteration raises, outside the [try] of [_process_message]; the
    loop logs and ends.  The record with that payload moves neither
    counter and the records after it are never handled: after a stream
    of [before], the refused record and [after], a running consumer is
    as after [before] alone, [running] still set, and the two counters
    together have grown by the length of [before], less than the
    number of records of the stream. *)
Theorem undecodable_payload_ends_consumption :
  forall (lib : PyLib) (decode : bytes -> result str) (loads : str -> result value)
         (self : KafkaConsumer.t) (before after : list KafkaConsumer.fetched)
         (bad : KafkaConsumer.fetched) (e : exn),
    let deserializer := KafkaConsumer.value_deserializer decode loads in
    KafkaConsumer.running self = true ->
    Forall (fun r => exists v,
                deserializer (KafkaConsumer.fetched_value r) = Return v) before ->
    deserializer (KafkaConsumer.fetched_value bad) = Raise e ->
    let stream :=
      map (KafkaConsumer.next_record deserializer) (before ++ bad :: after) in
    let self' := KafkaConsumer._consume_loop self stream in
    self' = KafkaConsumer._consume_loop self
              (map (KafkaConsumer.next_record deserializer) before)
    /\ KafkaConsumer.running self' = true
    /\ len_list (KafkaConsumer.processed_records true stream) = len_list before
    /\ (KafkaConsumer.messages_processed self' + KafkaConsumer.messages_failed self'
        = KafkaConsumer.messages_processed self + KafkaConsumer.messages_failed self
          + len_list before)%Z
    /\ (KafkaConsumer.messages_processed self' + KafkaConsumer.messages_failed self'
        < KafkaConsumer.messages_processed self + KafkaConsumer.messages_failed self
          + len_list stream)%Z.
Proof.
  intros lib decode loads self before after bad e deserializer Hrun Hgood Hbad
    stream self'.
  destruct (next_records_delivered deserializer Hgood) as (ds & Hm & Hl).
  assert (Hstream : stream
                    = map KafkaConsumer.Polled ds
                      ++ KafkaConsumer.IteratorRaises e
                         :: map (KafkaConsumer.next_record deserializer) after).
  { subst stream. rewrite map_app, Hm. cbn [map].
    unfold KafkaConsumer.next_record at 1. now rewrite Hbad. }
  assert (Hself : self' = KafkaConsumer._consume_loop self (map KafkaConsumer.Polled ds)).
  { subst self'. rewrite Hstream, consume_loop_cut. reflexivity. }
  destruct (consume_loop_records_counters ds self Hrun) as (Hp & Hf & Hc).
  rewrite <- Hself in Hp, Hf.
  assert (Hlen : len_list ds = len_list before) by (unfold len_list; now rewrite Hl).
  assert (Hrecs : KafkaConsumer.processed_records true stream = ds).
  { rewrite Hstream. clear. induction ds as [|d ds IH]; [reflexivity|].
    cbn [map app KafkaConsumer.processed_records]. now rewrite IH. }
  split; [now rewrite Hself, Hm|].
  split; [rewrite Hself, consume_loop_records_running; exact Hrun|].
  split; [now rewrite Hrecs|].
  split; [lia|].
  assert (Hs : (len_list before < len_list stream)%Z).
  { subst stream. unfold len_list. rewrite length_map, length_app.
    cbn [List.length]. lia. }
  lia.
Qed.

(** Three records, the second with an empty payload: the first is
    counted as failed (an empty object is no purchase), the second and
    the third are counted nowhere. *)
Lemma undecodable_payload_ends_consumption_witness :
  let consumer :=
    KafkaConsumer._consume_loop (lib := strict_lib)
      (KafkaConsumer.set_running true Sample.stopped_consumer)
      (map (KafkaConsumer.next_record
              (KafkaConsumer.value_deserializer Sample.decode Sample.loads))
         [ Sample.broker_record 0 "{}"; Sample.broker_record 1 "not json";
           Sample.broker_record 2 "{}" ]) in
  (KafkaConsumer.messages_processed consumer + KafkaConsumer.messages_failed consumer
   = 1)%Z
  /\ KafkaConsumer.running consumer = true.
Proof.
  destruct (@undecodable_payload_ends_consumption strict_lib Sample.decode Sample.loads
              (KafkaConsumer.set_running true Sample.stopped_consumer)
              [Sample.broker_record 0 "{}"] [Sample.broker_record 2 "{}"]
              (Sample.broker_record 1 "not json")
              (ValueError (lit "Expecting value")) eq_refl)
    as (_ & Hr & _ & Hc & _).
  - repeat constructor. eexists. reflexivity.
  - reflexivity.
  - cbv zeta. split; [exact Hc | exact Hr].
Defined.
